(** * ProtectionController: key-system selection, key sessions and license exchange

    A shallow embedding of [src/app/js/streaming/protection/ProtectionController.js].

    The controller is an object with closure-scoped variables
    ([keySystems], [pendingNeedKeyData], [audioCodec], [videoCodec],
    [protDataSet], [xhrLicense], [initialized]) and public fields
    ([keySystem], [protectionModel], ...).  Every method and every event
    handler is embedded as a computation in a small state / trace / exception
    monad over that state.  Calls into collaborators whose code lives in other
    files (the protection model, the protection extensions, the key systems,
    the license-server descriptors, [XMLHttpRequest]) are either recorded in
    the trace (commands) or taken from a record of external functions
    (queries).  [debug.log] calls are not part of the model, and the events
    delivered to the controller's own handlers are taken to be well-formed:
    an event without [error] carries the [data] its handler reads.  The
    "access complete" event is not: its [data] may be missing, and the
    listener that dereferences it while logging (line 195) throws then.
    The [ArrayBuffer.prototype.slice] fallback at the head of
    the file is embedded as a function on byte sequences. *)

From Stdlib Require Import ZArith.
From Stdlib.Strings Require Import Byte Ascii.
From stdpp Require Import base option list strings gmap.

(** ** JavaScript values the controller looks at *)

Definition bytes := list byte.

#[global] Instance byte_eq_dec : EqDecision byte := Byte.byte_eq_dec.

(** A string-valued slot that may also hold [null] or [undefined]. *)
Inductive JsStr :=
| JNull
| JUndefined
| JString (s : string).

#[global] Instance JsStr_eq_dec : EqDecision JsStr.
Proof. solve_decision. Defined.

(** [if (v)] on such a slot. *)
Definition truthy (v : JsStr) : bool :=
  match v with
  | JString s => negb (bool_decide (s = ""))
  | _ => false
  end.

(** [v === null] *)
Definition is_null (v : JsStr) : bool :=
  match v with JNull => true | _ => false end.

(** [this.response] of an [XMLHttpRequest]. *)
Inductive JsResponse :=
| RNull
| RText (s : string)
| RBuffer (b : bytes).

Definition response_truthy (r : JsResponse) : bool :=
  match r with
  | RNull => false
  | RText s => negb (bool_decide (s = ""))
  | RBuffer _ => true
  end.

(** A caught exception, as far as [ex.code], [ex.name], [ex.message] go. *)
Record JsExn := { ex_code : option Z; ex_name : string; ex_message : string }.

Definition TypeError (msg : string) : JsExn :=
  {| ex_code := None; ex_name := "TypeError"; ex_message := msg |}.

(** [key.toLowerCase()] on ASCII letters. *)
Definition lower_ascii (c : ascii) : ascii :=
  let n := Ascii.nat_of_ascii c in
  if Nat.leb 65 n && Nat.leb n 90 then Ascii.ascii_of_nat (n + 32) else c.

Fixpoint toLowerCase (s : string) : string :=
  match s with
  | EmptyString => EmptyString
  | String c r => String (lower_ascii c) (toLowerCase r)
  end.

(** ** Data model *)

(** A key system object.  Object identity ([===]) is [uid]; [sessionType] is
    the value the object was created with, later assignments are kept in the
    controller state (see [sessionTypeSet]). *)
Record KeySystem := {
  uid : nat;
  systemString : string;
  schemeIdURI : string;
  sessionType : string
}.

Definition same_ks (a b : KeySystem) : bool := Nat.eqb (uid a) (uid b).

(** The three values the field [this.keySystem] takes. *)
Inductive KsField :=
| KsUndefined
| KsNull
| KsObj (k : KeySystem).

(** [this.keySystem === c.ks] *)
Definition ks_is (f : KsField) (k : KeySystem) : bool :=
  match f with KsObj k' => same_ks k' k | _ => false end.

(** One entry of a [supportedKS] array. *)
Record Candidate := {
  ks : KeySystem;
  initData : bytes;
  cdmData : option bytes
}.

Definition Batch := list Candidate.

Record KeySystemInfo := { info_schemeIdURI : string; info_systemString : string }.

Record SessionToken := {
  token_id : nat;
  token_initData : bytes;
  token_sessionID : JsStr
}.

(** [protData.serverURL]: absent, a string, or an object keyed by message type. *)
Inductive ServerURL :=
| SUrlUnset
| SUrlString (s : string)
| SUrlObject (m : gmap string JsStr).

Record ProtectionData := {
  serverURL : ServerURL;
  laURL : JsStr;
  httpRequestHeaders : option (list (string * string));
  withCredentials : bool
}.

(** [e.data] of a key-message event. *)
Record KeyMessage := {
  message : option bytes;
  messageType : JsStr;
  sessionToken : SessionToken;
  defaultURL : JsStr
}.

(** [event.data.initData] of a need-key event: an [ArrayBuffer], or a typed
    array view, of which the handler takes the underlying [.buffer]. *)
Inductive InitDataArg :=
| ArrayBuffer (b : bytes)
| ArrayView (buffer : bytes) (byteOffset byteLength : nat).

Record NeedKey := { initDataType : string; nk_initData : InitDataArg }.

(** Codes of [MediaPlayer.dependencies.ErrorHandler.prototype] (the table
    itself is not part of this file), and codes passed through from events. *)
Inductive ErrorCode :=
| MEDIA_KEYSYSERR_ACCESS_DENIED
| MEDIA_KEYMESSERR_NO_CHALLENGE
| MEDIA_KEYMESSERR_URL_LICENSER_UNKNOWN
| MEDIA_KEYMESSERR_LICENSER_ERROR
| MEDIA_KEYERR_SERVER_CERTIFICATE
| MEDIA_KEYMESSERR_NO_SESSION
| CodeOf (c : option Z).

#[global] Instance ErrorCode_eq_dec : EqDecision ErrorCode.
Proof. solve_decision. Defined.

(** The [data] member of a [MediaPlayer.vo.Error]. *)
Inductive ErrorData :=
| NoData
| KeySystemsData (l : list KeySystemInfo)
| LicenserData (url : JsStr) (status : Z) (error : string)
| OpaqueData (d : JsStr).

Record Error := { code : ErrorCode; msg : string; data : ErrorData }.

(** License-server descriptor returned by [protectionExt.getLicenseServer]. *)
Record LicenseServerData := {
  getServerURLFromMessage : JsStr -> bytes -> string -> JsStr;
  getHTTPMethod : string -> string;
  getResponseType : string -> string -> string;
  getLicenseMessage : JsResponse -> string -> string -> option bytes;
  getErrorResponse : JsResponse -> string
}.

(** Collaborators defined in other files of the repository.  The gateway
    (protection model) has a state of its own, of which the controller reads
    [keySystem] and [getAllInitData()], and which [createKeySession] changes,
    possibly raising. *)
Record Externals := {
  Gateway : Type;
  Config : Type;
  ContentProtection : Type;
  MediaElement : Type;
  KeySystemAccess : Type;
  (* protection model *)
  model_keySystem : Gateway -> KsField;
  model_getAllInitData : Gateway -> list bytes;
  model_createKeySession :
    Gateway -> bytes -> string -> option bytes -> Gateway * option JsExn;
  (* protectionExt *)
  getKeySystems : list KeySystem;
  getLicenseServer :
    KeySystem -> option ProtectionData -> string -> option LicenseServerData;
  isClearKey : KeySystem -> bool;
  processClearKeyLicenseRequest : option ProtectionData -> bytes -> option bytes;
  getSupportedKeySystems : bytes -> Batch;
  getSupportedKeySystemsFromContentProtection : ContentProtection -> option Batch;
  initDataEquals : bytes -> bytes -> bool;
  (* CommonEncryption *)
  getPSSHData : bytes -> bytes;
  getPSSHForKeySystem : KsField -> bytes -> option bytes;
  (* key system methods *)
  getKeySystemConfigurations : KeySystem -> JsStr -> JsStr -> string -> Config;
  getLicenseServerURLFromInitData : KeySystem -> bytes -> JsStr;
  getRequestHeadersFromMessage : KeySystem -> bytes -> option (list (string * string));
  getLicenseRequestFromMessage : KeySystem -> bytes -> option bytes
}.

(** How a call ends: it returns, or an exception leaves it. *)
Inductive Outcome (A : Type) :=
| Returned (a : A)
| Thrown (e : JsExn).
Arguments Returned {A} a.
Arguments Thrown {A} e.

Section Controller.

Context (X : Externals).

Set Implicit Arguments.

(** ** Effects: what the controller does to its collaborators *)

(** Event names of [MediaPlayer.models.ProtectionModel.eventList]. *)
Inductive EventName :=
| ENAME_NEED_KEY
| ENAME_KEY_MESSAGE
| ENAME_KEY_ADDED
| ENAME_KEY_ERROR
| ENAME_KEY_SESSION_CREATED
| ENAME_KEY_SESSION_CLOSED
| ENAME_KEY_SESSION_REMOVED
| ENAME_KEY_STATUSES_CHANGED
| ENAME_SERVER_CERTIFICATE_UPDATED
| ENAME_KEY_SYSTEM_ACCESS_COMPLETE
| ENAME_KEY_SYSTEM_SELECTED.

#[global] Instance EventName_eq_dec : EqDecision EventName.
Proof. solve_decision. Defined.

(** The objects that subscribe to the protection model: the controller
    itself, and the per-call listener objects [ksAccess] and [ksSelected] of
    [selectKeySystem], identified by the activation that created them. *)
Inductive Observer :=
| ObsController
| ObsKsAccess (activation : nat)
| ObsKsSelected (activation : nat).

#[global] Instance Observer_eq_dec : EqDecision Observer.
Proof. solve_decision. Defined.

(** Events on the application-facing bus ([eventBus.dispatchEvent]). *)
Inductive PublicEvent :=
| KEY_SYSTEM_SELECTED (data : option (KeySystemAccess X))
| KEY_SYSTEM_SELECTED_error (error : string)
| KEY_MESSAGE (data : KeyMessage).

(** [this.notify(...)]: the fault channel towards the host. *)
Inductive Notification :=
| ENAME_PROTECTION_ERROR (e : Error)
| KEY_SESSION_CREATED_failed (reason : string) (error : option Error).

(** Calls on [this.protectionModel]. *)
Inductive ModelCall :=
| model_init
| model_subscribe (name : EventName) (o : Observer) (oneShot : bool)
| model_unsubscribe (name : EventName) (o : Observer)
| model_requestKeySystemAccess (requested : list (KeySystem * Config X))
| model_selectKeySystem (access : option (KeySystemAccess X))
| model_updateKeySession (token : SessionToken) (material : bytes)
| model_createKeySession_call (initData : bytes) (sessionType : string) (cdmData : option bytes)
| model_loadKeySession (sessionID : string)
| model_removeKeySession (token : SessionToken)
| model_closeKeySession (token : SessionToken)
| model_setServerCertificate (cert : bytes)
| model_setMediaElement (element : option (MediaElement X))
| model_teardown.

Inductive Action :=
| Dispatch (e : PublicEvent)
| Notify (n : Notification)
| Model (c : ModelCall)
| ProtectionExt_init (data : option (gmap string ProtectionData))
| EventBus_addEventListener (type : string) (listener : nat)
| EventBus_removeEventListener (type : string) (listener : nat)
| XhrNew (id : nat)
| XhrOpen (id : nat) (method : string) (url : JsStr)
| XhrResponseType (id : nat) (responseType : string)
| XhrWithCredentials (id : nat)
| XhrSetRequestHeader (id : nat) (key value : string)
| XhrSend (id : nat) (body : option bytes)
| XhrAbort (id : nat).

(** ** Controller state *)

(** What the [onload] / [onerror] / [onloadend] closures of one
    [onKeyMessage] activation capture. *)
Record XhrClosure := {
  needFailureReport : bool;
  c_url : JsStr;
  c_licenseServerData : LicenseServerData;
  c_sessionToken : SessionToken;
  c_keySystemString : string;
  c_messageType : string
}.

(** One [XMLHttpRequest] object: the ad-hoc [aborted] property, whether
    [send] was called and whether the exchange has ended, and the handlers
    installed on it. *)
Record Xhr := {
  aborted : bool;
  sent : bool;
  ended : bool;
  handlers : option XhrClosure
}.

(** What the listener objects of one [selectKeySystem] activation capture. *)
Record Selection := {
  sel_supportedKS : Batch;
  sel_fromManifest : bool;
  sel_keySystemsInfo : list KeySystemInfo;
  sel_ksIdx : nat;
  sel_keySystemAccess : option (KeySystemAccess X)
}.

Record Subscription := {
  sub_name : EventName;
  sub_observer : Observer;
  sub_oneShot : bool
}.

Record State := {
  (* variables of the constructor's closure *)
  keySystems : option (list KeySystem);
  pendingNeedKeyData : list Batch;
  audioCodec : JsStr;
  videoCodec : JsStr;
  protDataSet : option (gmap string ProtectionData);
  xhrLicense : option nat;
  initialized : bool;
  (* properties of the controller object *)
  keySystem : KsField;
  keysystem : KsField;
  protectionModel : bool;
  (* objects reachable from the controller *)
  xhrs : list Xhr;
  selections : list Selection;
  sessionTypeSet : gmap nat string;
  (* the protection model: its own state and its subscriber table *)
  model : Gateway X;
  subscriptions : list Subscription
}.

Definition set_keySystems v (s : State) : State :=
  {| keySystems := v; pendingNeedKeyData := pendingNeedKeyData s;
     audioCodec := audioCodec s; videoCodec := videoCodec s;
     protDataSet := protDataSet s; xhrLicense := xhrLicense s;
     initialized := initialized s; keySystem := keySystem s;
     keysystem := keysystem s; protectionModel := protectionModel s;
     xhrs := xhrs s; selections := selections s;
     sessionTypeSet := sessionTypeSet s; model := model s;
     subscriptions := subscriptions s |}.

Definition set_pendingNeedKeyData v (s : State) : State :=
  {| keySystems := keySystems s; pendingNeedKeyData := v;
     audioCodec := audioCodec s; videoCodec := videoCodec s;
     protDataSet := protDataSet s; xhrLicense := xhrLicense s;
     initialized := initialized s; keySystem := keySystem s;
     keysystem := keysystem s; protectionModel := protectionModel s;
     xhrs := xhrs s; selections := selections s;
     sessionTypeSet := sessionTypeSet s; model := model s;
     subscriptions := subscriptions s |}.

Definition set_codecs a v (s : State) : State :=
  {| keySystems := keySystems s; pendingNeedKeyData := pendingNeedKeyData s;
     audioCodec := a; videoCodec := v;
     protDataSet := protDataSet s; xhrLicense := xhrLicense s;
     initialized := initialized s; keySystem := keySystem s;
     keysystem := keysystem s; protectionModel := protectionModel s;
     xhrs := xhrs s; selections := selections s;
     sessionTypeSet := sessionTypeSet s; model := model s;
     subscriptions := subscriptions s |}.

Definition set_protDataSet v (s : State) : State :=
  {| keySystems := keySystems s; pendingNeedKeyData := pendingNeedKeyData s;
     audioCodec := audioCodec s; videoCodec := videoCodec s;
     protDataSet := v; xhrLicense := xhrLicense s;
     initialized := initialized s; keySystem := keySystem s;
     keysystem := keysystem s; protectionModel := protectionModel s;
     xhrs := xhrs s; selections := selections s;
     sessionTypeSet := sessionTypeSet s; model := model s;
     subscriptions := subscriptions s |}.

Definition set_xhrLicense v (s : State) : State :=
  {| keySystems := keySystems s; pendingNeedKeyData := pendingNeedKeyData s;
     audioCodec := audioCodec s; videoCodec := videoCodec s;
     protDataSet := protDataSet s; xhrLicense := v;
     initialized := initialized s; keySystem := keySystem s;
     keysystem := keysystem s; protectionModel := protectionModel s;
     xhrs := xhrs s; selections := selections s;
     sessionTypeSet := sessionTypeSet s; model := model s;
     subscriptions := subscriptions s |}.

Definition set_initialized v (s : State) : State :=
  {| keySystems := keySystems s; pendingNeedKeyData := pendingNeedKeyData s;
     audioCodec := audioCodec s; videoCodec := videoCodec s;
     protDataSet := protDataSet s; xhrLicense := xhrLicense s;
     initialized := v; keySystem := keySystem s;
     keysystem := keysystem s; protectionModel := protectionModel s;
     xhrs := xhrs s; selections := selections s;
     sessionTypeSet := sessionTypeSet s; model := model s;
     subscriptions := subscriptions s |}.

Definition set_keySystem v (s : State) : State :=
  {| keySystems := keySystems s; pendingNeedKeyData := pendingNeedKeyData s;
     audioCodec := audioCodec s; videoCodec := videoCodec s;
     protDataSet := protDataSet s; xhrLicense := xhrLicense s;
     initialized := initialized s; keySystem := v;
     keysystem := keysystem s; protectionModel := protectionModel s;
     xhrs := xhrs s; selections := selections s;
     sessionTypeSet := sessionTypeSet s; model := model s;
     subscriptions := subscriptions s |}.

Definition set_protectionModel v (s : State) : State :=
  {| keySystems := keySystems s; pendingNeedKeyData := pendingNeedKeyData s;
     audioCodec := audioCodec s; videoCodec := videoCodec s;
     protDataSet := protDataSet s; xhrLicense := xhrLicense s;
     initialized := initialized s; keySystem := keySystem s;
     keysystem := keysystem s; protectionModel := v;
     xhrs := xhrs s; selections := selections s;
     sessionTypeSet := sessionTypeSet s; model := model s;
     subscriptions := subscriptions s |}.

Definition set_xhrs v (s : State) : State :=
  {| keySystems := keySystems s; pendingNeedKeyData := pendingNeedKeyData s;
     audioCodec := audioCodec s; videoCodec := videoCodec s;
     protDataSet := protDataSet s; xhrLicense := xhrLicense s;
     initialized := initialized s; keySystem := keySystem s;
     keysystem := keysystem s; protectionModel := protectionModel s;
     xhrs := v; selections := selections s;
     sessionTypeSet := sessionTypeSet s; model := model s;
     subscriptions := subscriptions s |}.

Definition set_selections v (s : State) : State :=
  {| keySystems := keySystems s; pendingNeedKeyData := pendingNeedKeyData s;
     audioCodec := audioCodec s; videoCodec := videoCodec s;
     protDataSet := protDataSet s; xhrLicense := xhrLicense s;
     initialized := initialized s; keySystem := keySystem s;
     keysystem := keysystem s; protectionModel := protectionModel s;
     xhrs := xhrs s; selections := v;
     sessionTypeSet := sessionTypeSet s; model := model s;
     subscriptions := subscriptions s |}.

Definition set_sessionTypeSet v (s : State) : State :=
  {| keySystems := keySystems s; pendingNeedKeyData := pendingNeedKeyData s;
     audioCodec := audioCodec s; videoCodec := videoCodec s;
     protDataSet := protDataSet s; xhrLicense := xhrLicense s;
     initialized := initialized s; keySystem := keySystem s;
     keysystem := keysystem s; protectionModel := protectionModel s;
     xhrs := xhrs s; selections := selections s;
     sessionTypeSet := v; model := model s;
     subscriptions := subscriptions s |}.

Definition set_model v (s : State) : State :=
  {| keySystems := keySystems s; pendingNeedKeyData := pendingNeedKeyData s;
     audioCodec := audioCodec s; videoCodec := videoCodec s;
     protDataSet := protDataSet s; xhrLicense := xhrLicense s;
     initialized := initialized s; keySystem := keySystem s;
     keysystem := keysystem s; protectionModel := protectionModel s;
     xhrs := xhrs s; selections := selections s;
     sessionTypeSet := sessionTypeSet s; model := v;
     subscriptions := subscriptions s |}.

Definition set_subscriptions v (s : State) : State :=
  {| keySystems := keySystems s; pendingNeedKeyData := pendingNeedKeyData s;
     audioCodec := audioCodec s; videoCodec := videoCodec s;
     protDataSet := protDataSet s; xhrLicense := xhrLicense s;
     initialized := initialized s; keySystem := keySystem s;
     keysystem := keysystem s; protectionModel := protectionModel s;
     xhrs := xhrs s; selections := selections s;
     sessionTypeSet := sessionTypeSet s; model := model s;
     subscriptions := v |}.

(** ** The monad: state, trace of effects, JavaScript exceptions *)

Definition M (A : Type) : Type := State -> State * list Action * Outcome A.

Definition state_of {A} (r : State * list Action * Outcome A) : State := r.1.1.
Definition trace_of {A} (r : State * list Action * Outcome A) : list Action := r.1.2.
Definition outcome_of {A} (r : State * list Action * Outcome A) : Outcome A := r.2.

Definition ret {A} (a : A) : M A := fun s => (s, [], Returned a).

(** [m; k]: [k] runs on the state [m] left, unless [m] threw. *)
Definition bind {A B} (m : M A) (k : A -> M B) : M B :=
  fun s =>
    match m s with
    | (s1, t1, Returned a) =>
        match k a s1 with (s2, t2, o) => (s2, t1 ++ t2, o) end
    | (s1, t1, Thrown e) => (s1, t1, Thrown e)
    end.

Definition throw {A} (e : JsExn) : M A := fun s => (s, [], Thrown e).

(** [try { m } catch (ex) { h ex }] *)
Definition try_catch {A} (m : M A) (h : JsExn -> M A) : M A :=
  fun s =>
    match m s with
    | (s1, t1, Thrown e) =>
        match h e s1 with (s2, t2, o) => (s2, t1 ++ t2, o) end
    | r => r
    end.

Definition gets {A} (f : State -> A) : M A := fun s => (s, [], Returned (f s)).
Definition modify (f : State -> State) : M unit := fun s => (f s, [], Returned tt).
Definition emit (a : Action) : M unit := fun s => (s, [a], Returned tt).
Definition emits (l : list Action) : M unit := fun s => (s, l, Returned tt).

Declare Scope js_scope.
Delimit Scope js_scope with js.
Local Notation "x <- m ;; k" := (bind m (fun x => k))
  (at level 100, m at next level, k at level 200, right associativity) : js_scope.
Local Notation "m ;;; k" := (bind m (fun _ => k))
  (at level 100, k at level 200, right associativity) : js_scope.
Local Open Scope js_scope.

(** ** Primitive operations *)

(** Dereferencing [this.protectionModel]: a [TypeError] once [teardown] has
    set it to [undefined]. *)
Definition the_model : M unit :=
  pm <- gets protectionModel ;;
  if pm then ret tt else throw (TypeError "this.protectionModel is undefined").

(** Dereferencing [this.keySystem]. *)
Definition the_keySystem : M KeySystem :=
  f <- gets keySystem ;;
  match f with
  | KsObj k => ret k
  | _ => throw (TypeError "this.keySystem is not an object")
  end.

(** [k.sessionType], taking assignments made through the controller into account. *)
Definition ksSessionType (s : State) (k : KeySystem) : string :=
  default (sessionType k) (sessionTypeSet s !! uid k).

Definition model_call (c : ModelCall) : M unit :=
  the_model ;;; emit (Model c).

Definition dispatchEvent (e : PublicEvent) : M unit := emit (Dispatch e).
Definition notify (n : Notification) : M unit := emit (Notify n).

Definition is_sub (name : EventName) (o : Observer) (sb : Subscription) : bool :=
  bool_decide (sub_name sb = name) && bool_decide (sub_observer sb = o).

(** Modelled from the spec: the subscriber table of the protection model
    ([subscribe] / [unsubscribe] are injected into every object by the
    dependency container, whose code is not in this file).  The spec speaks
    of one-shot handlers, deregistered after their first invocation. *)
Definition subscribe (name : EventName) (o : Observer) (oneShot : bool) : M unit :=
  model_call (model_subscribe name o oneShot) ;;;
  modify (fun s => set_subscriptions
    (subscriptions s ++ [{| sub_name := name; sub_observer := o; sub_oneShot := oneShot |}]) s).

Definition unsubscribe (name : EventName) (o : Observer) : M unit :=
  model_call (model_unsubscribe name o) ;;;
  modify (fun s => set_subscriptions
    (List.filter (fun sb => negb (is_sub name o sb)) (subscriptions s)) s).

Definition when (b : bool) (m : M unit) : M unit := if b then m else ret tt.

(** ** [getProtData] (lines 95-102) *)

Definition getProtData (pds : option (gmap string ProtectionData)) (keySystem : KeySystem)
  : option ProtectionData :=
  let keySystemString := systemString keySystem in
  match pds with
  | Some set => set !! keySystemString
  | None => None
  end.

(** ** [createKeySession] (lines 642-675) *)

(** The duplicate check: the loop over [getAllInitData()] that returns at the
    first [initDataEquals] hit. *)
Fixpoint seen (initDataForKS : bytes) (currentInitData : list bytes) : bool :=
  match currentInitData with
  | [] => false
  | c :: rest => if initDataEquals X initDataForKS c then true else seen initDataForKS rest
  end.

Definition Error_of_exception (ex : JsExn) : Error :=
  {| code := CodeOf (ex_code ex); msg := ex_name ex;
     data := OpaqueData (JString (ex_message ex)) |}.

Definition createKeySession (initData : bytes) (cdmData : option bytes) : M unit :=
  f <- gets keySystem ;;
  match getPSSHForKeySystem X f initData with
  | Some initDataForKS =>
      the_model ;;;
      g <- gets model ;;
      if seen initDataForKS (model_getAllInitData X g) then ret tt
      else
        try_catch
          (k <- the_keySystem ;;
           st <- gets (fun s => ksSessionType s k) ;;
           emit (Model (model_createKeySession_call initDataForKS st cdmData)) ;;;
           match model_createKeySession X g initDataForKS st cdmData with
           | (g', r) =>
               modify (set_model g') ;;;
               match r with Some ex => throw ex | None => ret tt end
           end)
          (fun ex =>
             notify (KEY_SESSION_CREATED_failed
                       "Create key session raised en exception"
                       (Some (Error_of_exception ex))))
  | None =>
      k <- the_keySystem ;;
      notify (KEY_SESSION_CREATED_failed
                ("needkey/encrypted event contains no initData corresponding to that key system "
                   +:+ systemString k) None)
  end.

(** ** [selectKeySystem] (lines 104-236) *)

Definition requested_of (s : State) (c : Candidate) : KeySystem * Config X :=
  (ks c, getKeySystemConfigurations X (ks c) (videoCodec s) (audioCodec s)
           (ksSessionType s (ks c))).

Definition info_of (c : Candidate) : KeySystemInfo :=
  {| info_schemeIdURI := schemeIdURI (ks c); info_systemString := systemString (ks c) |}.

(** The loop of the first branch: the first index whose [ks] is [this.keySystem]. *)
Fixpoint find_ks (k : KeySystem) (supportedKS : Batch) (ksIdx : nat)
  : option (nat * Candidate) :=
  match supportedKS with
  | [] => None
  | c :: rest => if same_ks k (ks c) then Some (ksIdx, c) else find_ks k rest (S ksIdx)
  end.

Definition new_selection (sel : Selection) : M nat :=
  n <- gets (fun s => length (selections s)) ;;
  modify (fun s => set_selections (selections s ++ [sel]) s) ;;;
  ret n.

Definition push_pending (supportedKS : Batch) : M unit :=
  modify (fun s => set_pendingNeedKeyData (pendingNeedKeyData s ++ [supportedKS]) s).

Definition selectKeySystem (supportedKS : Batch) (fromManifest : bool) : M unit :=
  f <- gets keySystem ;;
  match f with
  | KsObj k =>
      (* We have a key system *)
      match find_ks k supportedKS 0 with
      | Some (ksIdx, c) =>
          req <- gets (fun s => requested_of s c) ;;
          a <- new_selection
                 {| sel_supportedKS := supportedKS; sel_fromManifest := fromManifest;
                    sel_keySystemsInfo := [info_of c]; sel_ksIdx := ksIdx;
                    sel_keySystemAccess := None |} ;;
          subscribe ENAME_KEY_SYSTEM_ACCESS_COMPLETE (ObsKsAccess a) true ;;;
          model_call (model_requestKeySystemAccess [req])
      | None => ret tt
      end
  | KsUndefined =>
      (* First time through, so we need to select a key system *)
      modify (set_keySystem KsNull) ;;;
      push_pending supportedKS ;;;
      reqs <- gets (fun s => map (requested_of s) supportedKS) ;;
      a <- new_selection
             {| sel_supportedKS := supportedKS; sel_fromManifest := fromManifest;
                sel_keySystemsInfo := map info_of supportedKS; sel_ksIdx := 0;
                sel_keySystemAccess := None |} ;;
      subscribe ENAME_KEY_SYSTEM_SELECTED (ObsKsSelected a) true ;;;
      subscribe ENAME_KEY_SYSTEM_ACCESS_COMPLETE (ObsKsSelected a) true ;;;
      model_call (model_requestKeySystemAccess reqs)
  | KsNull =>
      (* We are in the process of selecting a key system, so just save the data *)
      push_pending supportedKS
  end.

Definition text_of (e : JsStr) : string :=
  match e with
  | JString s => s
  | JNull => "null"
  | JUndefined => "undefined"
  end.

Definition ACCESS_DENIED (infos : list KeySystemInfo) : Notification :=
  ENAME_PROTECTION_ERROR
    {| code := MEDIA_KEYSYSERR_ACCESS_DENIED; msg := "No KeySystem/CDM available";
       data := KeySystemsData infos |}.

(** [ksAccess[ENAME_KEY_SYSTEM_ACCESS_COMPLETE]] (lines 137-153) *)
Definition ksAccess_ACCESS_COMPLETE (sel : Selection)
    (data : option (KeySystemAccess X)) (error : JsStr) : M unit :=
  if truthy error then
    dispatchEvent (KEY_SYSTEM_SELECTED_error
                     ("[DRM] KeySystem Access Denied! -- " +:+ text_of error))
  else
    dispatchEvent (KEY_SYSTEM_SELECTED data) ;;;
    match sel_supportedKS sel !! sel_ksIdx sel with
    | Some c => createKeySession (initData c) (cdmData c)
    | None => throw (TypeError "supportedKS[ksIdx] is undefined")
    end.

Definition set_keySystemAccess (a : nat) (v : option (KeySystemAccess X)) : M unit :=
  modify (fun s => set_selections
    (alter (fun sel => {| sel_supportedKS := sel_supportedKS sel;
                          sel_fromManifest := sel_fromManifest sel;
                          sel_keySystemsInfo := sel_keySystemsInfo sel;
                          sel_ksIdx := sel_ksIdx sel;
                          sel_keySystemAccess := v |}) a (selections s)) s).

(** [ksSelected[ENAME_KEY_SYSTEM_ACCESS_COMPLETE]] (lines 180-198) *)
Definition ksSelected_ACCESS_COMPLETE (a : nat) (sel : Selection)
    (data : option (KeySystemAccess X)) (error : JsStr) : M unit :=
  if truthy error then
    modify (set_keySystem KsUndefined) ;;;
    unsubscribe ENAME_KEY_SYSTEM_SELECTED (ObsKsSelected a) ;;;
    when (negb (sel_fromManifest sel))
      (dispatchEvent (KEY_SYSTEM_SELECTED_error
                        ("[DRM] KeySystem Access Denied! -- " +:+ text_of error))) ;;;
    notify (ACCESS_DENIED (sel_keySystemsInfo sel))
  else
    set_keySystemAccess a data ;;;
    (* line 195 reads [keySystemAccess.keySystem.systemString] for the log *)
    match data with
    | Some _ => model_call (model_selectKeySystem data)
    | None => throw (TypeError "keySystemAccess is null")
    end.

(** The inner loop of the replay (lines 208-213): scan one batch, create the
    session of the first candidate of the selected key system, [break]. *)
Fixpoint replay_batch (batch : Batch) : M unit :=
  match batch with
  | [] => ret tt
  | c :: rest =>
      f <- gets keySystem ;;
      if ks_is f (ks c) then createKeySession (initData c) (cdmData c)
      else replay_batch rest
  end.

(** The outer loop (line 207). *)
Fixpoint replay (pending : list Batch) : M unit :=
  match pending with
  | [] => ret tt
  | batch :: rest => replay_batch batch ;;; replay rest
  end.

(** [ksSelected[ENAME_KEY_SYSTEM_SELECTED]] (lines 199-227) *)
Definition ksSelected_SELECTED (a : nat) (fromManifest : bool)
    (keySystemsInfo : list KeySystemInfo) (error : JsStr) : M unit :=
  if negb (truthy error) then
    the_model ;;;
    g <- gets model ;;
    modify (set_keySystem (model_keySystem X g)) ;;;
    keySystemAccess <- gets (fun s => selections s !! a ≫= sel_keySystemAccess) ;;
    dispatchEvent (KEY_SYSTEM_SELECTED keySystemAccess) ;;;
    pending <- gets pendingNeedKeyData ;;
    replay pending
  else
    modify (set_keySystem KsUndefined) ;;;
    when (negb fromManifest)
      (dispatchEvent (KEY_SYSTEM_SELECTED_error
                        ("[DRM] Error selecting key system! -- " +:+ text_of error))) ;;;
    notify (ACCESS_DENIED keySystemsInfo).


(** ** [onKeyMessage] (lines 245-400) *)

(** [if (protData.serverURL)] *)
Definition serverURL_truthy (u : ServerURL) : bool :=
  match u with
  | SUrlUnset => false
  | SUrlString s => negb (bool_decide (s = ""))
  | SUrlObject _ => true
  end.

(** Lines 299-311: the URL taken from the protection data, [null] if none. *)
Definition configuredURL (protData : option ProtectionData) (messageType : string) : JsStr :=
  match protData with
  | Some protData =>
      if serverURL_truthy (serverURL protData) then
        match serverURL protData with
        | SUrlString serverURL =>
            if negb (bool_decide (serverURL = "")) then JString serverURL else JNull
        | SUrlObject serverURL =>
            match serverURL !! messageType with
            | Some u => u
            | None => JNull
            end
        | SUrlUnset => JNull
        end
      else if truthy (laURL protData) then laURL protData
      else JNull
  | None => JNull
  end.

(** Lines 299-318: the URL before the descriptor sees it. *)
Definition licenseServerURL (keySystem : KeySystem) (protData : option ProtectionData)
    (messageType : string) (e : KeyMessage) : JsStr :=
  let url := configuredURL protData messageType in
  if is_null url then
    let url := getLicenseServerURLFromInitData X keySystem
                 (getPSSHData X (token_initData (sessionToken e))) in
    if negb (truthy url) then defaultURL e else url
  else url.

Definition new_xhr : M nat :=
  n <- gets (fun s => length (xhrs s)) ;;
  modify (fun s => set_xhrs
    (xhrs s ++ [{| aborted := false; sent := false; ended := false; handlers := None |}]) s) ;;;
  emit (XhrNew n) ;;;
  ret n.

Definition update_xhr (id : nat) (f : Xhr -> Xhr) : M unit :=
  modify (fun s => set_xhrs (alter f id (xhrs s)) s).

Definition with_aborted (v : bool) (x : Xhr) : Xhr :=
  {| aborted := v; sent := sent x; ended := ended x; handlers := handlers x |}.
Definition with_sent (v : bool) (x : Xhr) : Xhr :=
  {| aborted := aborted x; sent := v; ended := ended x; handlers := handlers x |}.
Definition with_ended (v : bool) (x : Xhr) : Xhr :=
  {| aborted := aborted x; sent := sent x; ended := v; handlers := handlers x |}.
Definition with_handlers (v : option XhrClosure) (x : Xhr) : Xhr :=
  {| aborted := aborted x; sent := sent x; ended := ended x; handlers := v |}.

Definition with_needFailureReport (v : bool) (c : XhrClosure) : XhrClosure :=
  {| needFailureReport := v; c_url := c_url c;
     c_licenseServerData := c_licenseServerData c;
     c_sessionToken := c_sessionToken c;
     c_keySystemString := c_keySystemString c;
     c_messageType := c_messageType c |}.

(** Assignment to the captured variable [needFailureReport]. *)
Definition set_needFailureReport (id : nat) (v : bool) : M unit :=
  update_xhr id (fun x => with_handlers (with_needFailureReport v <$> handlers x) x).

(** [xhrLicense.onload] (lines 333-350); [this] is the request [id], whose
    [status], [readyState] and [response] the browser has filled in. *)
Definition xhr_onload (id : nat) (status readyState : Z) (response : JsResponse) : M unit :=
  h <- gets (fun s => xhrs s !! id ≫= handlers) ;;
  match h with
  | None => ret tt
  | Some c =>
      if ((status <? 200) || (status >? 299))%Z then ret tt
      else if ((status =? 200) && (readyState =? 4))%Z then
        set_needFailureReport id false ;;;
        match getLicenseMessage (c_licenseServerData c) response
                (c_keySystemString c) (c_messageType c) with
        | Some licenseMessage =>
            set_needFailureReport id false ;;;
            model_call (model_updateKeySession (c_sessionToken c) licenseMessage)
        | None => set_needFailureReport id true
        end
      else ret tt
  end.

Definition LICENSER_ERROR (url : JsStr) (status : Z) (error : string) : Notification :=
  ENAME_PROTECTION_ERROR
    {| code := MEDIA_KEYMESSERR_LICENSER_ERROR; msg := "License request failed";
       data := LicenserData url status error |}.

(** [xhrLicense.onerror = xhrLicense.onloadend] (lines 352-369) *)
Definition xhr_onerror_onloadend (id : nat) (status : Z) (response : JsResponse) : M unit :=
  x <- gets (fun s => xhrs s !! id) ;;
  match x ≫= handlers with
  | None => ret tt
  | Some c =>
      if negb (needFailureReport c) then modify (set_xhrLicense None)
      else
        set_needFailureReport id false ;;;
        (* send error only if request has not been aborted by reset *)
        when (negb (from_option aborted false x))
          (notify (LICENSER_ERROR (c_url c) status
                     (if response_truthy response
                      then getErrorResponse (c_licenseServerData c) response
                      else ""))) ;;;
        modify (set_xhrLicense None)
  end.

(** [updateHeaders] (lines 372-382): the calls on request [id], one
    iteration of the [for (key in headers)] loop after the other. *)
Fixpoint header_actions (id : nat) (headers : list (string * string)) : list Action :=
  match headers with
  | [] => []
  | (key, value) :: rest =>
      (if bool_decide ("authorization" = toLowerCase key) then [XhrWithCredentials id] else [])
        ++ XhrSetRequestHeader id key value :: header_actions id rest
  end.

Definition updateHeaders (id : nat) (headers : option (list (string * string))) : M unit :=
  match headers with
  | Some headers => emits (header_actions id headers)
  | None => ret tt
  end.

Definition NO_CHALLENGE (text : string) : Notification :=
  ENAME_PROTECTION_ERROR
    {| code := MEDIA_KEYMESSERR_NO_CHALLENGE; msg := text; data := NoData |}.

Definition URL_LICENSER_UNKNOWN : Notification :=
  ENAME_PROTECTION_ERROR
    {| code := MEDIA_KEYMESSERR_URL_LICENSER_UNKNOWN;
       msg := "No license server URL specified"; data := NoData |}.

(** [!message || message.byteLength === 0] *)
Definition message_empty (m : option bytes) : bool :=
  match m with
  | None => true
  | Some b => bool_decide (length b = 0)
  end.

(** Lines 295-399: the request to the remote license server. *)
Definition licenseRequest_step (keySystem : KeySystem) (protData : option ProtectionData)
    (licenseServerData : LicenseServerData) (messageType : string)
    (e : KeyMessage) (message : bytes) : M unit :=
  let keySystemString := systemString keySystem in
  (* All remaining key system scenarios require a request to a remote license server *)
  id <- new_xhr ;;
  modify (set_xhrLicense (Some id)) ;;;
  (* Determine license server URL *)
  let url := licenseServerURL keySystem protData messageType e in
  (* Possibly update or override the URL based on the message *)
  let url := getServerURLFromMessage licenseServerData url message messageType in
  (* Ensure valid license server URL *)
  if negb (truthy url) then notify URL_LICENSER_UNKNOWN
  else
    emit (XhrOpen id (getHTTPMethod licenseServerData messageType) url) ;;;
    emit (XhrResponseType id (getResponseType licenseServerData keySystemString messageType)) ;;;
    update_xhr id (with_handlers (Some
      {| needFailureReport := true; c_url := url;
         c_licenseServerData := licenseServerData;
         c_sessionToken := sessionToken e;
         c_keySystemString := keySystemString;
         c_messageType := messageType |})) ;;;
    (* Set optional XMLHttpRequest headers from protection data and message *)
    match protData with
    | Some protData => updateHeaders id (httpRequestHeaders protData)
    | None => ret tt
    end ;;;
    updateHeaders id (getRequestHeadersFromMessage X keySystem message) ;;;
    (* Set withCredentials property from protData *)
    when (from_option withCredentials false protData) (emit (XhrWithCredentials id)) ;;;
    let licenseRequest := getLicenseRequestFromMessage X keySystem message in
    match licenseRequest with
    | None => notify (NO_CHALLENGE "No license challenge from CDM key message")
    | Some _ => ret tt
    end ;;;
    emit (XhrSend id licenseRequest) ;;;
    update_xhr id (with_sent true).

(** [(keyMessage.messageType) ? keyMessage.messageType : "license-request"] *)
Definition messageType_of (keyMessage : KeyMessage) : string :=
  if truthy (messageType keyMessage) then text_of (messageType keyMessage)
  else "license-request".

Definition onKeyMessage (e : KeyMessage) : M unit :=
  let keyMessage := e in
  let messageType := messageType_of keyMessage in
  (* Dispatch event to applications indicating we received a key message *)
  dispatchEvent (KEY_MESSAGE keyMessage) ;;;
  keySystem <- the_keySystem ;;
  pds <- gets protDataSet ;;
  let protData := getProtData pds keySystem in
  let licenseServerData := getLicenseServer X keySystem protData messageType in
  (* Ensure message from CDM is not empty *)
  if message_empty (message keyMessage) then
    notify (NO_CHALLENGE "Empty key message from CDM")
  else
    let message := default [] (message keyMessage) in
    match licenseServerData with
    | None => ret tt (* Message not destined for license server *)
    | Some licenseServerData =>
        (* Perform any special handling for ClearKey *)
        match (if isClearKey X keySystem
               then processClearKeyLicenseRequest X protData message
               else None) with
        | Some clearkeys =>
            model_call (model_updateKeySession (sessionToken keyMessage) clearkeys)
        | None =>
            licenseRequest_step keySystem protData licenseServerData messageType e message
        end
    end.

(** ** [onNeedKey] (lines 402-430) *)

Definition onNeedKey (event : NeedKey) : M unit :=
  (* Ignore non-cenc initData *)
  if negb (bool_decide (initDataType event = "cenc")) then ret tt
  else
    let abInitData :=
      match nk_initData event with
      | ArrayBuffer b => b
      | ArrayView buffer _ _ => buffer
      end in
    let supportedKS := getSupportedKeySystems X abInitData in
    if bool_decide (length supportedKS = 0) then ret tt
    else selectKeySystem supportedKS false.

(** ** The remaining event handlers (lines 432-484) *)

Definition onServerCertificateUpdated (error : JsStr) : M unit :=
  if negb (truthy error) then ret tt
  else notify (ENAME_PROTECTION_ERROR
                 {| code := MEDIA_KEYERR_SERVER_CERTIFICATE;
                    msg := "Failed to set server certificate"; data := OpaqueData error |}).

Definition onKeySessionCreated (error : JsStr) : M unit :=
  if negb (truthy error) then ret tt
  else notify (ENAME_PROTECTION_ERROR
                 {| code := MEDIA_KEYMESSERR_NO_SESSION;
                    msg := "Failed to create key session"; data := OpaqueData error |}).

Definition onKeyAdded : M unit := ret tt.

Definition onKeyError (e : Error) : M unit :=
  notify (ENAME_PROTECTION_ERROR {| code := code e; msg := msg e; data := data e |}).

Definition onKeySessionClosed (error : JsStr) : M unit := ret tt.
Definition onKeySessionRemoved (error : JsStr) : M unit := ret tt.

Definition onKeyStatusesChanged (error : option Error) : M unit :=
  match error with
  | None => ret tt
  | Some e => notify (ENAME_PROTECTION_ERROR {| code := code e; msg := msg e; data := data e |})
  end.


(** ** What the browser does with a request

    Modelled from the XMLHttpRequest standard (not code of this repository):
    an exchange that was sent ends once, either with a response ([load] then
    [loadend]), with a network error ([error] then [loadend]) or by [abort()],
    which fires [loadend] synchronously when the request is outstanding. *)

Definition outstanding (x : Xhr) : bool := sent x && negb (ended x).

Definition if_outstanding (id : nat) (m : M unit) : M unit :=
  x <- gets (fun s => xhrs s !! id) ;;
  if from_option outstanding false x then update_xhr id (with_ended true) ;;; m
  else ret tt.

Definition xhr_responds (id : nat) (status readyState : Z) (response : JsResponse) : M unit :=
  if_outstanding id
    (xhr_onload id status readyState response ;;;
     xhr_onerror_onloadend id status response).

Definition xhr_network_error (id : nat) (response : JsResponse) : M unit :=
  if_outstanding id
    (xhr_onerror_onloadend id 0%Z response ;;;
     xhr_onerror_onloadend id 0%Z response).

Definition xhr_abort (id : nat) : M unit :=
  emit (XhrAbort id) ;;;
  if_outstanding id (xhr_onerror_onloadend id 0%Z RNull).

(** ** The public API (lines 486-782) *)

Definition controller_events : list EventName :=
  [ENAME_SERVER_CERTIFICATE_UPDATED; ENAME_KEY_ADDED; ENAME_KEY_ERROR;
   ENAME_KEY_SESSION_CREATED; ENAME_KEY_SESSION_CLOSED; ENAME_KEY_SESSION_REMOVED;
   ENAME_KEY_MESSAGE; ENAME_KEY_STATUSES_CHANGED].

Fixpoint subscribe_all (names : list EventName) : M unit :=
  match names with
  | [] => ret tt
  | n :: rest => subscribe n ObsController false ;;; subscribe_all rest
  end.

Fixpoint unsubscribe_all (names : list EventName) : M unit :=
  match names with
  | [] => ret tt
  | n :: rest => unsubscribe n ObsController ;;; unsubscribe_all rest
  end.

Definition setup : M unit :=
  modify (set_keySystems (Some (getKeySystems X))) ;;;
  modify (set_protectionModel true) ;;;
  model_call model_init ;;;
  subscribe_all controller_events.

Definition init (contentProtection : ContentProtection X) (aCodec vCodec : JsStr) : M unit :=
  i <- gets initialized ;;
  if negb i then
    modify (set_codecs aCodec vCodec) ;;;
    match getSupportedKeySystemsFromContentProtection X contentProtection with
    | Some supportedKS =>
        when (negb (bool_decide (length supportedKS = 0)))
          (selectKeySystem supportedKS true)
    | None => ret tt
    end ;;;
    modify (set_initialized true)
  else ret tt.

Definition addEventListener (type : string) (listener : nat) : M unit :=
  emit (EventBus_addEventListener type listener).

Definition removeEventListener (type : string) (listener : nat) : M unit :=
  emit (EventBus_removeEventListener type listener).

(** The argument of [setMediaElement]: an element, [null], or anything else falsy. *)
Inductive ElementArg :=
| Element (e : MediaElement X)
| ElementNull
| ElementUndefined.

Definition setMediaElement (element : ElementArg) : M unit :=
  match element with
  | Element e =>
      model_call (model_setMediaElement (Some e)) ;;;
      subscribe ENAME_NEED_KEY ObsController false
  | ElementNull =>
      model_call (model_setMediaElement None) ;;;
      unsubscribe ENAME_NEED_KEY ObsController
  | ElementUndefined => ret tt
  end.

(** Lines 607-611: abort request if [xhrLicense] is different from [null]. *)
Definition abort_license_request : M unit :=
  x <- gets xhrLicense ;;
  match x with
  | Some id => update_xhr id (with_aborted true) ;;; xhr_abort id
  | None => ret tt
  end.

(** Lines 612-625 *)
Definition release_model : M unit :=
  unsubscribe_all
    [ENAME_KEY_MESSAGE; ENAME_SERVER_CERTIFICATE_UPDATED; ENAME_KEY_ADDED;
     ENAME_KEY_ERROR; ENAME_KEY_SESSION_CREATED; ENAME_KEY_SESSION_CLOSED;
     ENAME_KEY_SESSION_REMOVED; ENAME_KEY_MESSAGE; ENAME_KEY_STATUSES_CHANGED] ;;;
  modify (set_keySystem KsUndefined) ;;;
  model_call model_teardown ;;;
  setMediaElement ElementNull ;;;
  modify (set_protectionModel false).

Definition teardown : M unit :=
  abort_license_request ;;; release_model.

Definition loadKeySession (sessionID : string) : M unit :=
  model_call (model_loadKeySession sessionID).

Definition removeKeySession (sessionToken : SessionToken) : M unit :=
  model_call (model_removeKeySession sessionToken).

Definition closeKeySession (sessionToken : SessionToken) : M unit :=
  model_call (model_closeKeySession sessionToken).

Definition setServerCertificate (serverCertificate : bytes) : M unit :=
  model_call (model_setServerCertificate serverCertificate).

(** [if (this.keysystem)] reads the lower-case property. *)
Definition setSessionType (sessionType : string) : M unit :=
  f <- gets keysystem ;;
  match f with
  | KsObj _ =>
      k <- the_keySystem ;;
      modify (fun s => set_sessionTypeSet (<[uid k := sessionType]> (sessionTypeSet s)) s)
  | _ => ret tt
  end.

Definition setProtectionData (data : option (gmap string ProtectionData)) : M unit :=
  modify (set_protDataSet data) ;;;
  emit (ProtectionExt_init data).

(** ** Events of the protection model reaching their subscribers *)

Inductive ModelEvent :=
| need_key (e : NeedKey)
| key_message (e : KeyMessage)
| key_added
| key_error (e : Error)
| key_session_created (error : JsStr)
| key_session_closed (error : JsStr)
| key_session_removed (error : JsStr)
| key_statuses_changed (error : option Error)
| server_certificate_updated (error : JsStr)
| key_system_access_complete (data : option (KeySystemAccess X)) (error : JsStr)
| key_system_selected (error : JsStr).

Definition name_of (ev : ModelEvent) : EventName :=
  match ev with
  | need_key _ => ENAME_NEED_KEY
  | key_message _ => ENAME_KEY_MESSAGE
  | key_added => ENAME_KEY_ADDED
  | key_error _ => ENAME_KEY_ERROR
  | key_session_created _ => ENAME_KEY_SESSION_CREATED
  | key_session_closed _ => ENAME_KEY_SESSION_CLOSED
  | key_session_removed _ => ENAME_KEY_SESSION_REMOVED
  | key_statuses_changed _ => ENAME_KEY_STATUSES_CHANGED
  | server_certificate_updated _ => ENAME_SERVER_CERTIFICATE_UPDATED
  | key_system_access_complete _ _ => ENAME_KEY_SYSTEM_ACCESS_COMPLETE
  | key_system_selected _ => ENAME_KEY_SYSTEM_SELECTED
  end.

(** [observer[eventName](event)] *)
Definition handle (o : Observer) (ev : ModelEvent) : M unit :=
  match o, ev with
  | ObsController, need_key e => onNeedKey e
  | ObsController, key_message e => onKeyMessage e
  | ObsController, key_added => onKeyAdded
  | ObsController, key_error e => onKeyError e
  | ObsController, key_session_created error => onKeySessionCreated error
  | ObsController, key_session_closed error => onKeySessionClosed error
  | ObsController, key_session_removed error => onKeySessionRemoved error
  | ObsController, key_statuses_changed error => onKeyStatusesChanged error
  | ObsController, server_certificate_updated error => onServerCertificateUpdated error
  | ObsKsAccess a, key_system_access_complete data error =>
      sel <- gets (fun s => selections s !! a) ;;
      match sel with
      | Some sel => ksAccess_ACCESS_COMPLETE sel data error
      | None => ret tt
      end
  | ObsKsSelected a, key_system_access_complete data error =>
      sel <- gets (fun s => selections s !! a) ;;
      match sel with
      | Some sel => ksSelected_ACCESS_COMPLETE a sel data error
      | None => ret tt
      end
  | ObsKsSelected a, key_system_selected error =>
      sel <- gets (fun s => selections s !! a) ;;
      match sel with
      | Some sel =>
          ksSelected_SELECTED a (sel_fromManifest sel) (sel_keySystemsInfo sel) error
      | None => ret tt
      end
  | _, _ => ret tt
  end.

Fixpoint handle_all (obs : list Observer) (ev : ModelEvent) : M unit :=
  match obs with
  | [] => ret tt
  | o :: rest => handle o ev ;;; handle_all rest ev
  end.

(** Modelled from the spec: the protection model notifying an event (the
    notifier is not code of this file).  Every subscriber of the event's name
    is called, in subscription order; one-shot subscriptions are dropped. *)
Definition model_notify (ev : ModelEvent) : M unit :=
  subs <- gets subscriptions ;;
  let interested sb := bool_decide (sub_name sb = name_of ev) in
  modify (set_subscriptions
            (List.filter (fun sb => negb (interested sb && sub_oneShot sb)) subs)) ;;;
  handle_all (map sub_observer (List.filter interested subs)) ev.

(** ** Everything that can happen to a controller *)

Inductive Op :=
| call_setup
| call_init (contentProtection : ContentProtection X) (aCodec vCodec : JsStr)
| call_addEventListener (type : string) (listener : nat)
| call_removeEventListener (type : string) (listener : nat)
| call_teardown
| call_createKeySession (initData : bytes) (cdmData : option bytes)
| call_loadKeySession (sessionID : string)
| call_removeKeySession (sessionToken : SessionToken)
| call_closeKeySession (sessionToken : SessionToken)
| call_setServerCertificate (serverCertificate : bytes)
| call_setMediaElement (element : ElementArg)
| call_setSessionType (sessionType : string)
| call_setProtectionData (data : option (gmap string ProtectionData))
| model_event (ev : ModelEvent)
| model_changes (g : Gateway X)
| xhr_response (id : nat) (status readyState : Z) (response : JsResponse)
| xhr_error (id : nat) (response : JsResponse).

Definition step (op : Op) : M unit :=
  match op with
  | call_setup => setup
  | call_init cp a v => init cp a v
  | call_addEventListener t l => addEventListener t l
  | call_removeEventListener t l => removeEventListener t l
  | call_teardown => teardown
  | call_createKeySession d c => createKeySession d c
  | call_loadKeySession i => loadKeySession i
  | call_removeKeySession t => removeKeySession t
  | call_closeKeySession t => closeKeySession t
  | call_setServerCertificate c => setServerCertificate c
  | call_setMediaElement e => setMediaElement e
  | call_setSessionType t => setSessionType t
  | call_setProtectionData d => setProtectionData d
  | model_event ev => model_notify ev
  | model_changes g => modify (set_model g)
  | xhr_response id st rs r => xhr_responds id st rs r
  | xhr_error id r => xhr_network_error id r
  end.

(** A run: each operation runs to completion on the state the previous one
    left, whether it returned or threw; the traces are concatenated. *)
Fixpoint run (ops : list Op) (s : State) : State * list Action :=
  match ops with
  | [] => (s, [])
  | op :: rest =>
      let r := step op s in
      let r' := run rest (state_of r) in
      (r'.1, trace_of r ++ r'.2)
  end.

(** The state of a controller the constructor has just returned: the
    initial values of lines 85-93 and 487-493. *)
Definition constructed (g : Gateway X) : State :=
  {| keySystems := None; pendingNeedKeyData := [];
     audioCodec := JUndefined; videoCodec := JUndefined;
     protDataSet := None; xhrLicense := None; initialized := false;
     keySystem := KsUndefined; keysystem := KsUndefined;
     protectionModel := false;
     xhrs := []; selections := []; sessionTypeSet := ∅;
     model := g; subscriptions := [] |}.

Definition reachable (s : State) : Prop :=
  exists g ops, s = (run ops (constructed g)).1.

End Controller.

Unset Implicit Arguments.

Arguments M X A : clear implicits.
Arguments State X : clear implicits.
Arguments Dispatch {X} e.
Arguments Notify {X} n.
Arguments Model {X} c.
Arguments ProtectionExt_init {X} data.
Arguments EventBus_addEventListener {X} type listener.
Arguments EventBus_removeEventListener {X} type listener.
Arguments XhrNew {X} id.
Arguments XhrOpen {X} id method url.
Arguments XhrResponseType {X} id responseType.
Arguments XhrWithCredentials {X} id.
Arguments XhrSetRequestHeader {X} id key value.
Arguments XhrSend {X} id body.
Arguments XhrAbort {X} id.
Arguments KEY_SYSTEM_SELECTED {X} data.
Arguments KEY_SYSTEM_SELECTED_error {X} error.
Arguments KEY_MESSAGE {X} data.
Arguments model_init {X}.
Arguments model_subscribe {X} name o oneShot.
Arguments model_unsubscribe {X} name o.
Arguments model_requestKeySystemAccess {X} requested.
Arguments model_selectKeySystem {X} access.
Arguments model_updateKeySession {X} token material.
Arguments model_createKeySession_call {X} initData sessionType cdmData.
Arguments model_loadKeySession {X} sessionID.
Arguments model_removeKeySession {X} token.
Arguments model_closeKeySession {X} token.
Arguments model_setServerCertificate {X} cert.
Arguments model_setMediaElement {X} element.
Arguments model_teardown {X}.
Arguments Element {X} e.
Arguments ElementNull {X}.
Arguments ElementUndefined {X}.
Arguments need_key {X} e.
Arguments key_message {X} e.
Arguments key_added {X}.
Arguments key_error {X} e.
Arguments key_session_created {X} error.
Arguments key_session_closed {X} error.
Arguments key_session_removed {X} error.
Arguments key_statuses_changed {X} error.
Arguments server_certificate_updated {X} error.
Arguments key_system_access_complete {X} data error.
Arguments key_system_selected {X} error.
Arguments call_setup {X}.
Arguments call_init {X} contentProtection aCodec vCodec.
Arguments call_addEventListener {X} type listener.
Arguments call_removeEventListener {X} type listener.
Arguments call_teardown {X}.
Arguments call_createKeySession {X} initData cdmData.
Arguments call_loadKeySession {X} sessionID.
Arguments call_removeKeySession {X} sessionToken.
Arguments call_closeKeySession {X} sessionToken.
Arguments call_setServerCertificate {X} serverCertificate.
Arguments call_setMediaElement {X} element.
Arguments call_setSessionType {X} sessionType.
Arguments call_setProtectionData {X} data.
Arguments model_event {X} ev.
Arguments model_changes {X} g.
Arguments xhr_response {X} id status readyState response.
Arguments xhr_error {X} id response.
Arguments setup {X}.
Arguments teardown {X}.
Arguments abort_license_request {X}.
Arguments release_model {X}.
Arguments onKeyAdded {X}.
Arguments the_model {X}.
Arguments the_keySystem {X}.
Arguments new_xhr {X}.
Arguments seen {X} initDataForKS currentInitData.
Arguments header_actions {X} id headers.

(** ** Reading traces *)

(** The initialization data of the session-create calls issued to the
    protection model, in order. *)
Fixpoint sessions_requested {X} (t : list (Action X)) : list bytes :=
  match t with
  | [] => []
  | Model (model_createKeySession_call d _ _) :: rest => d :: sessions_requested rest
  | _ :: rest => sessions_requested rest
  end.

Definition is_licenser_error {X} (a : Action X) : bool :=
  match a with
  | Notify (ENAME_PROTECTION_ERROR e) =>
      bool_decide (code e = MEDIA_KEYMESSERR_LICENSER_ERROR)
  | _ => false
  end.

(** The request the controller has built when [send] returns: handlers
    installed, sent, not ended, not marked as aborted. *)
Definition sent_request (c : XhrClosure) : Xhr :=
  {| aborted := false; sent := true; ended := false; handlers := Some c |}.

Definition fresh_request : Xhr :=
  {| aborted := false; sent := false; ended := false; handlers := None |}.

(** ** The specification's wording, for comparison with the code *)

(** "Success is defined as status in [200,299] AND the exchange having
    fully completed." *)
Definition spec_success (status readyState : Z) : bool :=
  ((200 <=? status) && (status <=? 299) && (readyState =? 4))%Z.

(** What [onload] takes for a success (line 339). *)
Definition code_success (status readyState : Z) : bool :=
  ((status =? 200) && (readyState =? 4))%Z.

(** The usable URL in a slot, if any. *)
Definition url_of (v : JsStr) : option string :=
  match v with
  | JString s => if bool_decide (s = "") then None else Some s
  | _ => None
  end.

Fixpoint first_url (sources : list JsStr) : option string :=
  match sources with
  | [] => None
  | v :: rest => match url_of v with Some u => Some u | None => first_url rest end
  end.

(** "configured per-system URL (string, or mapping keyed by message type)" *)
Definition spec_configured (protData : option ProtectionData) (messageType : string) : JsStr :=
  match serverURL <$> protData with
  | Some (SUrlString s) => JString s
  | Some (SUrlObject m) => default JNull (m !! messageType)
  | _ => JNull
  end.

(** The per-system URL is configured as a mapping, which has no usable entry
    for the message type. *)
Definition mapping_without_entry (protData : option ProtectionData) (messageType : string)
  : bool :=
  match serverURL <$> protData with
  | Some (SUrlObject m) => negb (truthy (default JNull (m !! messageType)))
  | _ => false
  end.

(** "in precedence order: configured per-system URL -> deprecated single-URL
    field -> URL embedded in system-specific initialization metadata ->
    host-suggested default URL" *)
Definition spec_licenseServerURL (X : Externals) (keySystem : KeySystem)
    (protData : option ProtectionData) (messageType : string) (e : KeyMessage)
  : option string :=
  first_url
    [spec_configured protData messageType;
     from_option laURL JNull protData;
     getLicenseServerURLFromInitData X keySystem
       (getPSSHData X (token_initData (sessionToken e)));
     defaultURL e].

(** The error body reported with a failed exchange (line 365). *)
Definition error_body (c : XhrClosure) (response : JsResponse) : string :=
  if response_truthy response
  then getErrorResponse (c_licenseServerData c) response
  else "".

(** The key material a response carries, as [onload] sees it. *)
Definition key_material (c : XhrClosure) (status readyState : Z) (response : JsResponse)
  : option bytes :=
  if code_success status readyState
  then getLicenseMessage (c_licenseServerData c) response
         (c_keySystemString c) (c_messageType c)
  else None.

(** The state after an assignment to the [needFailureReport] captured by
    the handlers of request [id]. *)
Definition assigned {X} (id : nat) (v : bool) (s : State X) : State X :=
  set_xhrs (alter (fun x => with_handlers (with_needFailureReport v <$> handlers x) x)
              id (xhrs s)) s.

(** The state in which the handlers of an exchange run: the request is
    marked as ended. *)
Definition ending {X} (id : nat) (s : State X) : State X :=
  set_xhrs (alter (with_ended true) id (xhrs s)) s.

(** A computation emits only actions of which [Q] holds. *)
Definition emits_only {X A} (Q : Action X -> Prop) (m : M X A) : Prop :=
  forall s, Forall Q (trace_of (m s)).

(** A computation keeps [P]: whatever [P] holds of before, it holds of
    after, whether the computation returns or throws. *)
Definition preserves {X A} (P : State X -> Prop) (m : M X A) : Prop :=
  forall s, P s -> P (state_of (m s)).

(** No listener is subscribed to the "key system selected" event. *)
Definition no_selected_listener {X} (s : State X) : Prop :=
  List.filter (fun sb => bool_decide (sub_name sb = ENAME_KEY_SYSTEM_SELECTED))
    (subscriptions s) = [].

(** The candidate a replay picks in one batch: the first one of the
    selected key system. *)
Definition first_match (f : KsField) (batch : Batch) : option Candidate :=
  List.find (fun c => ks_is f (ks c)) batch.

(** One [createKeySession] call per candidate, in order. *)
Fixpoint create_sessions {X} (cs : list Candidate) : M X unit :=
  match cs with
  | [] => ret tt
  | c :: rest => bind (createKeySession (initData c) (cdmData c)) (fun _ => create_sessions rest)
  end.

(** ** A concrete player, for examples *)

Definition octets (l : list nat) : bytes := omap Byte.of_nat l.

Definition widevine : KeySystem :=
  {| uid := 1; systemString := "com.widevine.alpha";
     schemeIdURI := "urn:uuid:edef8ba9-79d6-4ace-a3c8-27dcd51d21ed";
     sessionType := "temporary" |}.

Definition playready : KeySystem :=
  {| uid := 2; systemString := "com.microsoft.playready";
     schemeIdURI := "urn:uuid:9a04f079-9840-4286-ab92-e65be0885f95";
     sessionType := "temporary" |}.

Definition echo_server : LicenseServerData :=
  {| getServerURLFromMessage := fun url _ _ => url;
     getHTTPMethod := fun _ => "POST";
     getResponseType := fun _ _ => "arraybuffer";
     getLicenseMessage := fun r _ _ => match r with RBuffer x => Some x | _ => None end;
     getErrorResponse := fun r => match r with RText s => s | _ => "unreadable" end |}.

(** A protection model that keeps the initialization data of its sessions,
    and refuses to create sessions as long as [gw_raises] is set. *)
Record Gw := { gw_keySystem : KsField; gw_sessions : list bytes; gw_raises : bool }.

Definition player : Externals :=
  {| Gateway := Gw; Config := string; ContentProtection := Batch;
     MediaElement := unit; KeySystemAccess := KeySystem;
     model_keySystem := gw_keySystem;
     model_getAllInitData := gw_sessions;
     model_createKeySession := fun g d _ _ =>
       if gw_raises g
       then (g, Some {| ex_code := None; ex_name := "Error";
                        ex_message := "Can not create sessions until you have selected a key system" |})
       else ({| gw_keySystem := gw_keySystem g; gw_sessions := gw_sessions g ++ [d];
                gw_raises := false |}, None);
     getKeySystems := [widevine; playready];
     getLicenseServer := fun _ _ _ => Some echo_server;
     isClearKey := fun _ => false;
     processClearKeyLicenseRequest := fun _ _ => None;
     getSupportedKeySystems := fun d =>
       if bool_decide (d = []) then []
       else [{| ks := widevine; initData := d; cdmData := None |};
             {| ks := playready; initData := d; cdmData := None |}];
     getSupportedKeySystemsFromContentProtection := fun cp => Some cp;
     initDataEquals := fun a c => bool_decide (a = c);
     getPSSHData := fun d => d;
     getPSSHForKeySystem := fun f d =>
       match f with
       | KsObj k => Some (octets [uid k] ++ d)
       | _ => None
       end;
     getKeySystemConfigurations := fun k _ _ st => systemString k +:+ "/" +:+ st;
     getLicenseServerURLFromInitData := fun _ _ => JNull;
     getRequestHeadersFromMessage := fun _ _ => Some [("Content-Type", "text/xml")];
     getLicenseRequestFromMessage := fun _ m =>
       if bool_decide (m = octets [0]) then None else Some m |}.

Definition gateway0 : Gateway player :=
  {| gw_keySystem := KsObj playready; gw_sessions := []; gw_raises := false |}.

Definition refusing_gateway : Gateway player :=
  {| gw_keySystem := KsObj playready; gw_sessions := []; gw_raises := true |}.

Definition encrypted (l : list nat) : NeedKey :=
  {| initDataType := "cenc"; nk_initData := ArrayBuffer (octets l) |}.

Definition token0 : SessionToken :=
  {| token_id := 0; token_initData := octets [2; 7]; token_sessionID := JString "s0" |}.

Definition challenge (l : list nat) : KeyMessage :=
  {| message := Some (octets l); messageType := JString "license-request";
     sessionToken := token0; defaultURL := JString "https://default.example/license" |}.

(** A controller on which PlayReady has been selected, with as protection
    model [g]. *)
Definition selected_on (g : Gateway player) : State player :=
  (@run player [call_setup; call_setMediaElement (Element (X:=player) tt);
        model_event (need_key (encrypted [7]));
        model_event (key_system_access_complete (X:=player) (Some playready) JNull);
        model_changes (X:=player) g;
        model_event (key_system_selected JNull)]
       (constructed player gateway0)).1.

(** A controller in the middle of a selection, two batches enqueued. *)
Definition selecting : State player :=
  (@run player [call_setup; call_setMediaElement (Element (X:=player) tt);
        model_event (need_key (encrypted [7]));
        model_event (need_key (encrypted [8]))]
       (constructed player gateway0)).1.

(** The same, with the license request for [challenge [1; 2; 3]] under way:
    request 0 has been sent to the host's default URL. *)
Definition requesting : State player :=
  state_of (onKeyMessage (challenge [1; 2; 3]) (selected_on gateway0)).

Definition closure0 : XhrClosure :=
  {| needFailureReport := true;
     c_url := JString "https://default.example/license";
     c_licenseServerData := echo_server;
     c_sessionToken := token0;
     c_keySystemString := "com.microsoft.playready";
     c_messageType := "license-request" |}.

(** Protection data whose per-system URL is a mapping with an entry for
    renewals only, next to a deprecated [laURL]. *)
Definition renewal_only : ProtectionData :=
  {| serverURL := SUrlObject {[ "license-renewal" := JString "https://ls.example/renew" ]};
     laURL := JString "https://la.example/rightsmanager";
     httpRequestHeaders := None;
     withCredentials := false |}.

(** Scenario B of the specification. *)
Definition scenario_B : ProtectionData :=
  {| serverURL := SUrlObject {[ "license-request" := JString "https://ls/a" ]};
     laURL := JUndefined;
     httpRequestHeaders := None;
     withCredentials := false |}.

Definition configured (pd : ProtectionData) : State player :=
  state_of (setProtectionData (Some {[ "com.microsoft.playready" := pd ]})
              (selected_on gateway0)).

(** ** [ArrayBuffer.prototype.slice], installed where the browser has none
    (lines 53-80)

    The arguments are integers or [undefined] ([None]); numbers with a
    fractional part, [NaN] and the infinities are left out. *)

(** [x | 0] on an integer: its low 32 bits, read as a signed number. *)
Definition ToInt32 (n : Z) : Z := ((n + 2 ^ 31) mod 2 ^ 32 - 2 ^ 31)%Z.

Definition slice (this : bytes) (begin end_ : option Z) : bytes :=
  let len := Z.of_nat (length this) in
  (* begin = (begin | 0) || 0 *)
  let begin := match begin with Some b => ToInt32 b | None => 0%Z end in
  (* end = end === (void 0) ? len : (end | 0) *)
  let end_ := match end_ with Some e => ToInt32 e | None => len end in
  (* Handle negative values. *)
  let begin := if (begin <? 0)%Z then Z.max (begin + len) 0 else begin in
  let end_ := if (end_ <? 0)%Z then Z.max (end_ + len) 0 else end_ in
  if ((len =? 0) || (begin >=? len) || (begin >=? end_))%Z then []
  else
    let length := Z.min (len - begin) (end_ - begin) in
    take (Z.to_nat length) (drop (Z.to_nat begin) this).

(** The position an index stands for in a buffer of [len] bytes: counted
    from the end when negative, and never outside the buffer. *)
Definition relative (len i : Z) : Z :=
  if (i <? 0)%Z then Z.max (len + i) 0 else Z.min i len.

(** ** More ways to read traces and states *)

(** A one-shot subscription, as [selectKeySystem] makes them. *)
Definition listening (name : EventName) (o : Observer) : Subscription :=
  {| sub_name := name; sub_observer := o; sub_oneShot := true |}.

(** The headers set on requests, in order. *)
Definition headers_set {X} (t : list (Action X)) : list (string * string) :=
  omap (fun a => match a with XhrSetRequestHeader _ k v => Some (k, v) | _ => None end) t.

(** [('authorization' === key.toLowerCase())] *)
Definition is_authorization (kv : string * string) : Prop :=
  toLowerCase kv.1 = "authorization".

(** A computation that cannot throw. *)
Definition returns {X A} (m : M X A) : Prop :=
  forall s, exists a, outcome_of (m s) = Returned a.

(** A call that fails with a [TypeError] before it has done anything. *)
Definition fails_with_TypeError {X A} (r : State X * list (Action X) * Outcome A)
    (s : State X) : Prop :=
  state_of r = s /\ trace_of r = [] /\
  exists e, outcome_of r = Thrown e /\ ex_name e = "TypeError".

(** What [teardown] tells the protection model (lines 612-624). *)
Definition release_calls {X} : list (Action X) :=
  map Model
    [model_unsubscribe ENAME_KEY_MESSAGE ObsController;
     model_unsubscribe ENAME_SERVER_CERTIFICATE_UPDATED ObsController;
     model_unsubscribe ENAME_KEY_ADDED ObsController;
     model_unsubscribe ENAME_KEY_ERROR ObsController;
     model_unsubscribe ENAME_KEY_SESSION_CREATED ObsController;
     model_unsubscribe ENAME_KEY_SESSION_CLOSED ObsController;
     model_unsubscribe ENAME_KEY_SESSION_REMOVED ObsController;
     model_unsubscribe ENAME_KEY_MESSAGE ObsController;
     model_unsubscribe ENAME_KEY_STATUSES_CHANGED ObsController;
     model_teardown;
     model_setMediaElement None;
     model_unsubscribe ENAME_NEED_KEY ObsController].


(** ** More of the concrete player *)

(** A controller after [setup], a media element attached. *)
Definition attached : State player :=
  (@run player [call_setup; call_setMediaElement (Element (X:=player) tt)]
     (constructed player gateway0)).1.

(** A batch with a Widevine and a PlayReady candidate, and one with a
    Widevine candidate only. *)
Definition both : Batch := getSupportedKeySystems player (octets [9]).

Definition widevine_only : Batch :=
  [{| ks := widevine; initData := octets [5]; cdmData := None |}].

Definition playready_candidate : Candidate :=
  {| ks := playready; initData := octets [9]; cdmData := None |}.

(** The selection that [selecting] is in the middle of. *)
Definition first_selection : Selection player :=
  {| sel_supportedKS := getSupportedKeySystems player (octets [7]);
     sel_fromManifest := false;
     sel_keySystemsInfo := map info_of (getSupportedKeySystems player (octets [7]));
     sel_ksIdx := 0;
     sel_keySystemAccess := None |}.

(** PlayReady selected, and [init] called. *)
Definition initialized_player : State player :=
  state_of (init (X:=player) [] (JString "mp4a.40.2") (JString "avc1.4d401e")
              (selected_on gateway0)).

(** A second license request while the first is outstanding: request 1 is
    the tracked one, request 0 is still under way. *)
Definition requesting_twice : State player :=
  state_of (onKeyMessage (challenge [4; 5; 6]) requesting).

(** Protection data with request headers, one of them an authorization. *)
Definition with_token : ProtectionData :=
  {| serverURL := SUrlString "https://ls.example/license";
     laURL := JUndefined;
     httpRequestHeaders := Some [("Authorization", "Bearer t0"); ("X-Request", "1")];
     withCredentials := false |}.

(** The exception of [refusing_gateway]. *)
Definition refusal : JsExn :=
  {| ex_code := None; ex_name := "Error";
     ex_message := "Can not create sessions until you have selected a key system" |}.

(** A player with ClearKey: key messages are answered by the application,
    and there is no license server for release messages. *)
Definition clearkey : KeySystem :=
  {| uid := 3; systemString := "org.w3.clearkey";
     schemeIdURI := "urn:uuid:1077efec-c0b2-4d02-ace3-3c1e52e2fb4b";
     sessionType := "temporary" |}.

Definition clearkey_player : Externals :=
  {| Gateway := Gw; Config := string; ContentProtection := Batch;
     MediaElement := unit; KeySystemAccess := KeySystem;
     model_keySystem := gw_keySystem;
     model_getAllInitData := gw_sessions;
     model_createKeySession := model_createKeySession player;
     getKeySystems := [clearkey];
     getLicenseServer := fun _ _ messageType =>
       if bool_decide (messageType = "license-release") then None else Some echo_server;
     isClearKey := fun k => bool_decide (systemString k = "org.w3.clearkey");
     processClearKeyLicenseRequest := fun _ m => Some (octets [0] ++ m);
     getSupportedKeySystems := fun d =>
       if bool_decide (d = []) then []
       else [{| ks := clearkey; initData := d; cdmData := None |}];
     getSupportedKeySystemsFromContentProtection := fun cp => Some cp;
     initDataEquals := initDataEquals player;
     getPSSHData := getPSSHData player;
     getPSSHForKeySystem := getPSSHForKeySystem player;
     getKeySystemConfigurations := getKeySystemConfigurations player;
     getLicenseServerURLFromInitData := getLicenseServerURLFromInitData player;
     getRequestHeadersFromMessage := getRequestHeadersFromMessage player;
     getLicenseRequestFromMessage := getLicenseRequestFromMessage player |}.

Definition clearkey_selected : State clearkey_player :=
  (@run clearkey_player
     [call_setup; call_setMediaElement (Element (X:=clearkey_player) tt);
      model_event (need_key (encrypted [7]));
      model_event (key_system_access_complete (X:=clearkey_player) (Some clearkey) JNull);
      model_changes (X:=clearkey_player)
        {| gw_keySystem := KsObj clearkey; gw_sessions := []; gw_raises := false |};
      model_event (key_system_selected JNull)]
     (constructed clearkey_player gateway0)).1.

(** A controller that was set up and torn down again, and the first [init]
    on it. *)
Definition torn_down : State player :=
  (@run player [call_setup; call_teardown] (constructed player gateway0)).1.

Definition init_torn_down : State player * list (Action player) * Outcome unit :=
  init (X:=player) both (JString "mp4a.40.2") (JString "avc1.4d401e") torn_down.

Definition release_message : KeyMessage :=
  {| message := Some (octets [1; 2; 3]); messageType := JString "license-release";
     sessionToken := token0; defaultURL := JNull |}.

Section Proofs.

Context {X : Externals}.

Implicit Types (s : State X) (t : list (Action X)).

(** Unfolds the monad's operations, so that straight-line code computes. *)
Ltac run_m :=
  cbv [bind ret gets modify emit emits throw try_catch when dispatchEvent notify
       model_call the_model the_keySystem state_of trace_of outcome_of];
  cbn [fst snd app].

(** C6: a key message whose bytes are missing or empty is re-emitted on the
    public bus, raises the NoChallenge fault and ends there: the controller
    state is untouched (no request object is created or tracked) and nothing
    else is done (no URL is resolved, nothing is opened or sent). *)
Theorem onKeyMessage_empty_message s (e : KeyMessage) (k : KeySystem) :
  keySystem s = KsObj k ->
  message_empty (message e) = true ->
  onKeyMessage e s =
    (s, [Dispatch (KEY_MESSAGE e); Notify (NO_CHALLENGE "Empty key message from CDM")],
     Returned tt).
Proof.
  intros Hk He. unfold onKeyMessage. run_m. rewrite Hk, He. reflexivity.
Qed.

(** C10: a need-key event whose [initDataType] is not "cenc", or for whose
    initialization data no key system is supported, leaves the controller
    as it was and has no effect at all. *)
Theorem onNeedKey_ignored s (event : NeedKey) :
  initDataType event <> "cenc" \/
  getSupportedKeySystems X
    (match nk_initData event with ArrayBuffer b => b | ArrayView b _ _ => b end) = [] ->
  onNeedKey event s = (s, [], Returned tt).
Proof.
  intros H. unfold onNeedKey.
  destruct (bool_decide (initDataType event = "cenc")) eqn:Hc; simpl; [|reflexivity].
  destruct H as [H|H].
  - apply bool_decide_eq_true in Hc. contradiction.
  - rewrite H. reflexivity.
Qed.

(** *** The license request, step by step *)

Lemma alter_last {A} (f : A -> A) (l : list A) (x : A) :
  alter f (length l) (l ++ [x]) = l ++ [f x].
Proof. induction l as [|y l IH]; simpl; [reflexivity | f_equal; exact IH]. Qed.

(** The request is abandoned when no URL comes out: a request object has
    been created and is tracked, but it is never opened. *)
Lemma licenseRequest_step_no_url k pd lsd mt e m s :
  truthy (getServerURLFromMessage lsd (licenseServerURL X k pd mt e) m mt) = false ->
  licenseRequest_step k pd lsd mt e m s =
    (set_xhrLicense (Some (length (xhrs s))) (set_xhrs (xhrs s ++ [fresh_request]) s),
     [XhrNew (length (xhrs s)); Notify URL_LICENSER_UNKNOWN], Returned tt).
Proof.
  intros Hu. unfold licenseRequest_step, new_xhr. run_m. rewrite Hu. reflexivity.
Qed.

(** The request that goes out otherwise. *)
Lemma licenseRequest_step_sends k pd lsd mt e m s :
  let id := length (xhrs s) in
  let url := getServerURLFromMessage lsd (licenseServerURL X k pd mt e) m mt in
  let c := {| needFailureReport := true; c_url := url; c_licenseServerData := lsd;
              c_sessionToken := sessionToken e; c_keySystemString := systemString k;
              c_messageType := mt |} in
  truthy url = true ->
  licenseRequest_step k pd lsd mt e m s =
    (set_xhrLicense (Some id) (set_xhrs (xhrs s ++ [sent_request c]) s),
     [XhrNew id; XhrOpen id (getHTTPMethod lsd mt) url;
      XhrResponseType id (getResponseType lsd (systemString k) mt)]
       ++ from_option (fun pd => from_option (header_actions id) [] (httpRequestHeaders pd)) [] pd
       ++ from_option (header_actions id) [] (getRequestHeadersFromMessage X k m)
       ++ (if from_option withCredentials false pd then [XhrWithCredentials id] else [])
       ++ match getLicenseRequestFromMessage X k m with
          | None => [Notify (NO_CHALLENGE "No license challenge from CDM key message")]
          | Some _ => []
          end
       ++ [XhrSend id (getLicenseRequestFromMessage X k m)],
     Returned tt).
Proof.
  intros id url c Hu. subst id c.
  unfold licenseRequest_step, new_xhr, update_xhr, updateHeaders.
  fold url. revert Hu. generalize url. clear url. intros url Hu.
  destruct pd as [[su la [hh|] [|]]|];
    destruct (getRequestHeadersFromMessage X k m);
    destruct (getLicenseRequestFromMessage X k m);
    cbn [from_option withCredentials httpRequestHeaders];
    run_m; rewrite Hu; cbn [negb xhrs set_xhrs set_xhrLicense];
    rewrite !alter_last; cbn [app]; rewrite <- ?app_assoc; reflexivity.
Qed.

(** *** The end of a license exchange *)

Lemma assigned_lookup id v s x c :
  xhrs s !! id = Some x -> handlers x = Some c ->
  xhrs (assigned id v s) !! id =
    Some (with_handlers (Some (with_needFailureReport v c)) x).
Proof.
  intros Hx Hh. unfold assigned. cbn [xhrs set_xhrs].
  rewrite list_lookup_alter_eq, Hx. cbn. by rewrite Hh.
Qed.

Lemma xhr_onload_eq s id x c status readyState response :
  xhrs s !! id = Some x ->
  handlers x = Some c ->
  xhr_onload id status readyState response s =
    match key_material c status readyState response with
    | Some licenseMessage =>
        if protectionModel s
        then (assigned id false (assigned id false s),
              [Model (model_updateKeySession (c_sessionToken c) licenseMessage)],
              Returned tt)
        else (assigned id false (assigned id false s), [],
              Thrown (TypeError "this.protectionModel is undefined"))
    | None =>
        if code_success status readyState
        then (assigned id true (assigned id false s), [], Returned tt)
        else (s, [], Returned tt)
    end.
Proof.
  intros Hx Hh. unfold xhr_onload, key_material, code_success.
  unfold bind at 1. unfold gets at 1. rewrite Hx. cbn [mbind option_bind]. rewrite Hh.
  cbn [app].
  destruct ((status <? 200)%Z || (status >? 299)%Z) eqn:Hrange.
  { assert ((status =? 200)%Z = false) as -> by lia. reflexivity. }
  destruct ((status =? 200)%Z && (readyState =? 4)%Z); [|reflexivity].
  destruct (getLicenseMessage _ _ _ _) as [lm|];
    unfold set_needFailureReport, update_xhr; run_m; [|reflexivity].
  fold (assigned id false s). fold (assigned id false (assigned id false s)).
  change (protectionModel (assigned id false (assigned id false s)))
    with (protectionModel s).
  destruct (protectionModel s); reflexivity.
Qed.

Lemma xhr_onerror_onloadend_eq s id x c status response :
  xhrs s !! id = Some x ->
  handlers x = Some c ->
  xhr_onerror_onloadend id status response s =
    if needFailureReport c
    then (set_xhrLicense None (assigned id false s),
          if aborted x then []
          else [Notify (LICENSER_ERROR (c_url c) status (error_body c response))],
          Returned tt)
    else (set_xhrLicense None s, [], Returned tt).
Proof.
  intros Hx Hh. unfold xhr_onerror_onloadend, error_body.
  unfold bind at 1. unfold gets at 1. rewrite Hx. cbn [mbind option_bind from_option].
  rewrite Hh. cbn [app].
  destruct (needFailureReport c); cbn [negb]; [|reflexivity].
  unfold set_needFailureReport, update_xhr.
  destruct (aborted x); run_m; reflexivity.
Qed.

Lemma ending_lookup id s x :
  xhrs s !! id = Some x -> xhrs (ending id s) !! id = Some (with_ended true x).
Proof.
  intros Hx. unfold ending. cbn [xhrs set_xhrs].
  by rewrite list_lookup_alter_eq, Hx.
Qed.

Lemma if_outstanding_eq s id x (m : M X unit) :
  xhrs s !! id = Some x ->
  if_outstanding id m s = if outstanding x then m (ending id s) else (s, [], Returned tt).
Proof.
  intros Hx. unfold if_outstanding, update_xhr. run_m. rewrite Hx. cbn [from_option].
  destruct (outstanding x); [|reflexivity].
  fold (ending id s). by destruct (m (ending id s)) as [[??]?].
Qed.

Lemma license_exchange_ends s id x c status readyState response :
  xhrs s !! id = Some x ->
  handlers x = Some c ->
  needFailureReport c = true ->
  outstanding x = true ->
  aborted x = false ->
  protectionModel s = true ->
  trace_of (xhr_responds id status readyState response s) =
    match key_material c status readyState response with
    | Some licenseMessage =>
        [Model (model_updateKeySession (c_sessionToken c) licenseMessage)]
    | None => [Notify (LICENSER_ERROR (c_url c) status (error_body c response))]
    end.
Proof.
  intros Hx Hh Hn Ho Ha Hp.
  unfold xhr_responds. rewrite (if_outstanding_eq _ _ x) by done. rewrite Ho.
  pose proof (ending_lookup id s x Hx) as Hx'.
  pose proof (assigned_lookup id false _ _ c Hx' Hh) as H1.
  pose proof (fun v => assigned_lookup id v _ _ _ H1 eq_refl) as H2.
  unfold bind. rewrite (xhr_onload_eq _ _ (with_ended true x) c) by done.
  change (protectionModel (ending id s)) with (protectionModel s). rewrite Hp.
  destruct (key_material c status readyState response) as [lm|] eqn:Hk;
    [|destruct (code_success status readyState)].
  - rewrite (xhr_onerror_onloadend_eq _ _ _ _ _ _ (H2 false) eq_refl). reflexivity.
  - rewrite (xhr_onerror_onloadend_eq _ _ _ _ _ _ (H2 true) eq_refl).
    cbn. by rewrite Ha.
  - rewrite (xhr_onerror_onloadend_eq _ _ _ _ _ _ Hx' Hh).
    rewrite Hn. cbn. by rewrite Ha.
Qed.

(** *** Properties of the state that every operation keeps *)

Lemma preserves_ret {A} (P : State X -> Prop) (a : A) : preserves P (ret a).
Proof. intros s Hs. exact Hs. Qed.

Lemma preserves_throw {A} (P : State X -> Prop) (e : JsExn) : preserves P (throw (A:=A) e).
Proof. intros s Hs. exact Hs. Qed.

Lemma preserves_gets {A} (P : State X -> Prop) (f : State X -> A) : preserves P (gets f).
Proof. intros s Hs. exact Hs. Qed.

Lemma preserves_emit (P : State X -> Prop) (a : Action X) : preserves P (emit a).
Proof. intros s Hs. exact Hs. Qed.

Lemma preserves_emits (P : State X -> Prop) (l : list (Action X)) : preserves P (emits l).
Proof. intros s Hs. exact Hs. Qed.

Lemma preserves_modify (P : State X -> Prop) (f : State X -> State X) :
  (forall s, P s -> P (f s)) -> preserves P (modify f).
Proof. intros Hf s Hs. apply Hf, Hs. Qed.

Lemma preserves_bind {A B} (P : State X -> Prop) (m : M X A) (k : A -> M X B) :
  preserves P m -> (forall a, preserves P (k a)) -> preserves P (bind m k).
Proof.
  intros Hm Hk s Hs. unfold bind. specialize (Hm s Hs).
  destruct (m s) as [[s1 t1] [a|e]]; [|exact Hm].
  specialize (Hk a s1 Hm). by destruct (k a s1) as [[s2 t2] o].
Qed.

Lemma preserves_try_catch {A} (P : State X -> Prop) (m : M X A) (h : JsExn -> M X A) :
  preserves P m -> (forall e, preserves P (h e)) -> preserves P (try_catch m h).
Proof.
  intros Hm Hh s Hs. unfold try_catch. specialize (Hm s Hs).
  destruct (m s) as [[s1 t1] [a|e]]; [exact Hm|].
  specialize (Hh e s1 Hm). by destruct (h e s1) as [[s2 t2] o].
Qed.

Lemma preserves_when (P : State X -> Prop) (b : bool) (m : M X unit) :
  preserves P m -> preserves P (when b m).
Proof. intros Hm. destruct b; [exact Hm | apply preserves_ret]. Qed.

Create HintDb preserve.

#[local] Hint Resolve preserves_ret preserves_throw preserves_gets preserves_emit
  preserves_emits preserves_when : preserve.

(** Goes through a computation along its structure. *)
Ltac preserve :=
  repeat first
    [ progress intros
    | solve [eauto with preserve]
    | match goal with
      | |- preserves _ (bind _ _) => apply preserves_bind
      | |- preserves _ (try_catch _ _) => apply preserves_try_catch
      | |- preserves _ (modify _) => apply preserves_modify; solve [eauto with preserve]
      | |- preserves _ (let _ := _ in _) => progress cbv zeta
      | |- preserves _ (match ?x with _ => _ end) => destruct x
      end ].

Section Stable.

(** [P] only looks at parts of the state that the assignments of the
    controller leave alone; [initialized] is only ever assigned [true], the
    queue of pending batches is only ever appended to, and the codecs are
    only assigned as long as [initialized] is [false]. *)
Variable P : State X -> Prop.
Hypothesis P_keySystems : forall v s, P s -> P (set_keySystems v s).
Hypothesis P_pendingNeedKeyData :
  forall b s, P s -> P (set_pendingNeedKeyData (pendingNeedKeyData s ++ [b]) s).
Hypothesis P_codecs : forall a v s, initialized s = false -> P s -> P (set_codecs a v s).
Hypothesis P_protDataSet : forall v s, P s -> P (set_protDataSet v s).
Hypothesis P_xhrLicense : forall v s, P s -> P (set_xhrLicense v s).
Hypothesis P_initialized : forall s, P s -> P (set_initialized true s).
Hypothesis P_keySystem : forall v s, P s -> P (set_keySystem v s).
Hypothesis P_protectionModel : forall v s, P s -> P (set_protectionModel v s).
Hypothesis P_xhrs : forall v s, P s -> P (set_xhrs v s).
Hypothesis P_selections : forall v s, P s -> P (set_selections v s).
Hypothesis P_model : forall v s, P s -> P (set_model v s).
Hypothesis P_subscriptions : forall v s, P s -> P (set_subscriptions v s).
Hypothesis P_sessionType :
  forall v s, keysystem s <> KsUndefined -> P s -> P (set_sessionTypeSet v s).

#[local] Hint Resolve P_keySystems P_pendingNeedKeyData P_codecs P_protDataSet
  P_xhrLicense P_initialized P_keySystem P_protectionModel P_xhrs P_selections
  P_model P_subscriptions : preserve.

Lemma the_model_preserves : preserves P the_model.
Proof. unfold the_model. preserve. Qed.

Lemma the_keySystem_preserves : preserves P the_keySystem.
Proof. unfold the_keySystem. preserve. Qed.

#[local] Hint Resolve the_model_preserves the_keySystem_preserves : preserve.

Lemma model_call_preserves c : preserves P (model_call c).
Proof. unfold model_call. preserve. Qed.

Lemma notify_preserves n : preserves P (notify n).
Proof. unfold notify. preserve. Qed.

Lemma dispatchEvent_preserves e : preserves P (dispatchEvent e).
Proof. unfold dispatchEvent. preserve. Qed.

#[local] Hint Resolve model_call_preserves notify_preserves dispatchEvent_preserves
  : preserve.

Lemma subscribe_preserves n o b : preserves P (subscribe n o b).
Proof using P_subscriptions. unfold subscribe. preserve. Qed.

Lemma unsubscribe_preserves n o : preserves P (unsubscribe n o).
Proof using P_subscriptions. unfold unsubscribe. preserve. Qed.

#[local] Hint Resolve subscribe_preserves unsubscribe_preserves : preserve.

Lemma createKeySession_preserves d c : preserves P (createKeySession d c).
Proof using P_model. unfold createKeySession. preserve. Qed.

#[local] Hint Resolve createKeySession_preserves : preserve.

Lemma new_selection_preserves sel : preserves P (new_selection sel).
Proof using P_selections. unfold new_selection. preserve. Qed.

Lemma push_pending_preserves b : preserves P (push_pending b).
Proof using P_pendingNeedKeyData. unfold push_pending. preserve. Qed.

#[local] Hint Resolve new_selection_preserves push_pending_preserves : preserve.

Lemma selectKeySystem_preserves b fm : preserves P (selectKeySystem b fm).
Proof using P_pendingNeedKeyData P_keySystem P_selections P_subscriptions.
  unfold selectKeySystem. preserve.
Qed.

#[local] Hint Resolve selectKeySystem_preserves : preserve.

Lemma replay_batch_preserves b : preserves P (replay_batch b).
Proof using P_model. induction b as [|c b IH]; simpl; preserve. Qed.

#[local] Hint Resolve replay_batch_preserves : preserve.

Lemma replay_preserves q : preserves P (replay q).
Proof using P_model. induction q as [|b q IH]; simpl; preserve. Qed.

#[local] Hint Resolve replay_preserves : preserve.

Lemma set_keySystemAccess_preserves a v : preserves P (set_keySystemAccess a v).
Proof using P_selections. unfold set_keySystemAccess. preserve. Qed.

#[local] Hint Resolve set_keySystemAccess_preserves : preserve.

Lemma ksAccess_ACCESS_COMPLETE_preserves sel d e :
  preserves P (ksAccess_ACCESS_COMPLETE sel d e).
Proof using P_model. unfold ksAccess_ACCESS_COMPLETE. preserve. Qed.

Lemma ksSelected_ACCESS_COMPLETE_preserves a sel d e :
  preserves P (ksSelected_ACCESS_COMPLETE a sel d e).
Proof using P_keySystem P_selections P_subscriptions.
  unfold ksSelected_ACCESS_COMPLETE. preserve.
Qed.

Lemma ksSelected_SELECTED_preserves a fm infos e :
  preserves P (ksSelected_SELECTED a fm infos e).
Proof using P_keySystem P_model. unfold ksSelected_SELECTED. preserve. Qed.

Lemma update_xhr_preserves id f : preserves P (update_xhr id f).
Proof using P_xhrs. unfold update_xhr. preserve. Qed.

#[local] Hint Resolve update_xhr_preserves : preserve.

Lemma set_needFailureReport_preserves id v : preserves P (set_needFailureReport id v).
Proof using P_xhrs. unfold set_needFailureReport. preserve. Qed.

#[local] Hint Resolve set_needFailureReport_preserves : preserve.

Lemma xhr_onload_preserves id st rs r : preserves P (xhr_onload id st rs r).
Proof using P_xhrs. unfold xhr_onload. preserve. Qed.

Lemma xhr_onerror_onloadend_preserves id st r :
  preserves P (xhr_onerror_onloadend id st r).
Proof using P_xhrs P_xhrLicense. unfold xhr_onerror_onloadend. preserve. Qed.

#[local] Hint Resolve xhr_onload_preserves xhr_onerror_onloadend_preserves : preserve.

Lemma if_outstanding_preserves id m : preserves P m -> preserves P (if_outstanding id m).
Proof using P_xhrs. intros Hm. unfold if_outstanding. preserve. Qed.

Lemma xhr_abort_preserves id : preserves P (xhr_abort id).
Proof using P_xhrs P_xhrLicense.
  unfold xhr_abort. preserve. apply if_outstanding_preserves. preserve.
Qed.

Lemma updateHeaders_preserves id h : preserves P (updateHeaders id h).
Proof. unfold updateHeaders. preserve. Qed.

#[local] Hint Resolve xhr_abort_preserves updateHeaders_preserves : preserve.

Lemma licenseRequest_step_preserves k pd lsd mt e m :
  preserves P (licenseRequest_step k pd lsd mt e m).
Proof using P_xhrs P_xhrLicense.
  unfold licenseRequest_step, new_xhr. preserve.
Qed.

#[local] Hint Resolve licenseRequest_step_preserves : preserve.

Lemma onKeyMessage_preserves e : preserves P (onKeyMessage e).
Proof using P_xhrs P_xhrLicense. unfold onKeyMessage. preserve. Qed.

Lemma onNeedKey_preserves e : preserves P (onNeedKey e).
Proof using P_pendingNeedKeyData P_keySystem P_selections P_subscriptions.
  unfold onNeedKey. preserve.
Qed.

Lemma subscribe_all_preserves l : preserves P (subscribe_all l).
Proof using P_subscriptions. induction l; simpl; preserve. Qed.

Lemma unsubscribe_all_preserves l : preserves P (unsubscribe_all l).
Proof using P_subscriptions. induction l; simpl; preserve. Qed.

#[local] Hint Resolve subscribe_all_preserves unsubscribe_all_preserves : preserve.

Lemma setMediaElement_preserves e : preserves P (setMediaElement e).
Proof using P_subscriptions. unfold setMediaElement. preserve. Qed.

#[local] Hint Resolve setMediaElement_preserves : preserve.

Lemma setup_preserves : preserves P setup.
Proof using P_keySystems P_protectionModel P_subscriptions. unfold setup. preserve. Qed.

Lemma init_preserves cp a v : preserves P (init cp a v).
Proof using P_codecs P_initialized P_pendingNeedKeyData P_keySystem P_selections
  P_subscriptions.
  intros s Hs. unfold init. unfold bind at 1. unfold gets at 1.
  destruct (initialized s) eqn:Hi; cbn [negb]; [exact Hs|].
  unfold bind at 1. unfold modify at 1.
  match goal with
  | |- context [bind ?m ?k (set_codecs a v s)] =>
      assert (Hk : preserves P (bind m k)) by preserve;
      specialize (Hk _ (P_codecs a v s Hi Hs));
      destruct (bind m k (set_codecs a v s)) as [[s2 t2] o2]
  end.
  exact Hk.
Qed.

Lemma abort_license_request_preserves : preserves P abort_license_request.
Proof using P_xhrs P_xhrLicense. unfold abort_license_request. preserve. Qed.

Lemma release_model_preserves : preserves P release_model.
Proof using P_subscriptions P_keySystem P_protectionModel.
  unfold release_model. preserve.
Qed.

Lemma teardown_preserves : preserves P teardown.
Proof using P_xhrs P_xhrLicense P_subscriptions P_keySystem P_protectionModel.
  unfold teardown. preserve;
    auto using abort_license_request_preserves, release_model_preserves.
Qed.

Lemma setSessionType_preserves ty : preserves P (setSessionType ty).
Proof using P_sessionType.
  unfold setSessionType. intros s Hs. unfold bind, gets. 
  destruct (keysystem s) eqn:Hk; try exact Hs.
  unfold the_keySystem, bind, gets. cbn.
  destruct (keySystem s); try exact Hs. cbn.
  apply P_sessionType; [congruence | exact Hs].
Qed.

Lemma handle_preserves o ev : preserves P (handle o ev).
Proof using P_xhrs P_xhrLicense P_pendingNeedKeyData P_keySystem P_selections
  P_subscriptions P_model.
  unfold handle, onServerCertificateUpdated, onKeySessionCreated, onKeyAdded,
    onKeyError, onKeySessionClosed, onKeySessionRemoved, onKeyStatusesChanged.
  destruct o, ev; preserve;
    auto using onNeedKey_preserves, onKeyMessage_preserves,
      ksAccess_ACCESS_COMPLETE_preserves, ksSelected_ACCESS_COMPLETE_preserves,
      ksSelected_SELECTED_preserves.
Qed.

Lemma handle_all_preserves l ev : preserves P (handle_all l ev).
Proof using P_xhrs P_xhrLicense P_pendingNeedKeyData P_keySystem P_selections
  P_subscriptions P_model.
  induction l; simpl; preserve. apply handle_preserves.
Qed.

Lemma model_notify_preserves ev : preserves P (model_notify ev).
Proof using P_xhrs P_xhrLicense P_pendingNeedKeyData P_keySystem P_selections
  P_subscriptions P_model.
  unfold model_notify. preserve. apply handle_all_preserves.
Qed.

Lemma step_preserves op : preserves P (step op).
Proof using All.
  destruct op; simpl;
    unfold addEventListener, removeEventListener, loadKeySession, removeKeySession,
      closeKeySession, setServerCertificate, setProtectionData, xhr_responds,
      xhr_network_error;
    auto using setup_preserves, init_preserves, teardown_preserves,
      createKeySession_preserves, setMediaElement_preserves, setSessionType_preserves,
      model_notify_preserves;
    preserve; apply if_outstanding_preserves; preserve.
Qed.

Lemma run_preserves ops s : P s -> P (run ops s).1.
Proof using All.
  revert s. induction ops as [|op ops IH]; intros s Hs; simpl; [exact Hs|].
  apply IH, step_preserves, Hs.
Qed.

End Stable.

(** *** [setSessionType] and [init] *)

(** No operation assigns the lower-case property, and so no operation
    records a session type either. *)
Lemma keysystem_never_assigned s :
  reachable s -> keysystem s = KsUndefined /\ sessionTypeSet s = ∅.
Proof.
  intros (g & ops & ->).
  apply (run_preserves (fun s => keysystem s = KsUndefined /\ sessionTypeSet s = ∅));
    try (intros; assumption); [|split; reflexivity].
  intros v s' Hne [Hk _]. contradiction.
Qed.

(** C8: on a controller reached by any sequence of calls and events,
    [setSessionType] changes nothing, whatever its argument: the state is
    the same afterwards, nothing is emitted, and the session type of every
    key system is still the one it was created with. *)
Theorem setSessionType_changes_nothing s (ty : string) :
  reachable s ->
  setSessionType ty s = (s, [], Returned tt) /\
  forall k, ksSessionType s k = sessionType k.
Proof.
  intros Hr. destruct (keysystem_never_assigned s Hr) as [Hk Hs]. split.
  - unfold setSessionType, bind, gets. rewrite Hk. reflexivity.
  - intros k. unfold ksSessionType. rewrite Hs. reflexivity.
Qed.

Lemma bind_returned {A B} (m : M X A) (k : A -> M X B) s b :
  outcome_of (bind m k s) = Returned b ->
  exists a, outcome_of (m s) = Returned a /\
            state_of (bind m k s) = state_of (k a (state_of (m s))) /\
            outcome_of (k a (state_of (m s))) = Returned b.
Proof.
  unfold bind. destruct (m s) as [[s1 t1] [a|e]]; [|discriminate].
  intros H. exists a. cbn in *. destruct (k a s1) as [[s2 t2] o]. cbn in *. auto.
Qed.

Lemma init_eq s cp a v :
  init cp a v s =
    if initialized s then (s, [], Returned tt)
    else bind (modify (set_codecs a v))
           (fun _ => bind
              (match getSupportedKeySystemsFromContentProtection X cp with
               | Some supportedKS =>
                   when (negb (bool_decide (length supportedKS = 0)))
                     (selectKeySystem supportedKS true)
               | None => ret tt
               end)
              (fun _ => modify (set_initialized true))) s.
Proof.
  unfold init. unfold bind at 1. unfold gets at 1.
  destruct (initialized s); cbn [negb]; [reflexivity|].
  match goal with |- (let (_, _) := ?r in _) = _ => by destruct r as [[??]?] end.
Qed.

Lemma init_sets_initialized s cp a v :
  outcome_of (init cp a v s) = Returned tt ->
  initialized (state_of (init cp a v s)) = true.
Proof.
  rewrite init_eq. destruct (initialized s) eqn:Hi; [intros _; exact Hi|].
  intros H.
  apply bind_returned in H as (? & _ & -> & H).
  apply bind_returned in H as (? & _ & -> & _).
  reflexivity.
Qed.

(** C9 (amended): once a call of [init] has returned, every later call of [init] -
    after any calls and events whatsoever, [teardown] included, and with any
    arguments - returns at once: the state (codecs, selection state, queue
    of pending batches, ...) is the same afterwards and nothing is emitted,
    so no negotiation is started. *)
Theorem init_only_once s cp (a v : JsStr) (ops : list (Op X)) cp' (a' v' : JsStr) :
  outcome_of (init cp a v s) = Returned tt ->
  init cp' a' v' (run ops (state_of (init cp a v s))).1 =
    ((run ops (state_of (init cp a v s))).1, [], Returned tt).
Proof.
  intros Hret. apply init_sets_initialized in Hret.
  assert (Hi : initialized (run ops (state_of (init cp a v s))).1 = true).
  { apply (run_preserves (fun s => initialized s = true));
      try (intros; assumption); reflexivity. }
  rewrite init_eq, Hi. reflexivity.
Qed.

(** *** Creating key sessions *)

Lemma seen_In d l :
  initDataEquals X d d = true -> In d l -> seen (X:=X) d l = true.
Proof.
  intros Hd. induction l as [|c l IH]; simpl; [tauto|].
  intros [->|H]; [by rewrite Hd|].
  destruct (initDataEquals X d c); [reflexivity | auto].
Qed.

(** With the derived data already among the initialization data of the
    protection model, [createKeySession] does nothing. *)
Lemma createKeySession_seen s initData cdmData d :
  protectionModel s = true ->
  getPSSHForKeySystem X (keySystem s) initData = Some d ->
  seen (X:=X) d (model_getAllInitData X (model s)) = true ->
  createKeySession initData cdmData s = (s, [], Returned tt).
Proof.
  intros Hp Hd Hs. unfold createKeySession. run_m. rewrite Hd, Hp, Hs. reflexivity.
Qed.

(** Otherwise it asks the protection model for a session; an exception of
    the protection model becomes a notification. *)
Lemma createKeySession_new s initData cdmData d k :
  protectionModel s = true ->
  keySystem s = KsObj k ->
  getPSSHForKeySystem X (keySystem s) initData = Some d ->
  seen (X:=X) d (model_getAllInitData X (model s)) = false ->
  createKeySession initData cdmData s =
    let r := model_createKeySession X (model s) d (ksSessionType s k) cdmData in
    (set_model r.1 s,
     Model (model_createKeySession_call d (ksSessionType s k) cdmData)
       :: match r.2 with
          | Some ex => [Notify (KEY_SESSION_CREATED_failed
                                  "Create key session raised en exception"
                                  (Some (Error_of_exception ex)))]
          | None => []
          end,
     Returned tt).
Proof.
  intros Hp Hk Hd Hs. unfold createKeySession. run_m. rewrite Hd, Hp, Hs, Hk.
  destruct (model_createKeySession X (model s) d (ksSessionType s k) cdmData)
    as [g' [ex|]]; reflexivity.
Qed.

Lemma createKeySession_keeps_keySystem d c f :
  preserves (fun s : State X => keySystem s = f) (createKeySession d c).
Proof. apply createKeySession_preserves. intros v s Hs. exact Hs. Qed.

(** *** Replaying the queue *)

Lemma replay_batch_eq batch s :
  replay_batch batch s =
    match first_match (keySystem s) batch with
    | Some c => createKeySession (initData c) (cdmData c) s
    | None => (s, [], Returned tt)
    end.
Proof.
  induction batch as [|c rest IH]; [reflexivity|].
  simpl. unfold bind, gets. cbn [app].
  destruct (ks_is (keySystem s) (ks c)).
  - by destruct (createKeySession (initData c) (cdmData c) s) as [[??]?].
  - rewrite IH. by destruct (first_match _ _); [destruct (createKeySession _ _ _) as [[??]?]|].
Qed.

(** The two nested loops do what one [createKeySession] call per batch
    does, for the first candidate of the selected key system in that batch;
    batches without such a candidate are passed over. *)
Lemma replay_eq pending s :
  replay pending s = create_sessions (omap (first_match (keySystem s)) pending) s.
Proof.
  revert s. induction pending as [|batch rest IH]; intros s; [reflexivity|].
  cbn [replay omap list_omap]. unfold bind at 1. rewrite replay_batch_eq.
  destruct (first_match (keySystem s) batch) as [c|].
  - cbn [create_sessions]. unfold bind.
    pose proof (createKeySession_keeps_keySystem (initData c) (cdmData c)
                  (keySystem s) s eq_refl) as Hks.
    destruct (createKeySession (initData c) (cdmData c) s) as [[s1 t1] [[]|e]];
      [|reflexivity].
    cbn in Hks. rewrite IH, Hks. reflexivity.
  - rewrite IH. by destruct (create_sessions _ s) as [[??]?].
Qed.

Lemma sessions_requested_app t1 t2 :
  sessions_requested (t1 ++ t2) = sessions_requested t1 ++ sessions_requested t2.
Proof.
  induction t1 as [|a t1 IH]; [reflexivity|].
  destruct a as [| |[]| | | | | | | | | |]; simpl; by rewrite ?IH.
Qed.

(** A trigger that arrives during a selection is put on the queue, and
    nothing else happens. *)
Lemma selectKeySystem_enqueues s batch fromManifest :
  keySystem s = KsNull ->
  selectKeySystem batch fromManifest s =
    (set_pendingNeedKeyData (pendingNeedKeyData s ++ [batch]) s, [], Returned tt).
Proof. intros Hk. unfold selectKeySystem, push_pending. run_m. by rewrite Hk. Qed.

(** The key system was selected: the field is set from the protection
    model, the public event goes out, the queue is replayed. *)
Lemma ksSelected_SELECTED_replays s a fromManifest infos error :
  protectionModel s = true ->
  truthy error = false ->
  ksSelected_SELECTED a fromManifest infos error s =
    bind (modify (set_keySystem (model_keySystem X (model s))))
      (fun _ =>
         bind (dispatchEvent
                 (KEY_SYSTEM_SELECTED (selections s !! a ≫= sel_keySystemAccess (X:=X))))
           (fun _ =>
              create_sessions
                (omap (first_match (model_keySystem X (model s)))
                   (pendingNeedKeyData s)))) s.
Proof.
  intros Hp He. unfold ksSelected_SELECTED. rewrite He. cbn [negb].
  run_m. rewrite Hp. cbn [app].
  rewrite replay_eq. cbn [keySystem pendingNeedKeyData selections set_keySystem].
  by destruct (create_sessions _ _) as [[??]?].
Qed.

(** The selection failed: the field goes back to [undefined], the failure
    is reported, and that is all - the queue is not touched, no session is
    created. *)
Lemma ksSelected_SELECTED_fails s a fromManifest infos error :
  truthy error = true ->
  ksSelected_SELECTED a fromManifest infos error s =
    (set_keySystem KsUndefined s,
     (if fromManifest then []
      else [Dispatch (KEY_SYSTEM_SELECTED_error
                        ("[DRM] Error selecting key system! -- " +:+ text_of error))])
       ++ [Notify (ACCESS_DENIED infos)],
     Returned tt).
Proof.
  intros He. unfold ksSelected_SELECTED. rewrite He. cbn [negb].
  destruct fromManifest; run_m; reflexivity.
Qed.

Lemma ksSelected_ACCESS_COMPLETE_fails s a sel data error :
  protectionModel s = true ->
  truthy error = true ->
  ksSelected_ACCESS_COMPLETE a sel data error s =
    (set_subscriptions
       (List.filter
          (fun sb => negb (is_sub ENAME_KEY_SYSTEM_SELECTED (ObsKsSelected a) sb))
          (subscriptions s))
       (set_keySystem KsUndefined s),
     Model (model_unsubscribe ENAME_KEY_SYSTEM_SELECTED (ObsKsSelected a))
       :: (if sel_fromManifest sel then []
           else [Dispatch (KEY_SYSTEM_SELECTED_error
                             ("[DRM] KeySystem Access Denied! -- " +:+ text_of error))])
       ++ [Notify (ACCESS_DENIED (sel_keySystemsInfo sel))],
     Returned tt).
Proof.
  intros Hp He. unfold ksSelected_ACCESS_COMPLETE, unsubscribe. rewrite He.
  destruct (sel_fromManifest sel); run_m; cbn [protectionModel set_keySystem];
    rewrite Hp; reflexivity.
Qed.

Lemma omap_length_le {A B} (f : A -> option B) (l : list A) :
  length (omap f l) <= length l.
Proof.
  induction l as [|x l IH]; [reflexivity|].
  cbn [omap list_omap]. destruct (f x); cbn [length]; lia.
Qed.

(** The "selected" handler of a selection runs once: its subscription is
    one-shot, so the event that runs it also removes it, and a second such
    event finds no listener. *)
Lemma handle_selected_keeps o error :
  preserves no_selected_listener (handle (X:=X) o (key_system_selected error)).
Proof.
  destruct o; cbn [handle]; try apply preserves_ret.
  apply preserves_bind; [apply preserves_gets|]. intros [sel|]; [|apply preserves_ret].
  apply ksSelected_SELECTED_preserves; intros; assumption.
Qed.

Lemma handle_all_selected_keeps obs error :
  preserves no_selected_listener (handle_all (X:=X) obs (key_system_selected error)).
Proof.
  induction obs as [|o obs IH]; cbn [handle_all]; [apply preserves_ret|].
  apply preserves_bind; [apply handle_selected_keeps | intros; exact IH].
Qed.

Lemma filter_one_shot_selected (subs : list Subscription) :
  Forall (fun sb => sub_name sb = ENAME_KEY_SYSTEM_SELECTED -> sub_oneShot sb = true) subs ->
  List.filter (fun sb => bool_decide (sub_name sb = ENAME_KEY_SYSTEM_SELECTED))
    (List.filter
       (fun sb => negb (bool_decide (sub_name sb = ENAME_KEY_SYSTEM_SELECTED)
                        && sub_oneShot sb)) subs) = [].
Proof.
  induction 1 as [|sb subs Hsb _ IH]; [reflexivity|].
  cbn [List.filter].
  destruct (bool_decide (sub_name sb = ENAME_KEY_SYSTEM_SELECTED)) eqn:Hn.
  - apply bool_decide_eq_true in Hn. rewrite (Hsb Hn). cbn. exact IH.
  - cbn. rewrite Hn. exact IH.
Qed.

Lemma key_system_selected_is_handled_once s error error' :
  Forall (fun sb => sub_name sb = ENAME_KEY_SYSTEM_SELECTED -> sub_oneShot sb = true)
    (subscriptions s) ->
  trace_of (model_notify (key_system_selected error')
              (state_of (model_notify (key_system_selected error) s))) = [].
Proof.
  intros Hone.
  assert (Hnone : no_selected_listener
                    (state_of (model_notify (key_system_selected error) s))).
  { unfold model_notify. unfold bind at 1. unfold gets at 1. cbn [app name_of].
    unfold bind at 1. unfold modify at 1.
    match goal with
    | |- context [handle_all ?obs ?ev ?s1] =>
        pose proof (handle_all_selected_keeps obs error s1) as Hk;
        destruct (handle_all obs ev s1) as [[s2 t2] o2]
    end.
    cbn in Hk |- *. apply Hk. unfold no_selected_listener. cbn [subscriptions set_subscriptions].
    apply filter_one_shot_selected, Hone. }
  unfold model_notify at 1. unfold bind at 1. unfold gets at 1. cbn [app name_of].
  unfold no_selected_listener in Hnone. rewrite Hnone.
  unfold bind, modify. reflexivity.
Qed.

Lemma createKeySession_at_most_one s initData cdmData :
  length (sessions_requested (trace_of (createKeySession initData cdmData s))) <= 1.
Proof.
  unfold createKeySession. run_m.
  destruct (getPSSHForKeySystem X (keySystem s) initData) as [d|].
  - destruct (protectionModel s); [|cbn; lia].
    destruct (seen _ _); [cbn; lia|].
    destruct (keySystem s); try (cbn; lia).
    destruct (model_createKeySession _ _ _ _ _) as [g' [ex|]]; cbn; lia.
  - destruct (keySystem s); cbn; lia.
Qed.

Lemma create_sessions_at_most_one_each cs s :
  length (sessions_requested (trace_of (create_sessions cs s))) <= length cs.
Proof.
  revert s. induction cs as [|c cs IH]; intros s; [cbn; lia|].
  cbn [create_sessions]. unfold bind.
  pose proof (createKeySession_at_most_one s (initData c) (cdmData c)) as H1.
  destruct (createKeySession (initData c) (cdmData c) s) as [[s1 t1] [[]|e]];
    cbn in H1 |- *; [|lia].
  specialize (IH s1). destruct (create_sessions cs s1) as [[s2 t2] o].
  cbn in IH |- *. rewrite sessions_requested_app, length_app. lia.
Qed.

Lemma createKeySession_returns s initData cdmData k :
  protectionModel s = true ->
  keySystem s = KsObj k ->
  outcome_of (createKeySession initData cdmData s) = Returned tt.
Proof.
  intros Hp Hk. unfold createKeySession. unfold bind at 1. unfold gets at 1.
  rewrite Hk. cbn [app].
  destruct (getPSSHForKeySystem X (KsObj k) initData) as [d|]; run_m;
    rewrite ?Hp, ?Hk; [|reflexivity].
  destruct (seen _ _); [reflexivity|]. rewrite ?Hk.
  destruct (model_createKeySession _ _ _ _ _) as [g' [ex|]]; reflexivity.
Qed.

Lemma createKeySession_keeps_protectionModel d c b :
  preserves (fun s : State X => protectionModel s = b) (createKeySession d c).
Proof. apply createKeySession_preserves. intros v s Hs. exact Hs. Qed.

(** During a replay no call throws, so no batch is cut off. *)
Lemma create_sessions_returns cs s k :
  protectionModel s = true ->
  keySystem s = KsObj k ->
  outcome_of (create_sessions cs s) = Returned tt.
Proof.
  revert s. induction cs as [|c cs IH]; intros s Hp Hk; [reflexivity|].
  cbn [create_sessions]. unfold bind.
  pose proof (createKeySession_returns s (initData c) (cdmData c) k Hp Hk) as Hr.
  pose proof (createKeySession_keeps_protectionModel (initData c) (cdmData c) true s Hp)
    as Hp'.
  pose proof (createKeySession_keeps_keySystem (initData c) (cdmData c) (KsObj k) s Hk)
    as Hk'.
  destruct (createKeySession (initData c) (cdmData c) s) as [[s1 t1] o].
  cbn in Hr, Hp', Hk'. subst o.
  specialize (IH s1 Hp' Hk'). by destruct (create_sessions cs s1) as [[s2 t2] o2].
Qed.

Lemma first_match_object f batch c :
  first_match f batch = Some c -> exists k, f = KsObj k.
Proof.
  unfold first_match. intros H. apply find_some in H as [_ H].
  destruct f; try discriminate. eauto.
Qed.

Lemma replayed_candidates_object f pending :
  omap (first_match f) pending = [] \/ exists k, f = KsObj k.
Proof.
  induction pending as [|b pending IH]; [by left|].
  cbn [omap list_omap]. destruct (first_match f b) as [c|] eqn:Hc; [|exact IH].
  right. eapply first_match_object, Hc.
Qed.

Lemma ksSelected_ACCESS_COMPLETE_denied s a sel data error :
  truthy error = true ->
  pendingNeedKeyData (state_of (ksSelected_ACCESS_COMPLETE a sel data error s))
    = pendingNeedKeyData s /\
  keySystem (state_of (ksSelected_ACCESS_COMPLETE a sel data error s)) = KsUndefined /\
  sessions_requested (trace_of (ksSelected_ACCESS_COMPLETE a sel data error s)) = [].
Proof.
  intros He. destruct (protectionModel s) eqn:Hp.
  - rewrite (ksSelected_ACCESS_COMPLETE_fails s a sel data error Hp He).
    split; [reflexivity|]. split; [reflexivity|]. by destruct (sel_fromManifest sel).
  - unfold ksSelected_ACCESS_COMPLETE, unsubscribe. rewrite He. run_m.
    cbn [protectionModel set_keySystem]. rewrite Hp. by split_and!.
Qed.

Lemma ksSelected_SELECTED_keeps_queue a fromManifest infos error q :
  preserves (fun s : State X => pendingNeedKeyData s = q)
    (ksSelected_SELECTED a fromManifest infos error).
Proof. apply ksSelected_SELECTED_preserves; intros; assumption. Qed.

(** C3 (amended): a batch that arrives during a selection is put on the
    queue and nothing else happens; and the queue is never emptied:
    whatever calls and events follow, what was queued stays queued.  When a
    selection succeeds on a live controller, the handler sets the key
    system, emits the public event and then does what one
    [createKeySession] call per queued batch does, in queue order - batches
    left from earlier selections included - for the first candidate of the
    selected key system in that batch (batches without one are skipped); no
    call throws, so no batch is cut off, no more session-create calls are
    issued than there are batches, and the queue is left as it was.  When
    the selection fails - the selection itself or the access request before
    it - the queue is left as it is, no session is created and the
    controller is back without a key system.  A success that is delivered
    when the protection model is gone fails with a [TypeError] before
    anything is replayed. *)
Theorem pending_batches_replayed_once_on_success
    s (a : nat) (fromManifest : bool) (infos : list KeySystemInfo)
    (error : JsStr) (batch : Batch) :
  (keySystem s = KsNull ->
   selectKeySystem batch fromManifest s =
     (set_pendingNeedKeyData (pendingNeedKeyData s ++ [batch]) s, [], Returned tt)) /\
  (forall ops : list (Op X),
     pendingNeedKeyData s `prefix_of` pendingNeedKeyData (run ops s).1) /\
  (protectionModel s = true ->
   truthy error = false ->
   ksSelected_SELECTED a fromManifest infos error s =
     bind (modify (set_keySystem (model_keySystem X (model s))))
       (fun _ =>
          bind (dispatchEvent
                  (KEY_SYSTEM_SELECTED (selections s !! a ≫= sel_keySystemAccess (X:=X))))
            (fun _ =>
               create_sessions
                 (omap (first_match (model_keySystem X (model s)))
                    (pendingNeedKeyData s)))) s /\
   outcome_of (ksSelected_SELECTED a fromManifest infos error s) = Returned tt /\
   length (sessions_requested
             (trace_of (ksSelected_SELECTED a fromManifest infos error s)))
     <= length (pendingNeedKeyData s) /\
   pendingNeedKeyData (state_of (ksSelected_SELECTED a fromManifest infos error s))
     = pendingNeedKeyData s) /\
  (truthy error = true ->
   pendingNeedKeyData (state_of (ksSelected_SELECTED a fromManifest infos error s))
     = pendingNeedKeyData s /\
   keySystem (state_of (ksSelected_SELECTED a fromManifest infos error s))
     = KsUndefined /\
   sessions_requested (trace_of (ksSelected_SELECTED a fromManifest infos error s))
     = [] /\
   forall sel data,
     pendingNeedKeyData (state_of (ksSelected_ACCESS_COMPLETE a sel data error s))
       = pendingNeedKeyData s /\
     keySystem (state_of (ksSelected_ACCESS_COMPLETE a sel data error s))
       = KsUndefined /\
     sessions_requested (trace_of (ksSelected_ACCESS_COMPLETE a sel data error s))
       = []) /\
  (protectionModel s = false ->
   truthy error = false ->
   state_of (ksSelected_SELECTED a fromManifest infos error s) = s /\
   trace_of (ksSelected_SELECTED a fromManifest infos error s) = [] /\
   exists e,
     outcome_of (ksSelected_SELECTED a fromManifest infos error s) = Thrown e /\
     ex_name e = "TypeError").
Proof.
  split; [|split; [|split; [|split]]].
  - apply selectKeySystem_enqueues.
  - intros ops.
    apply (run_preserves
             (fun s' => pendingNeedKeyData s `prefix_of` pendingNeedKeyData s'));
      try (intros; assumption); [|reflexivity].
    intros b s' Hs'. cbn [pendingNeedKeyData set_pendingNeedKeyData].
    by apply prefix_app_r.
  - intros Hp He.
    pose proof (ksSelected_SELECTED_keeps_queue a fromManifest infos error
                  (pendingNeedKeyData s) s eq_refl) as Hq.
    rewrite (ksSelected_SELECTED_replays s a fromManifest infos error Hp He) in Hq |- *.
    split; [reflexivity|].
    unfold bind, modify, dispatchEvent, emit in Hq |- *.
    pose proof (create_sessions_at_most_one_each
                  (omap (first_match (model_keySystem X (model s))) (pendingNeedKeyData s))
                  (set_keySystem (model_keySystem X (model s)) s)) as H.
    assert (Hret : outcome_of
                     (create_sessions
                        (omap (first_match (model_keySystem X (model s)))
                           (pendingNeedKeyData s))
                        (set_keySystem (model_keySystem X (model s)) s)) = Returned tt).
    { destruct (replayed_candidates_object (model_keySystem X (model s))
                  (pendingNeedKeyData s)) as [-> | [k Hk]]; [reflexivity|].
      apply (create_sessions_returns _ _ k); [exact Hp | exact Hk]. }
    destruct (create_sessions _ _) as [[s2 t2] o]. cbn in H, Hret, Hq |- *.
    split; [exact Hret|]. split; [|exact Hq]. etrans; [exact H|]. apply omap_length_le.
  - intros He. rewrite (ksSelected_SELECTED_fails s a fromManifest infos error He).
    split; [reflexivity|]. split; [reflexivity|].
    split; [by destruct fromManifest|].
    intros sel data. exact (ksSelected_ACCESS_COMPLETE_denied s a sel data error He).
  - intros Hp He. unfold ksSelected_SELECTED. rewrite He. cbn [negb]. run_m.
    rewrite Hp. split; [reflexivity|]. split; [reflexivity|]. by eexists.
Qed.

(** C4 (amended): two [createKeySession] calls in a row whose derived
    initialization data are the same bytes issue at most one session-create
    call, and the second call does nothing at all - provided the session-
    create call of the first does not raise.  The protection model lists the
    data of the sessions it created, and [initDataEquals] holds of equal
    bytes. *)
Theorem createKeySession_twice
    s (k : KeySystem) (initData1 initData2 d : bytes) (cdm1 cdm2 : option bytes) :
  (forall g d st c g',
     model_createKeySession X g d st c = (g', None) ->
     In d (model_getAllInitData X g')) ->
  initDataEquals X d d = true ->
  protectionModel s = true ->
  keySystem s = KsObj k ->
  getPSSHForKeySystem X (keySystem s) initData1 = Some d ->
  getPSSHForKeySystem X (keySystem s) initData2 = Some d ->
  (model_createKeySession X (model s) d (ksSessionType s k) cdm1).2 = None ->
  createKeySession initData2 cdm2 (state_of (createKeySession initData1 cdm1 s)) =
    (state_of (createKeySession initData1 cdm1 s), [], Returned tt) /\
  length (sessions_requested
            (trace_of (createKeySession initData1 cdm1 s)
               ++ trace_of (createKeySession initData2 cdm2
                              (state_of (createKeySession initData1 cdm1 s))))) <= 1.
Proof.
  intros Hreg Heq Hp Hk Hd1 Hd2 Hok.
  destruct (seen (X:=X) d (model_getAllInitData X (model s))) eqn:Hseen.
  - rewrite (createKeySession_seen s initData1 cdm1 d Hp Hd1 Hseen). cbn [state_of fst].
    rewrite (createKeySession_seen s initData2 cdm2 d Hp Hd2 Hseen). cbn. split; [done|lia].
  - rewrite (createKeySession_new s initData1 cdm1 d k Hp Hk Hd1 Hseen).
    destruct (model_createKeySession X (model s) d (ksSessionType s k) cdm1)
      as [g' r] eqn:Hc.
    cbn in Hok. subst r. cbn [state_of trace_of fst snd].
    rewrite (createKeySession_seen (set_model g' s) initData2 cdm2 d);
      [split; [reflexivity | cbn; lia] | exact Hp | exact Hd2 |].
    apply seen_In; [exact Heq|]. eapply Hreg. exact Hc.
Qed.

Lemma xhr_network_error_trace s id x c response :
  xhrs s !! id = Some x ->
  handlers x = Some c ->
  needFailureReport c = true ->
  outstanding x = true ->
  aborted x = false ->
  trace_of (xhr_network_error id response s) =
    [Notify (LICENSER_ERROR (c_url c) 0 (error_body c response))].
Proof.
  intros Hx Hh Hn Ho Ha.
  unfold xhr_network_error. rewrite (if_outstanding_eq _ _ x) by done. rewrite Ho.
  pose proof (ending_lookup id s x Hx) as Hx'.
  pose proof (assigned_lookup id false _ _ c Hx' Hh) as H1.
  unfold bind. rewrite (xhr_onerror_onloadend_eq _ _ _ _ _ _ Hx' Hh). rewrite Hn.
  rewrite (xhr_onerror_onloadend_eq
             (set_xhrLicense None (assigned id false (ending id s))) _ _ _ _ _ H1 eq_refl).
  cbn. by rewrite Ha.
Qed.

(** C1 (amended): an exchange that ends with a response is a success
    exactly when the status is 200 and the ready state is 4 and the
    descriptor parses key material out of the response: the material is then
    applied to the session and no fault is raised.  In every other case -
    any other status, the 201..299 ones included, a response that does not
    parse, a network error - the one thing that happens is the
    LicenseServerError fault, with the url, the status and the error body
    read from the response when there is one.  (The request is not one that
    [teardown] aborted.) *)
Theorem license_exchange_outcome s (id : nat) (x : Xhr) (c : XhrClosure) :
  xhrs s !! id = Some x ->
  handlers x = Some c ->
  needFailureReport c = true ->
  outstanding x = true ->
  aborted x = false ->
  protectionModel s = true ->
  (forall status readyState response,
     trace_of (xhr_responds id status readyState response s) =
       match (if ((status =? 200) && (readyState =? 4))%Z
              then getLicenseMessage (c_licenseServerData c) response
                     (c_keySystemString c) (c_messageType c)
              else None) with
       | Some licenseMessage =>
           [Model (model_updateKeySession (c_sessionToken c) licenseMessage)]
       | None =>
           [Notify (LICENSER_ERROR (c_url c) status
                      (if response_truthy response
                       then getErrorResponse (c_licenseServerData c) response
                       else ""))]
       end) /\
  (forall response,
     trace_of (xhr_network_error id response s) =
       [Notify (LICENSER_ERROR (c_url c) 0
                  (if response_truthy response
                   then getErrorResponse (c_licenseServerData c) response
                   else ""))]).
Proof.
  intros Hx Hh Hn Ho Ha Hp. split.
  - intros status readyState response.
    exact (license_exchange_ends s id x c status readyState response Hx Hh Hn Ho Ha Hp).
  - intros response. exact (xhr_network_error_trace s id x c response Hx Hh Hn Ho Ha).
Qed.

(** *** [teardown] while a license exchange is outstanding *)

Lemma emits_only_ret {A} (Q : Action X -> Prop) (a : A) : emits_only Q (ret a).
Proof. intros s. constructor. Qed.

Lemma emits_only_throw {A} (Q : Action X -> Prop) (e : JsExn) :
  emits_only Q (throw (A:=A) e).
Proof. intros s. constructor. Qed.

Lemma emits_only_gets {A} (Q : Action X -> Prop) (f : State X -> A) :
  emits_only Q (gets f).
Proof. intros s. constructor. Qed.

Lemma emits_only_modify (Q : Action X -> Prop) (f : State X -> State X) :
  emits_only Q (modify f).
Proof. intros s. constructor. Qed.

Lemma emits_only_emit (Q : Action X -> Prop) (a : Action X) :
  Q a -> emits_only Q (emit a).
Proof. intros Ha s. repeat constructor. exact Ha. Qed.

Lemma emits_only_bind {A B} (Q : Action X -> Prop) (m : M X A) (k : A -> M X B) :
  emits_only Q m -> (forall a, emits_only Q (k a)) -> emits_only Q (bind m k).
Proof.
  intros Hm Hk s. unfold bind. specialize (Hm s).
  destruct (m s) as [[s1 t1] [a|e]]; [|exact Hm].
  specialize (Hk a s1). destruct (k a s1) as [[s2 t2] o].
  cbn in *. apply Forall_app. auto.
Qed.

Lemma unsubscribe_all_emits (Q : Action X -> Prop) names :
  (forall c, Q (Model c)) -> emits_only Q (unsubscribe_all names).
Proof.
  intros HQ. induction names as [|n names IH]; cbn [unsubscribe_all].
  - apply emits_only_ret.
  - unfold unsubscribe, model_call, the_model.
    repeat first [ apply emits_only_bind; intros
                 | apply emits_only_gets | apply emits_only_modify
                 | apply emits_only_emit, HQ | exact IH
                 | match goal with |- emits_only _ (if ?b then _ else _) => destruct b end
                 | apply emits_only_ret | apply emits_only_throw ].
Qed.

(** Releasing the protection model only talks to the protection model. *)
Lemma release_model_emits (Q : Action X -> Prop) :
  (forall c, Q (Model c)) -> emits_only Q release_model.
Proof.
  intros HQ. unfold release_model, setMediaElement, unsubscribe, model_call, the_model.
  repeat first [ apply emits_only_bind; intros
               | apply unsubscribe_all_emits, HQ
               | apply emits_only_gets | apply emits_only_modify
               | apply emits_only_emit, HQ
               | match goal with |- emits_only _ (if ?b then _ else _) => destruct b end
               | apply emits_only_ret | apply emits_only_throw ].
Qed.

Lemma release_model_keeps_xhrs l :
  preserves (fun s : State X => xhrs s = l) release_model.
Proof. apply release_model_preserves; intros; assumption. Qed.

(** The tracked request is marked and aborted; the [loadend] that the
    abort fires finds the mark and stays silent. *)
Lemma abort_license_request_outstanding s id x :
  xhrLicense s = Some id ->
  xhrs s !! id = Some x ->
  outstanding x = true ->
  exists s' x',
    abort_license_request s = (s', [XhrAbort id], Returned tt) /\
    xhrs s' !! id = Some x' /\ ended x' = true /\ aborted x' = true.
Proof.
  intros Hl Hx Ho. unfold abort_license_request.
  unfold bind at 1. unfold gets at 1. rewrite Hl. cbn [app].
  unfold bind at 1. unfold update_xhr at 1. unfold modify at 1.
  set (s1 := set_xhrs (alter (with_aborted true) id (xhrs s)) s).
  assert (Hx1 : xhrs s1 !! id = Some (with_aborted true x)).
  { subst s1. cbn [xhrs set_xhrs]. by rewrite list_lookup_alter_eq, Hx. }
  unfold xhr_abort. unfold bind at 1. unfold emit at 1.
  rewrite (if_outstanding_eq _ _ _ _ Hx1).
  change (outstanding (with_aborted true x)) with (outstanding x). rewrite Ho.
  pose proof (ending_lookup id s1 _ Hx1) as Hx2.
  destruct (handlers x) as [c|] eqn:Hh.
  - rewrite (xhr_onerror_onloadend_eq _ _ _ c _ _ Hx2 Hh).
    destruct (needFailureReport c); cbn.
    + eexists _, _. split; [reflexivity|].
      split; [apply (assigned_lookup id false _ _ c Hx2 Hh)|]. by cbn.
    + eexists _, _. split; [reflexivity|]. split; [exact Hx2|]. by cbn.
  - unfold xhr_onerror_onloadend, bind, gets. rewrite Hx2. cbn. rewrite Hh. cbn.
    eexists _, _. split; [reflexivity|]. split; [exact Hx2|]. by cbn.
Qed.

Lemma ended_request_is_silent s id x :
  xhrs s !! id = Some x -> ended x = true ->
  forall status readyState response,
    trace_of (xhr_responds id status readyState response s) = [] /\
    trace_of (xhr_network_error id response s) = [].
Proof.
  intros Hx He status readyState response.
  unfold xhr_responds, xhr_network_error.
  rewrite !(if_outstanding_eq _ _ _ _ Hx). unfold outstanding. rewrite He.
  rewrite andb_false_r. by cbn.
Qed.

(** C7: [teardown] with a tracked license exchange outstanding aborts that
    request, and raises no LicenseServerError fault, neither during the call
    nor afterwards: the request has ended, so whatever the browser still
    reports for it has no effect. *)
Theorem teardown_aborts_without_fault s (id : nat) (x : Xhr) :
  xhrLicense s = Some id ->
  xhrs s !! id = Some x ->
  outstanding x = true ->
  In (XhrAbort id) (trace_of (teardown s)) /\
  Forall (fun a => is_licenser_error a = false) (trace_of (teardown s)) /\
  forall status readyState response,
    trace_of (xhr_responds id status readyState response (state_of (teardown s))) = [] /\
    trace_of (xhr_network_error id response (state_of (teardown s))) = [].
Proof.
  intros Hl Hx Ho.
  destruct (abort_license_request_outstanding s id x Hl Hx Ho)
    as (s1 & x' & Heq & Hx' & He & _).
  pose proof (release_model_emits (fun a => is_licenser_error a = false)
                (fun c => eq_refl) s1) as Hquiet.
  pose proof (release_model_keeps_xhrs _ s1 eq_refl) as Hkeep.
  unfold teardown, bind. rewrite Heq.
  destruct (release_model s1) as [[s2 t2] o2]. cbn in Hquiet, Hkeep |- *.
  split; [by left|]. split; [by constructor|].
  apply (ended_request_is_silent s2 id x'); [by rewrite Hkeep | exact He].
Qed.

(** *** The license request *)

Lemma onKeyMessage_requests s e k lsd m :
  keySystem s = KsObj k ->
  message e = Some m ->
  m <> [] ->
  getLicenseServer X k (getProtData (protDataSet s) k) (messageType_of e) = Some lsd ->
  (if isClearKey X k
   then processClearKeyLicenseRequest X (getProtData (protDataSet s) k) m
   else None) = None ->
  onKeyMessage e s =
    bind (dispatchEvent (KEY_MESSAGE e))
      (fun _ => licenseRequest_step k (getProtData (protDataSet s) k) lsd
                  (messageType_of e) e m) s.
Proof.
  intros Hk Hm Hne Hl Hc.
  set (step := licenseRequest_step k (getProtData (protDataSet s) k) lsd
                 (messageType_of e) e m).
  unfold onKeyMessage. run_m. rewrite Hk, Hm.
  destruct m as [|b0 m]; [done|].
  change (message_empty (Some (b0 :: m))) with false.
  cbn [default from_option id]. rewrite Hl, Hc. fold step.
  by destruct (step s) as [[??]?].
Qed.

Lemma truthy_url_of v : url_of v = if truthy v then Some (text_of v) else None.
Proof. destruct v as [| |u]; cbn; try reflexivity. by destruct (bool_decide (u = "")). Qed.

Lemma first_url_cons v rest :
  first_url (v :: rest) = if truthy v then Some (text_of v) else first_url rest.
Proof. cbn [first_url]. rewrite truthy_url_of. by destruct (truthy v). Qed.

Lemma licenseServerURL_as_specified k pd mt e :
  mapping_without_entry pd mt = false ->
  url_of (licenseServerURL X k pd mt e) = spec_licenseServerURL X k pd mt e.
Proof.
  unfold licenseServerURL, spec_licenseServerURL, spec_configured, configuredURL,
    mapping_without_entry.
  rewrite !first_url_cons. cbn [first_url].
  destruct pd as [[su la hh wc]|]; cbn [fmap option_fmap option_map serverURL laURL from_option].
  - destruct su as [|u|mp]; cbn [serverURL_truthy truthy negb].
    + intros _. destruct (truthy la) eqn:Hla.
      * destruct la; try discriminate. cbn [is_null]. by rewrite truthy_url_of, Hla.
      * cbn [is_null]. destruct (truthy (getLicenseServerURLFromInitData _ _ _)) eqn:Hm;
          cbn [negb]; rewrite truthy_url_of; [by rewrite Hm|].
        reflexivity.
    + intros _. destruct (bool_decide (u = "")) eqn:Hu; cbn [negb].
      * destruct (truthy la) eqn:Hla.
        -- destruct la; try discriminate. cbn [is_null]. by rewrite truthy_url_of, Hla.
        -- cbn [is_null].
           destruct (truthy (getLicenseServerURLFromInitData _ _ _)) eqn:Hm;
             cbn [negb]; rewrite truthy_url_of; [by rewrite Hm|].
           reflexivity.
      * cbn [is_null]. rewrite truthy_url_of. cbn [truthy]. by rewrite Hu.
    + intros Hent. apply negb_false_iff in Hent.
      destruct (mp !! mt) as [u|]; cbn [default from_option id] in Hent |- *;
        [|discriminate].
      rewrite Hent. destruct u; try discriminate. cbn [is_null].
      by rewrite truthy_url_of, Hent.
  - intros _. cbn [truthy is_null].
    destruct (truthy (getLicenseServerURLFromInitData _ _ _)) eqn:Hm;
      cbn [negb]; rewrite truthy_url_of; [by rewrite Hm|].
    reflexivity.
Qed.

(** A configured mapping that has no entry (or a [null] one) for the message
    type: the deprecated field is not looked at. *)
Lemma licenseServerURL_mapping_without_entry k pd mp mt e :
  serverURL pd = SUrlObject mp ->
  mp !! mt = None \/ mp !! mt = Some JNull ->
  url_of (licenseServerURL X k (Some pd) mt e) =
    first_url
      [getLicenseServerURLFromInitData X k
         (getPSSHData X (token_initData (sessionToken e)));
       defaultURL e].
Proof.
  intros Hs Hm. unfold licenseServerURL, configuredURL. rewrite Hs.
  cbn [serverURL_truthy].
  assert (match mp !! mt with Some u => u | None => JNull end = JNull) as ->
    by (destruct Hm as [-> | ->]; reflexivity).
  cbn [is_null]. rewrite !first_url_cons. cbn [first_url].
  destruct (truthy (getLicenseServerURLFromInitData _ _ _)) eqn:Ht; cbn [negb];
    rewrite truthy_url_of; [by rewrite Ht | reflexivity].
Qed.

(** An entry that is not [null] is taken as it is, usable or not. *)
Lemma licenseServerURL_mapping_entry k pd mp mt e u :
  serverURL pd = SUrlObject mp ->
  mp !! mt = Some u ->
  u <> JNull ->
  licenseServerURL X k (Some pd) mt e = u.
Proof.
  intros Hs Hm Hu. unfold licenseServerURL, configuredURL. rewrite Hs, Hm.
  cbn [serverURL_truthy]. by destruct u.
Qed.

(** C5 (amended): for a key message that needs the license server, the URL
    handed to the descriptor is the one the precedence chain of the
    specification yields - configured per-system URL, deprecated field,
    initialization metadata, host default - except when the per-system URL
    is a mapping without a usable entry for the message type: without an
    entry (or with a [null] one) the deprecated field is skipped and the
    metadata and default URLs follow; another entry is taken as it is.  The
    descriptor's post-processing comes last.  If what it returns is not a
    usable URL, the NoLicenseURL fault is raised and the request, though
    created, is never opened; otherwise the request is opened on exactly
    that URL. *)
Theorem license_url_resolution
    s (e : KeyMessage) (k : KeySystem) (lsd : LicenseServerData) (m : bytes) :
  keySystem s = KsObj k ->
  message e = Some m ->
  m <> [] ->
  getLicenseServer X k (getProtData (protDataSet s) k) (messageType_of e) = Some lsd ->
  (if isClearKey X k
   then processClearKeyLicenseRequest X (getProtData (protDataSet s) k) m
   else None) = None ->
  let pd := getProtData (protDataSet s) k in
  let mt := messageType_of e in
  let url := licenseServerURL X k pd mt e in
  let final := getServerURLFromMessage lsd url m mt in
  let id := length (xhrs s) in
  (mapping_without_entry pd mt = false ->
   url_of url = spec_licenseServerURL X k pd mt e) /\
  (forall pd' mp,
     pd = Some pd' -> serverURL pd' = SUrlObject mp ->
     (mp !! mt = None \/ mp !! mt = Some JNull ->
      url_of url =
        first_url
          [getLicenseServerURLFromInitData X k
             (getPSSHData X (token_initData (sessionToken e)));
           defaultURL e]) /\
     (forall u, mp !! mt = Some u -> u <> JNull -> url = u)) /\
  (truthy final = false ->
   trace_of (onKeyMessage e s) =
     [Dispatch (KEY_MESSAGE e); XhrNew id; Notify URL_LICENSER_UNKNOWN]) /\
  (truthy final = true ->
   exists rest,
     trace_of (onKeyMessage e s) =
       Dispatch (KEY_MESSAGE e) :: XhrNew id
         :: XhrOpen id (getHTTPMethod lsd mt) final :: rest).
Proof.
  intros Hk Hm Hne Hl Hc pd mt url final id.
  split; [|split; [|split]].
  - apply licenseServerURL_as_specified.
  - intros pd' mp Hpd Hs. subst url. rewrite Hpd. split.
    + apply licenseServerURL_mapping_without_entry; assumption.
    + intros u. apply licenseServerURL_mapping_entry; assumption.
  - intros Hf. rewrite (onKeyMessage_requests s e k lsd m Hk Hm Hne Hl Hc).
    unfold bind, dispatchEvent, emit. cbv beta iota.
    subst final url mt pd id.
    rewrite (licenseRequest_step_no_url k _ lsd _ e m s Hf). reflexivity.
  - intros Hf. rewrite (onKeyMessage_requests s e k lsd m Hk Hm Hne Hl Hc).
    unfold bind, dispatchEvent, emit. cbv beta iota.
    subst final url mt pd id.
    rewrite (licenseRequest_step_sends k _ lsd _ e m s Hf).
    eexists. reflexivity.
Qed.

(** C2, what the code does: when the key system derives no request body
    from the message, the NoChallenge fault is raised - and the request is
    sent all the same, with a [null] body. *)
Theorem onKeyMessage_sends_without_challenge
    s (e : KeyMessage) (k : KeySystem) (lsd : LicenseServerData) (m : bytes) :
  keySystem s = KsObj k ->
  message e = Some m ->
  m <> [] ->
  getLicenseServer X k (getProtData (protDataSet s) k) (messageType_of e) = Some lsd ->
  (if isClearKey X k
   then processClearKeyLicenseRequest X (getProtData (protDataSet s) k) m
   else None) = None ->
  truthy (getServerURLFromMessage lsd
            (licenseServerURL X k (getProtData (protDataSet s) k) (messageType_of e) e)
            m (messageType_of e)) = true ->
  getLicenseRequestFromMessage X k m = None ->
  exists before,
    trace_of (onKeyMessage e s) =
      before ++ [Notify (NO_CHALLENGE "No license challenge from CDM key message");
                 XhrSend (length (xhrs s)) None].
Proof.
  intros Hk Hm Hne Hl Hc Hu Hr.
  rewrite (onKeyMessage_requests s e k lsd m Hk Hm Hne Hl Hc).
  unfold bind, dispatchEvent, emit. cbv beta iota.
  rewrite (licenseRequest_step_sends k _ lsd _ e m s Hu). rewrite Hr.
  cbn [trace_of fst snd app].
  match goal with
  | |- exists b, ?a :: ?x :: ?y :: ?z :: ?p1 ++ ?p2 ++ ?p3 ++ ?tl = _ =>
      exists (a :: x :: y :: z :: p1 ++ p2 ++ p3)
  end.
  cbn [app]. rewrite <- !app_assoc. reflexivity.
Qed.

(** *** What no operation undoes *)

(** X5: the queue of pending batches is only ever appended to.  Whatever
    calls and events follow - a replay, a failed selection, [teardown],
    [setup] again - the batches that were queued are still queued, at the
    same places. *)
Theorem pending_queue_only_grows s (ops : list (Op X)) :
  pendingNeedKeyData s `prefix_of` pendingNeedKeyData (run ops s).1.
Proof.
  apply (run_preserves
           (fun s' => pendingNeedKeyData s `prefix_of` pendingNeedKeyData s'));
    try (intros; assumption); [|reflexivity].
  intros b s' Hs'. cbn [pendingNeedKeyData set_pendingNeedKeyData].
  by apply prefix_app_r.
Qed.

(** X6: once [initialized] is set, the codecs are fixed: no call and no
    event changes them any more, [teardown] and further [init] calls with
    other codecs included. *)
Theorem codecs_fixed_once_initialized s (ops : list (Op X)) :
  initialized s = true ->
  initialized (run ops s).1 = true /\
  audioCodec (run ops s).1 = audioCodec s /\
  videoCodec (run ops s).1 = videoCodec s.
Proof.
  intros Hi.
  apply (run_preserves
           (fun s' => initialized s' = true /\
                      audioCodec s' = audioCodec s /\ videoCodec s' = videoCodec s));
    try (intros; assumption); [| |by repeat split].
  - intros a v s' Hf [Ht _]. congruence.
  - intros s' [_ H]. split; [reflexivity | exact H].
Qed.

(** *** Selecting a key system *)

Lemma find_ks_none k batch n :
  Forall (fun c => same_ks k (ks c) = false) batch -> find_ks k batch n = None.
Proof.
  intros H. revert n. induction H as [|c batch Hc _ IH]; intros n; [reflexivity|].
  cbn [find_ks]. rewrite Hc. apply IH.
Qed.

Lemma find_ks_first_match k batch n c :
  first_match (KsObj k) batch = Some c ->
  exists i, find_ks k batch n = Some (n + i, c) /\ batch !! i = Some c.
Proof.
  unfold first_match. revert n. induction batch as [|c' batch IH]; intros n; [discriminate|].
  cbn [List.find find_ks ks_is]. destruct (same_ks k (ks c')).
  - intros [= ->]. exists 0. by rewrite Nat.add_0_r.
  - intros H. destruct (IH (S n) H) as (i & Hf & Hl). exists (S i).
    split; [|exact Hl]. rewrite Hf. do 2 f_equal. lia.
Qed.

(** X7: with a key system selected, a batch without a candidate for that
    key system is dropped: nothing is requested, nothing is queued, nothing
    is reported. *)
Theorem selectKeySystem_without_candidate s (k : KeySystem) (batch : Batch)
    (fromManifest : bool) :
  keySystem s = KsObj k ->
  Forall (fun c => same_ks k (ks c) = false) batch ->
  selectKeySystem batch fromManifest s = (s, [], Returned tt).
Proof.
  intros Hk Hn. unfold selectKeySystem. run_m. rewrite Hk, (find_ks_none _ _ _ Hn).
  reflexivity.
Qed.

Lemma selectKeySystem_selected_eq s k batch fromManifest i c :
  keySystem s = KsObj k ->
  protectionModel s = true ->
  find_ks k batch 0 = Some (i, c) ->
  let a := length (selections s) in
  selectKeySystem batch fromManifest s =
    (set_subscriptions
       (subscriptions s ++ [listening ENAME_KEY_SYSTEM_ACCESS_COMPLETE (ObsKsAccess a)])
       (set_selections
          (selections s ++
             [{| sel_supportedKS := batch; sel_fromManifest := fromManifest;
                 sel_keySystemsInfo := [info_of c]; sel_ksIdx := i;
                 sel_keySystemAccess := None |}]) s),
     [Model (model_subscribe ENAME_KEY_SYSTEM_ACCESS_COMPLETE (ObsKsAccess a) true);
      Model (model_requestKeySystemAccess [requested_of s c])],
     Returned tt).
Proof.
  intros Hk Hp Hf a. unfold selectKeySystem, new_selection, subscribe. run_m.
  rewrite Hk, Hf.
  repeat (cbn [protectionModel set_selections set_subscriptions]; rewrite Hp).
  reflexivity.
Qed.

(** X8: with a key system selected, a batch that has candidates for it
    makes the controller ask again for access to that key system only, for
    the first such candidate, and changes neither the selection nor the
    queue.  When the answer comes, a grant is announced on the public bus
    and followed by [createKeySession] for that candidate; a denial is
    announced on the public bus only: no fault is raised and the state is
    left as it is. *)
Theorem selectKeySystem_revalidates s (k : KeySystem) (batch : Batch)
    (fromManifest : bool) (c : Candidate) :
  keySystem s = KsObj k ->
  protectionModel s = true ->
  first_match (KsObj k) batch = Some c ->
  let a := length (selections s) in
  let s' := state_of (selectKeySystem batch fromManifest s) in
  trace_of (selectKeySystem batch fromManifest s) =
    [Model (model_subscribe ENAME_KEY_SYSTEM_ACCESS_COMPLETE (ObsKsAccess a) true);
     Model (model_requestKeySystemAccess [requested_of s c])] /\
  keySystem s' = KsObj k /\
  pendingNeedKeyData s' = pendingNeedKeyData s /\
  forall data error,
    handle (ObsKsAccess a) (key_system_access_complete data error) s' =
      if truthy error
      then (s', [Dispatch (KEY_SYSTEM_SELECTED_error
                             ("[DRM] KeySystem Access Denied! -- " +:+ text_of error))],
            Returned tt)
      else bind (dispatchEvent (KEY_SYSTEM_SELECTED data))
             (fun _ => createKeySession (initData c) (cdmData c)) s'.
Proof.
  intros Hk Hp Hm a s'.
  destruct (find_ks_first_match k batch 0 c Hm) as (i & Hf & Hl). cbn [Nat.add] in Hf.
  subst s'. rewrite (selectKeySystem_selected_eq s k batch fromManifest i c Hk Hp Hf).
  cbn [state_of trace_of fst snd]. fold a.
  split; [reflexivity|]. split; [exact Hk|]. split; [reflexivity|].
  intros data error. cbn [handle]. unfold bind at 1. unfold gets at 1.
  cbn [selections set_subscriptions set_selections].
  rewrite (list_lookup_middle _ [] _ a eq_refl). cbn [app].
  unfold ksAccess_ACCESS_COMPLETE. cbn [sel_supportedKS sel_ksIdx]. rewrite Hl.
  destruct (truthy error); [reflexivity|].
  match goal with |- (let (_, _) := ?r in _) = _ => by destruct r as [[??]?] end.
Qed.

Lemma selectKeySystem_unset_eq s batch fromManifest :
  keySystem s = KsUndefined ->
  protectionModel s = true ->
  let a := length (selections s) in
  selectKeySystem batch fromManifest s =
    (set_subscriptions
       (subscriptions s ++
          [listening ENAME_KEY_SYSTEM_SELECTED (ObsKsSelected a);
           listening ENAME_KEY_SYSTEM_ACCESS_COMPLETE (ObsKsSelected a)])
       (set_selections
          (selections s ++
             [{| sel_supportedKS := batch; sel_fromManifest := fromManifest;
                 sel_keySystemsInfo := map info_of batch; sel_ksIdx := 0;
                 sel_keySystemAccess := None |}])
          (set_pendingNeedKeyData (pendingNeedKeyData s ++ [batch])
             (set_keySystem KsNull s))),
     [Model (model_subscribe ENAME_KEY_SYSTEM_SELECTED (ObsKsSelected a) true);
      Model (model_subscribe ENAME_KEY_SYSTEM_ACCESS_COMPLETE (ObsKsSelected a) true);
      Model (model_requestKeySystemAccess (map (requested_of s) batch))],
     Returned tt).
Proof.
  intros Hk Hp a. unfold selectKeySystem, new_selection, subscribe, push_pending. run_m.
  rewrite Hk.
  repeat (cbn [protectionModel set_selections set_subscriptions set_pendingNeedKeyData
               set_keySystem]; rewrite Hp).
  cbn [subscriptions set_subscriptions]. rewrite <- app_assoc. reflexivity.
Qed.

(** X9: the first batch, on a controller without a key system, starts the
    selection: one access request naming every candidate of the batch, in
    order, the batch on the queue, and the controller in the "selecting"
    state.  When access is denied, the controller is back without a key
    system, the fault names every candidate of the batch, the public bus
    hears of it unless the batch came from the manifest - and the batch is
    still on the queue. *)
Theorem selectKeySystem_first_batch s (batch : Batch) (fromManifest : bool) :
  keySystem s = KsUndefined ->
  protectionModel s = true ->
  let a := length (selections s) in
  let s1 := state_of (selectKeySystem batch fromManifest s) in
  selectKeySystem batch fromManifest s =
    (s1,
     [Model (model_subscribe ENAME_KEY_SYSTEM_SELECTED (ObsKsSelected a) true);
      Model (model_subscribe ENAME_KEY_SYSTEM_ACCESS_COMPLETE (ObsKsSelected a) true);
      Model (model_requestKeySystemAccess (map (requested_of s) batch))],
     Returned tt) /\
  keySystem s1 = KsNull /\
  pendingNeedKeyData s1 = pendingNeedKeyData s ++ [batch] /\
  forall data error,
    truthy error = true ->
    let r := handle (ObsKsSelected a) (key_system_access_complete data error) s1 in
    trace_of r =
      Model (model_unsubscribe ENAME_KEY_SYSTEM_SELECTED (ObsKsSelected a))
        :: (if fromManifest then []
            else [Dispatch (KEY_SYSTEM_SELECTED_error
                              ("[DRM] KeySystem Access Denied! -- " +:+ text_of error))])
        ++ [Notify (ACCESS_DENIED (map info_of batch))] /\
    keySystem (state_of r) = KsUndefined /\
    pendingNeedKeyData (state_of r) = pendingNeedKeyData s ++ [batch].
Proof.
  intros Hk Hp a s1. subst s1.
  rewrite (selectKeySystem_unset_eq s batch fromManifest Hk Hp).
  cbn [state_of fst snd]. fold a.
  split; [reflexivity|]. split; [reflexivity|]. split; [reflexivity|].
  intros data error He.
  match goal with
  | |- context [handle ?o ?ev ?s1] =>
      assert (Hh : handle o ev s1 =
                ksSelected_ACCESS_COMPLETE a
                  {| sel_supportedKS := batch; sel_fromManifest := fromManifest;
                     sel_keySystemsInfo := map info_of batch; sel_ksIdx := 0;
                     sel_keySystemAccess := None |} data error s1)
  end.
  { cbn [handle]. unfold bind at 1. unfold gets at 1.
    cbn [selections set_subscriptions set_selections].
    rewrite (list_lookup_middle _ [] _ a eq_refl). cbn [app].
    match goal with |- (let (_, _) := ?r in _) = _ => by destruct r as [[??]?] end. }
  rewrite Hh, ksSelected_ACCESS_COMPLETE_fails by (exact Hp || exact He).
  cbn [sel_fromManifest sel_keySystemsInfo]. split; [reflexivity|]. split; reflexivity.
Qed.

(** X10: the first [init] whose content protection yields candidates, on a
    controller without a key system: the codecs of this call are stored and
    used - video first, audio second - in the access request for every
    candidate; the batch is queued as coming from the manifest, and
    [initialized] is set. *)
Theorem init_starts_selection s cp (aCodec vCodec : JsStr) (batch : Batch) :
  initialized s = false ->
  keySystem s = KsUndefined ->
  protectionModel s = true ->
  getSupportedKeySystemsFromContentProtection X cp = Some batch ->
  batch <> [] ->
  let a := length (selections s) in
  let r := init cp aCodec vCodec s in
  trace_of r =
    [Model (model_subscribe ENAME_KEY_SYSTEM_SELECTED (ObsKsSelected a) true);
     Model (model_subscribe ENAME_KEY_SYSTEM_ACCESS_COMPLETE (ObsKsSelected a) true);
     Model (model_requestKeySystemAccess
              (map (fun c => (ks c, getKeySystemConfigurations X (ks c) vCodec aCodec
                                      (ksSessionType s (ks c)))) batch))] /\
  outcome_of r = Returned tt /\
  initialized (state_of r) = true /\
  audioCodec (state_of r) = aCodec /\
  videoCodec (state_of r) = vCodec /\
  keySystem (state_of r) = KsNull /\
  pendingNeedKeyData (state_of r) = pendingNeedKeyData s ++ [batch] /\
  (sel_fromManifest (X:=X) <$> selections (state_of r) !! a) = Some true.
Proof.
  intros Hi Hk Hp Hcp Hne a r.
  assert (Heq : r =
    (set_initialized true
       (state_of (selectKeySystem batch true (set_codecs aCodec vCodec s))),
     trace_of (selectKeySystem batch true (set_codecs aCodec vCodec s)),
     Returned tt)).
  { subst r. rewrite init_eq, Hi, Hcp.
    assert (bool_decide (length batch = 0) = false) as ->.
    { apply bool_decide_eq_false. by destruct batch. }
    cbn [negb when]. unfold bind at 1. unfold modify at 1. unfold bind at 1.
    rewrite (selectKeySystem_unset_eq (set_codecs aCodec vCodec s) batch true Hk Hp).
    unfold modify. cbn [state_of trace_of fst snd app]. reflexivity. }
  rewrite Heq.
  rewrite (selectKeySystem_unset_eq (set_codecs aCodec vCodec s) batch true Hk Hp).
  cbn [state_of trace_of outcome_of fst snd].
  cbn [selections set_codecs set_initialized set_subscriptions set_selections
       initialized audioCodec videoCodec keySystem pendingNeedKeyData
       set_pendingNeedKeyData set_keySystem].
  fold a. rewrite (list_lookup_middle _ [] _ a eq_refl). repeat split.
Qed.

(** *** Key messages that need no license request *)

(** X11: a key message that the license-server descriptor does not want
    (there is none for this message type), or that the application answers
    itself with ClearKey material, ends after the public event: no request
    object is created or tracked, nothing is sent, no fault is raised.  In
    the ClearKey case the material goes to the session named by the
    message. *)
Theorem onKeyMessage_without_request s (e : KeyMessage) (k : KeySystem) (m : bytes) :
  keySystem s = KsObj k ->
  message e = Some m ->
  m <> [] ->
  (getLicenseServer X k (getProtData (protDataSet s) k) (messageType_of e) = None ->
   onKeyMessage e s = (s, [Dispatch (KEY_MESSAGE e)], Returned tt)) /\
  (forall lsd clearkeys,
     getLicenseServer X k (getProtData (protDataSet s) k) (messageType_of e) = Some lsd ->
     isClearKey X k = true ->
     processClearKeyLicenseRequest X (getProtData (protDataSet s) k) m = Some clearkeys ->
     protectionModel s = true ->
     onKeyMessage e s =
       (s, [Dispatch (KEY_MESSAGE e);
            Model (model_updateKeySession (sessionToken e) clearkeys)],
        Returned tt)).
Proof.
  intros Hk Hm Hne.
  assert (He : message_empty (message e) = false).
  { rewrite Hm. destruct m; [done|]. reflexivity. }
  split.
  - intros Hl. unfold onKeyMessage. run_m. rewrite Hk, He, Hl. reflexivity.
  - intros lsd clearkeys Hl Hc Hpr Hp. unfold onKeyMessage. run_m.
    rewrite Hk, He, Hl, Hc, Hm. cbn [default from_option id]. rewrite Hpr, Hp.
    reflexivity.
Qed.

(** *** Request headers and credentials *)

Lemma headers_set_app t1 t2 : headers_set (t1 ++ t2) = headers_set t1 ++ headers_set t2.
Proof. apply omap_app. Qed.

Lemma header_actions_set id0 hs : headers_set (header_actions (X:=X) id0 hs) = hs.
Proof.
  induction hs as [|[key value] hs IH]; [reflexivity|].
  cbn [header_actions]. rewrite headers_set_app. unfold headers_set in *.
  destruct (bool_decide _); cbn [omap list_omap app]; by rewrite IH.
Qed.

Lemma header_actions_credentials id0 hs :
  In (XhrWithCredentials id0) (header_actions (X:=X) id0 hs) <-> Exists is_authorization hs.
Proof.
  induction hs as [|[key value] hs IH].
  - cbn. split; [tauto | by intros ?%Exists_nil].
  - cbn [header_actions]. rewrite in_app_iff, Exists_cons. unfold is_authorization at 1.
    cbn [fst In]. rewrite <- IH. split.
    + intros [H | [H | H]]; [|discriminate|by right].
      left. destruct (bool_decide ("authorization" = toLowerCase key)) eqn:Hb; [|destruct H].
      apply bool_decide_eq_true in Hb. done.
    + intros [H | H]; [|by right; right].
      left. rewrite bool_decide_eq_true_2 by done. by left.
Qed.

(** X12: the request that goes out carries the headers of the protection
    data followed by those the key system derives from the message, each set
    once and in that order; and it is sent with credentials exactly when the
    protection data ask for it or one of these headers is named
    "authorization", in whatever case. *)
Theorem onKeyMessage_headers_and_credentials
    s (e : KeyMessage) (k : KeySystem) (lsd : LicenseServerData) (m : bytes) :
  keySystem s = KsObj k ->
  message e = Some m ->
  m <> [] ->
  getLicenseServer X k (getProtData (protDataSet s) k) (messageType_of e) = Some lsd ->
  (if isClearKey X k
   then processClearKeyLicenseRequest X (getProtData (protDataSet s) k) m
   else None) = None ->
  truthy (getServerURLFromMessage lsd
            (licenseServerURL X k (getProtData (protDataSet s) k) (messageType_of e) e)
            m (messageType_of e)) = true ->
  let pd := getProtData (protDataSet s) k in
  let headers :=
    default [] (pd ≫= httpRequestHeaders)
      ++ default [] (getRequestHeadersFromMessage X k m) in
  headers_set (trace_of (onKeyMessage e s)) = headers /\
  (In (XhrWithCredentials (length (xhrs s))) (trace_of (onKeyMessage e s)) <->
     from_option withCredentials false pd = true \/ Exists is_authorization headers).
Proof.
  intros Hk Hm Hne Hl Hc Hu pd headers.
  rewrite (onKeyMessage_requests s e k lsd m Hk Hm Hne Hl Hc).
  unfold bind, dispatchEvent, emit. cbv beta iota.
  rewrite (licenseRequest_step_sends k _ lsd _ e m s Hu). fold pd.
  cbn [trace_of fst snd].
  clearbody pd.
  assert (H1 : from_option
                 (fun pd => from_option (header_actions (length (xhrs s))) []
                              (httpRequestHeaders pd)) [] pd
               = header_actions (X:=X) (length (xhrs s)) (default [] (pd ≫= httpRequestHeaders))).
  { destruct pd as [[? ? [hh|] ?]|]; reflexivity. }
  assert (H2 : from_option (header_actions (length (xhrs s))) []
                 (getRequestHeadersFromMessage X k m)
               = header_actions (X:=X) (length (xhrs s))
                   (default [] (getRequestHeadersFromMessage X k m))).
  { destruct (getRequestHeadersFromMessage X k m); reflexivity. }
  rewrite H1, H2. split.
  - rewrite (headers_set_app [_]), !headers_set_app, !header_actions_set.
    destruct (from_option withCredentials false pd);
      destruct (getLicenseRequestFromMessage X k m); cbn; by rewrite app_nil_r.
  - subst headers. rewrite Exists_app, <- !(header_actions_credentials (length (xhrs s))).
    rewrite (in_app_iff [_]), !in_app_iff.
    destruct (from_option withCredentials false pd);
      destruct (getLicenseRequestFromMessage X k m); cbn [In];
      intuition (discriminate || auto).
Qed.

(** *** Creating key sessions *)

Lemma seen_existsb d l : seen (X:=X) d l = existsb (initDataEquals X d) l.
Proof. induction l as [|c l IH]; [reflexivity|]. cbn. rewrite IH. by destruct (initDataEquals X d c). Qed.

(** X13: on a live controller with a key system selected, [createKeySession]
    asks the protection model for a session exactly when none of the
    initialization data the protection model lists equals the data derived
    for the key system; what it asks the session for is the derived data,
    not the data it was called with.  If one is equal, the call does
    nothing. *)
Theorem createKeySession_only_for_new_data
    s (initData : bytes) (cdmData : option bytes) (d : bytes) (k : KeySystem) :
  protectionModel s = true ->
  keySystem s = KsObj k ->
  getPSSHForKeySystem X (keySystem s) initData = Some d ->
  sessions_requested (trace_of (createKeySession initData cdmData s)) =
    (if existsb (initDataEquals X d) (model_getAllInitData X (model s)) then [] else [d]) /\
  (existsb (initDataEquals X d) (model_getAllInitData X (model s)) = true ->
   createKeySession initData cdmData s = (s, [], Returned tt)).
Proof.
  intros Hp Hk Hd. rewrite <- seen_existsb.
  destruct (seen d (model_getAllInitData X (model s))) eqn:Hs.
  - rewrite (createKeySession_seen s initData cdmData d Hp Hd Hs). by split.
  - rewrite (createKeySession_new s initData cdmData d k Hp Hk Hd Hs).
    split; [|discriminate]. cbn.
    by destruct (model_createKeySession X (model s) d (ksSessionType s k) cdmData).2.
Qed.

(** X14: on a live controller with a key system selected, a failure to
    create a session never reaches the caller as an exception: the call
    returns.  When no initialization data can be derived for the key system,
    a notification says so, naming the key system, and the protection model
    is not called; when the protection model raises, the exception's code,
    name and message are passed on in a notification. *)
Theorem createKeySession_reports_failures
    s (initData : bytes) (cdmData : option bytes) (k : KeySystem) :
  protectionModel s = true ->
  keySystem s = KsObj k ->
  outcome_of (createKeySession initData cdmData s) = Returned tt /\
  (getPSSHForKeySystem X (keySystem s) initData = None ->
   createKeySession initData cdmData s =
     (s, [Notify (KEY_SESSION_CREATED_failed
                    ("needkey/encrypted event contains no initData corresponding to that key system "
                       +:+ systemString k) None)],
      Returned tt)) /\
  (forall d g' ex,
     getPSSHForKeySystem X (keySystem s) initData = Some d ->
     existsb (initDataEquals X d) (model_getAllInitData X (model s)) = false ->
     model_createKeySession X (model s) d (ksSessionType s k) cdmData = (g', Some ex) ->
     createKeySession initData cdmData s =
       (set_model g' s,
        [Model (model_createKeySession_call d (ksSessionType s k) cdmData);
         Notify (KEY_SESSION_CREATED_failed "Create key session raised en exception"
                   (Some {| code := CodeOf (ex_code ex); msg := ex_name ex;
                            data := OpaqueData (JString (ex_message ex)) |}))],
        Returned tt)).
Proof.
  intros Hp Hk. split; [exact (createKeySession_returns s initData cdmData k Hp Hk)|].
  split.
  - intros Hd. unfold createKeySession. run_m. rewrite Hd, Hk. reflexivity.
  - intros d g' ex Hd Hs Hc. rewrite <- seen_existsb in Hs.
    rewrite (createKeySession_new s initData cdmData d k Hp Hk Hd Hs), Hc. reflexivity.
Qed.

(** *** [teardown] *)

Lemma bind_gets_eq {A B} (f : State X -> A) (k : A -> M X B) s :
  bind (gets f) k s = k (f s) s.
Proof. unfold bind, gets. by destruct (k (f s) s) as [[??]?]. Qed.

Lemma bind_state {A B} (P : State X -> Prop) (m : M X A) (k : A -> M X B) s :
  P (state_of (m s)) -> (forall a, preserves P (k a)) -> P (state_of (bind m k s)).
Proof.
  intros Hm Hk. unfold bind. destruct (m s) as [[s1 t1] [a|e]]; [|exact Hm].
  specialize (Hk a s1 Hm). by destruct (k a s1) as [[s2 t2] o].
Qed.

Lemma bind_trace {A B} (Q : Action X -> Prop) (m : M X A) (k : A -> M X B) s :
  Forall Q (trace_of (m s)) -> (forall a, emits_only Q (k a)) ->
  Forall Q (trace_of (bind m k s)).
Proof.
  intros Hm Hk. unfold bind. destruct (m s) as [[s1 t1] [a|e]]; [|exact Hm].
  specialize (Hk a s1). destruct (k a s1) as [[s2 t2] o].
  cbn in *. apply Forall_app. auto.
Qed.

(** Goes through a computation along its structure, for its trace. *)
Ltac emitting :=
  repeat first
    [ progress intros
    | apply emits_only_bind
    | apply emits_only_gets
    | apply emits_only_modify
    | apply emits_only_ret
    | apply emits_only_throw
    | apply emits_only_emit; solve [auto | discriminate | congruence]
    | match goal with
      | |- emits_only _ (when ?b _) => destruct b; cbn [when]
      | |- emits_only _ (if ?b then _ else _) => destruct b
      | |- emits_only _ (match ?x with _ => _ end) => destruct x
      end ].

Lemma returns_ret {A} (a : A) : returns (X:=X) (ret a).
Proof. intros s. by exists a. Qed.

Lemma returns_gets {A} (f : State X -> A) : returns (gets f).
Proof. intros s. by exists (f s). Qed.

Lemma returns_modify (f : State X -> State X) : returns (modify f).
Proof. intros s. by exists tt. Qed.

Lemma returns_emit (a : Action X) : returns (emit a).
Proof. intros s. by exists tt. Qed.

Lemma returns_bind {A B} (m : M X A) (k : A -> M X B) :
  returns m -> (forall a, returns (k a)) -> returns (bind m k).
Proof.
  intros Hm Hk s. unfold bind. destruct (Hm s) as [a Ha].
  destruct (m s) as [[s1 t1] o]. cbn in Ha. subst o.
  destruct (Hk a s1) as [b Hb]. destruct (k a s1) as [[s2 t2] o]. by exists b.
Qed.

(** Goes through a computation along its structure, for its outcome. *)
Ltac returning :=
  repeat first
    [ progress intros
    | apply returns_bind
    | apply returns_gets
    | apply returns_modify
    | apply returns_ret
    | apply returns_emit
    | match goal with
      | |- returns (when ?b _) => destruct b; cbn [when]
      | |- returns (if ?b then _ else _) => destruct b
      | |- returns (match ?x with _ => _ end) => destruct x
      end ].

(** The abort of the tracked request cannot throw: the handlers it runs
    do not call the protection model. *)
Lemma abort_license_request_returns : returns (X:=X) abort_license_request.
Proof.
  unfold abort_license_request, xhr_abort, if_outstanding, xhr_onerror_onloadend,
    set_needFailureReport, update_xhr, notify.
  returning.
Qed.

Lemma release_model_attached s :
  protectionModel s = true ->
  exists subs,
    release_model s =
      (set_protectionModel false
         (set_subscriptions subs (set_keySystem KsUndefined s)),
       release_calls, Returned tt).
Proof.
  intros Hp. unfold release_model, unsubscribe_all, setMediaElement, unsubscribe. run_m.
  repeat (cbn [protectionModel set_subscriptions set_keySystem]; rewrite Hp).
  eexists. reflexivity.
Qed.

Lemma teardown_attached s :
  protectionModel s = true ->
  exists s1 subs,
    teardown s =
      (set_protectionModel false (set_subscriptions subs (set_keySystem KsUndefined s1)),
       trace_of (abort_license_request s) ++ release_calls, Returned tt) /\
    pendingNeedKeyData s1 = pendingNeedKeyData s /\
    initialized s1 = initialized s /\
    selections s1 = selections s.
Proof.
  intros Hp.
  pose proof (abort_license_request_preserves
                (fun s' => protectionModel s' = true /\
                           pendingNeedKeyData s' = pendingNeedKeyData s /\
                           initialized s' = initialized s /\
                           selections s' = selections s)
                ltac:(intros; assumption) ltac:(intros; assumption) s
                (conj Hp (conj eq_refl (conj eq_refl eq_refl)))) as (Hp1 & Hq1 & Hi1 & Hs1).
  destruct (abort_license_request_returns s) as [[] Hr].
  unfold teardown, bind.
  destruct (abort_license_request s) as [[s1 t1] o1]. cbn in Hp1, Hq1, Hi1, Hs1, Hr.
  subst o1. destruct (release_model_attached s1 Hp1) as [subs ->].
  exists s1, subs. by split_and!.
Qed.

(** X15: on a live controller [teardown] always returns.  After the abort
    of the tracked request, if any, it tells the protection model exactly
    this: the controller's eight subscriptions are cancelled (the one to key
    messages twice), the model is torn down, the media element is detached
    and the need-key subscription is cancelled.  The controller is left
    without a key system and without a protection model - but with its
    queue of pending batches and its [initialized] flag as they were. *)
Theorem teardown_releases_the_model s :
  protectionModel s = true ->
  outcome_of (teardown s) = Returned tt /\
  trace_of (teardown s) = trace_of (abort_license_request s) ++ release_calls /\
  keySystem (state_of (teardown s)) = KsUndefined /\
  protectionModel (state_of (teardown s)) = false /\
  pendingNeedKeyData (state_of (teardown s)) = pendingNeedKeyData s /\
  initialized (state_of (teardown s)) = initialized s.
Proof.
  intros Hp. destruct (teardown_attached s Hp) as (s1 & subs & -> & Hq & Hi & _).
  cbn [state_of trace_of outcome_of fst snd keySystem protectionModel
       pendingNeedKeyData initialized set_protectionModel set_subscriptions
       set_keySystem].
  by split_and!.
Qed.

Lemma model_call_detached (c : ModelCall X) s :
  protectionModel s = false -> fails_with_TypeError (model_call c s) s.
Proof.
  intros Hd. unfold fails_with_TypeError, model_call. run_m. rewrite Hd.
  split_and!; [done..|]. by eexists.
Qed.

Lemma bind_fails {A B} (m : M X A) (k : A -> M X B) s :
  fails_with_TypeError (m s) s -> fails_with_TypeError (bind m k s) s.
Proof.
  unfold fails_with_TypeError, bind. destruct (m s) as [[s1 t1] [a|e]].
  - intros (_ & _ & e & He & _). discriminate He.
  - intros (Hs & Ht & e' & He & Hn). cbn in *. split_and!; [done..|].
    exists e'. split; [congruence | exact Hn].
Qed.

(** X16: once [teardown] has returned, the calls that go to the protection
    model fail with a [TypeError] before they have done anything - loading,
    removing and closing sessions, setting a certificate, attaching or
    detaching a media element, creating a session for data from which
    initialization data can be derived - and a second [teardown] throws as
    well.  [setMediaElement(undefined)] still does nothing. *)
Theorem calls_after_teardown_fail s :
  protectionModel s = true ->
  let s' := state_of (teardown s) in
  (forall sessionID, fails_with_TypeError (loadKeySession sessionID s') s') /\
  (forall token, fails_with_TypeError (removeKeySession token s') s') /\
  (forall token, fails_with_TypeError (closeKeySession token s') s') /\
  (forall cert, fails_with_TypeError (setServerCertificate cert s') s') /\
  (forall element, fails_with_TypeError (setMediaElement (Element element) s') s') /\
  fails_with_TypeError (setMediaElement ElementNull s') s' /\
  setMediaElement ElementUndefined s' = (s', [], Returned tt) /\
  (forall initData cdmData d,
     getPSSHForKeySystem X KsUndefined initData = Some d ->
     fails_with_TypeError (createKeySession initData cdmData s') s') /\
  (exists e, outcome_of (teardown s') = Thrown e /\ ex_name e = "TypeError").
Proof.
  intros Hp s'.
  destruct (teardown_attached s Hp) as (s1 & subs & Heq & _).
  assert (Hk : keySystem s' = KsUndefined) by (subst s'; by rewrite Heq).
  assert (Hd : protectionModel s' = false) by (subst s'; by rewrite Heq).
  clearbody s'. clear Heq s1 subs.
  split_and!.
  - intros ?. by apply model_call_detached.
  - intros ?. by apply model_call_detached.
  - intros ?. by apply model_call_detached.
  - intros ?. by apply model_call_detached.
  - intros ?. by apply bind_fails, model_call_detached.
  - by apply bind_fails, model_call_detached.
  - reflexivity.
  - intros initData cdmData d Hpssh. unfold fails_with_TypeError, createKeySession.
    run_m. rewrite Hk, Hpssh, Hd. split_and!; [done..|]. by eexists.
  - pose proof (abort_license_request_preserves
                  (fun s1 => protectionModel s1 = false)
                  ltac:(intros; assumption) ltac:(intros; assumption) s' Hd) as Hd1.
    destruct (abort_license_request_returns s') as [[] Hr].
    unfold teardown, bind.
    destruct (abort_license_request s') as [[s1 t1] o1]. cbn in Hd1, Hr. subst o1.
    unfold release_model, unsubscribe_all, unsubscribe. run_m. rewrite Hd1.
    by eexists.
Qed.

(** X17: [init] on a controller without a protection model - before
    [setup], or after [teardown] - with content protection that yields
    candidates: the call fails with a [TypeError] and [initialized] stays
    unset, but the batch has been queued and the controller is left in the
    "selecting" state without any access request having been made.  It
    stays there when [setup] attaches a model: batches that arrive then are
    queued, and nothing is requested. *)
Theorem init_without_model_wedges s cp (aCodec vCodec : JsStr) (batch : Batch) :
  initialized s = false ->
  keySystem s = KsUndefined ->
  protectionModel s = false ->
  getSupportedKeySystemsFromContentProtection X cp = Some batch ->
  batch <> [] ->
  let r := init cp aCodec vCodec s in
  trace_of r = [] /\
  (exists e, outcome_of r = Thrown e /\ ex_name e = "TypeError") /\
  initialized (state_of r) = false /\
  keySystem (state_of r) = KsNull /\
  pendingNeedKeyData (state_of r) = pendingNeedKeyData s ++ [batch] /\
  forall batch' fromManifest,
    let s1 := state_of (setup (state_of r)) in
    selectKeySystem batch' fromManifest s1 =
      (set_pendingNeedKeyData (pendingNeedKeyData s1 ++ [batch']) s1, [], Returned tt).
Proof.
  intros Hi Hk Hp Hcp Hne r.
  assert (Heq : exists sel,
    r = (set_selections (selections s ++ [sel])
           (set_pendingNeedKeyData (pendingNeedKeyData s ++ [batch])
              (set_keySystem KsNull (set_codecs aCodec vCodec s))),
         [], Thrown (TypeError "this.protectionModel is undefined"))).
  { subst r. rewrite init_eq, Hi, Hcp.
    assert (bool_decide (length batch = 0) = false) as ->.
    { apply bool_decide_eq_false. by destruct batch. }
    cbn [negb when]. unfold selectKeySystem, new_selection, subscribe, push_pending.
    run_m. cbn [keySystem set_codecs]. rewrite Hk.
    cbn [protectionModel set_selections set_pendingNeedKeyData set_keySystem set_codecs].
    rewrite Hp. eexists. reflexivity. }
  destruct Heq as [sel ->].
  cbn [state_of trace_of outcome_of fst snd].
  split; [reflexivity|]. split; [by eexists|]. split; [exact Hi|].
  split; [reflexivity|]. split; [reflexivity|].
  intros batch' fromManifest. apply selectKeySystem_enqueues.
  apply (setup_preserves (fun s' => keySystem s' = KsNull));
    try (intros; assumption). reflexivity.
Qed.

(** *** Requests the controller has lost track of *)

Lemma abort_license_request_other s id0 :
  xhrLicense s <> Some id0 ->
  xhrs (state_of (abort_license_request s)) !! id0 = xhrs s !! id0 /\
  Forall (fun a => a <> XhrAbort id0) (trace_of (abort_license_request s)).
Proof.
  intros Hl. unfold abort_license_request. rewrite bind_gets_eq.
  destruct (xhrLicense s) as [id2|] eqn:Hx; [|by split].
  assert (Hne : id0 <> id2) by congruence.
  unfold xhr_abort, if_outstanding, xhr_onerror_onloadend, set_needFailureReport, notify.
  split.
  - set (P := fun s' : State X => xhrs s' !! id0 = xhrs s !! id0).
    assert (Hupd : forall f, preserves P (update_xhr id2 f)).
    { intros f s' Hs'. unfold P in *. cbn [update_xhr modify state_of fst xhrs set_xhrs].
      by rewrite list_lookup_alter_ne. }
    assert (HL : forall v s', P s' -> P (set_xhrLicense v s')) by (intros; assumption).
    match goal with
    | |- xhrs (state_of (?m s)) !! id0 = _ =>
        assert (HP : preserves P m) by preserve; exact (HP s eq_refl)
    end.
  - match goal with
    | |- Forall ?Q (trace_of (?m s)) =>
        assert (HE : emits_only Q m) by (unfold update_xhr; emitting); exact (HE s)
    end.
Qed.

Lemma teardown_other s id0 :
  xhrLicense s <> Some id0 ->
  xhrs (state_of (teardown s)) !! id0 = xhrs s !! id0 /\
  Forall (fun a => a <> XhrAbort id0) (trace_of (teardown s)).
Proof.
  intros Hl. destruct (abort_license_request_other s id0 Hl) as [Hx Ht].
  unfold teardown. split.
  - apply (bind_state (fun s' => xhrs s' !! id0 = xhrs s !! id0)); [exact Hx|].
    intros _. apply release_model_preserves; intros; assumption.
  - apply bind_trace; [exact Ht|]. intros _. apply release_model_emits. discriminate.
Qed.

(** X18: [teardown] aborts the tracked request only.  A license exchange
    that is outstanding but no longer tracked - a later key message has
    replaced it - is not aborted, is still outstanding after [teardown], and
    when it fails then, the LicenseServerError fault is raised. *)
Theorem teardown_spares_untracked_request s (id0 : nat) (x : Xhr) (c : XhrClosure) :
  xhrLicense s <> Some id0 ->
  xhrs s !! id0 = Some x ->
  handlers x = Some c ->
  needFailureReport c = true ->
  outstanding x = true ->
  aborted x = false ->
  Forall (fun a => a <> XhrAbort id0) (trace_of (teardown s)) /\
  xhrs (state_of (teardown s)) !! id0 = Some x /\
  forall response,
    trace_of (xhr_network_error id0 response (state_of (teardown s))) =
      [Notify (LICENSER_ERROR (c_url c) 0 (error_body c response))].
Proof.
  intros Hl Hx Hh Hn Ho Ha. destruct (teardown_other s id0 Hl) as [Hx' Ht].
  rewrite Hx in Hx'. split; [exact Ht|]. split; [exact Hx'|].
  intros response. exact (xhr_network_error_trace _ id0 x c response Hx' Hh Hn Ho Ha).
Qed.






(** *** A selection that is under way when [teardown] is called *)

Lemma set_keySystem_same s f : keySystem s = f -> set_keySystem f s = s.
Proof. intros <-. by destruct s. Qed.

(** X20: [teardown] cancels the subscriptions of the controller itself and
    no others: the listeners of a selection that is under way stay
    subscribed.  When the events of that selection are delivered after
    [teardown]: a selection error is still reported - on the public bus
    unless the batch came from the manifest, and as AccessDenied fault; an
    access denial fails with a [TypeError] and nothing is reported; an
    access grant fails with a [TypeError] and the protection model is not
    asked to select anything; a selection success fails with a [TypeError]
    before anything is replayed. *)
Theorem teardown_does_not_cancel_selection s (a : nat) (sel : Selection X) :
  protectionModel s = true ->
  selections s !! a = Some sel ->
  let s' := state_of (teardown s) in
  Forall (fun act => forall name o, act = Model (model_unsubscribe name o) ->
                                    o = ObsController)
    (trace_of (teardown s)) /\
  (forall error,
     truthy error = true ->
     handle (ObsKsSelected a) (key_system_selected error) s' =
       (s',
        (if sel_fromManifest sel then []
         else [Dispatch (KEY_SYSTEM_SELECTED_error
                           ("[DRM] Error selecting key system! -- " +:+ text_of error))])
          ++ [Notify (ACCESS_DENIED (sel_keySystemsInfo sel))],
        Returned tt)) /\
  (forall error,
     truthy error = false ->
     fails_with_TypeError (handle (ObsKsSelected a) (key_system_selected error) s') s') /\
  (forall data error,
     truthy error = true ->
     fails_with_TypeError
       (handle (ObsKsSelected a) (key_system_access_complete data error) s') s') /\
  (forall data error,
     truthy error = false ->
     trace_of (handle (ObsKsSelected a) (key_system_access_complete data error) s') = [] /\
     keySystem (state_of (handle (ObsKsSelected a)
                            (key_system_access_complete data error) s')) = KsUndefined /\
     exists e,
       outcome_of (handle (ObsKsSelected a) (key_system_access_complete data error) s')
         = Thrown e /\
       ex_name e = "TypeError").
Proof.
  intros Hp Hsel s'.
  destruct (teardown_attached s Hp) as (s1 & subs & Heq & _ & _ & Hs1).
  assert (Ht : trace_of (teardown s) = trace_of (abort_license_request s) ++ release_calls)
    by (by rewrite Heq).
  assert (Hk : keySystem s' = KsUndefined) by (subst s'; by rewrite Heq).
  assert (Hd : protectionModel s' = false) by (subst s'; by rewrite Heq).
  assert (Hsel' : selections s' !! a = Some sel).
  { subst s'. rewrite Heq. cbn [state_of fst selections set_protectionModel
                                 set_subscriptions set_keySystem]. by rewrite Hs1. }
  clear Heq Hs1 s1 subs. split.
  - rewrite Ht. apply Forall_app. split.
    + match goal with
      | |- Forall ?Q (trace_of (?m s)) =>
          assert (HE : emits_only Q m); [|exact (HE s)]
      end.
      unfold abort_license_request, xhr_abort, if_outstanding, xhr_onerror_onloadend,
        set_needFailureReport, update_xhr, notify.
      emitting.
    + unfold release_calls. cbn [map]. repeat constructor; intros name o [= _ <-]; reflexivity.
  - clearbody s'. split_and!.
    + intros error He. cbn [handle]. rewrite bind_gets_eq, Hsel'.
      rewrite (ksSelected_SELECTED_fails s' a _ _ error He).
      by rewrite (set_keySystem_same s' KsUndefined Hk).
    + intros error He. cbn [handle]. rewrite bind_gets_eq, Hsel'.
      unfold fails_with_TypeError, ksSelected_SELECTED. rewrite He. cbn [negb].
      run_m. rewrite Hd. split_and!; [done..|]. by eexists.
    + intros data error He. cbn [handle]. rewrite bind_gets_eq, Hsel'.
      unfold fails_with_TypeError, ksSelected_ACCESS_COMPLETE, unsubscribe. rewrite He.
      run_m. cbn [protectionModel set_keySystem]. rewrite Hd.
      cbn [fst snd]. split_and!; [by apply set_keySystem_same|done|]. by eexists.
    + intros data error He. cbn [handle]. rewrite bind_gets_eq, Hsel'.
      unfold ksSelected_ACCESS_COMPLETE, set_keySystemAccess. rewrite He.
      destruct data as [access|]; run_m; cbn [protectionModel set_selections keySystem];
        rewrite ?Hd; cbn [fst snd]; (split_and!; [done|exact Hk|by eexists]).
Qed.

(** *** From the access grant to the announcement *)

Lemma bind_modify_eq {B} (f : State X -> State X) (k : unit -> M X B) s :
  bind (modify f) k s = k tt (f s).
Proof. unfold bind, modify. by destruct (k tt (f s)) as [[??]?]. Qed.

(** X21: when access is granted with an access object, the first listener
    of a selection keeps that object and asks the protection model to select
    the key system, leaving the controller's own key system and the queue as
    they are; when the protection model then reports the selection, the
    public event carries that very access object, whatever happened to the
    protection model in between.  When the event carries no access object,
    the listener throws a [TypeError] and the protection model is not asked
    to select anything: the controller stays as it is. *)
Theorem granted_access_is_announced
    s (a : nat) (sel : Selection X) (access : KeySystemAccess X)
    (error error' : JsStr) (g : Gateway X) :
  protectionModel s = true ->
  selections s !! a = Some sel ->
  truthy error = false ->
  truthy error' = false ->
  let r := handle (ObsKsSelected a) (key_system_access_complete (Some access) error) s in
  let r0 := handle (ObsKsSelected a) (key_system_access_complete None error) s in
  trace_of r = [Model (model_selectKeySystem (Some access))] /\
  outcome_of r = Returned tt /\
  keySystem (state_of r) = keySystem s /\
  pendingNeedKeyData (state_of r) = pendingNeedKeyData s /\
  (exists rest,
     trace_of (handle (ObsKsSelected a) (key_system_selected error')
                 (set_model g (state_of r))) =
       Dispatch (KEY_SYSTEM_SELECTED (Some access)) :: rest) /\
  trace_of r0 = [] /\
  (exists e, outcome_of r0 = Thrown e /\ ex_name e = "TypeError") /\
  keySystem (state_of r0) = keySystem s /\
  pendingNeedKeyData (state_of r0) = pendingNeedKeyData s.
Proof.
  intros Hp Hsel He He' r r0.
  assert (Hr : r = (set_selections
                      (alter (fun sel => {| sel_supportedKS := sel_supportedKS sel;
                                            sel_fromManifest := sel_fromManifest sel;
                                            sel_keySystemsInfo := sel_keySystemsInfo sel;
                                            sel_ksIdx := sel_ksIdx sel;
                                            sel_keySystemAccess := Some access |})
                         a (selections s)) s,
                    [Model (model_selectKeySystem (Some access))], Returned tt)).
  { subst r. cbn [handle]. rewrite bind_gets_eq, Hsel.
    unfold ksSelected_ACCESS_COMPLETE, set_keySystemAccess. rewrite He. run_m.
    cbn [protectionModel set_selections]. rewrite Hp. reflexivity. }
  assert (Hr0 : r0 = (set_selections
                        (alter (fun sel => {| sel_supportedKS := sel_supportedKS sel;
                                              sel_fromManifest := sel_fromManifest sel;
                                              sel_keySystemsInfo := sel_keySystemsInfo sel;
                                              sel_ksIdx := sel_ksIdx sel;
                                              sel_keySystemAccess := None |})
                           a (selections s)) s,
                      [], Thrown (TypeError "keySystemAccess is null"))).
  { subst r0. cbn [handle]. rewrite bind_gets_eq, Hsel.
    unfold ksSelected_ACCESS_COMPLETE, set_keySystemAccess. rewrite He. run_m.
    reflexivity. }
  rewrite Hr, Hr0. cbn [state_of trace_of outcome_of fst snd].
  split; [reflexivity|]. split; [reflexivity|]. split; [reflexivity|].
  split; [reflexivity|]. split; [|split; [reflexivity|split; [by eexists|by split]]].
  cbn [handle]. rewrite bind_gets_eq. cbn [selections set_model set_selections].
  rewrite list_lookup_alter_eq, Hsel. cbn [fmap option_fmap option_map].
  rewrite ksSelected_SELECTED_replays by (exact Hp || exact He').
  rewrite bind_modify_eq. unfold dispatchEvent, emit. unfold bind at 1.
  cbn [selections set_model set_selections set_keySystem].
  rewrite list_lookup_alter_eq, Hsel. cbn [fmap option_fmap option_map mbind option_bind
                                          sel_keySystemAccess].
  match goal with |- context [create_sessions ?l ?s0] =>
    destruct (create_sessions l s0) as [[s2 t2] o2] end.
  cbn [trace_of fst snd app]. by eexists.
Qed.

End Proofs.

(** ** The [ArrayBuffer.prototype.slice] fallback *)

Lemma ToInt32_small n : (- 2 ^ 31 <= n < 2 ^ 31)%Z -> ToInt32 n = n.
Proof. intros H. unfold ToInt32. rewrite Z.mod_small; lia. Qed.

Lemma ToInt32_wraps n i : ToInt32 (n + 2 ^ 32 * i) = ToInt32 n.
Proof.
  unfold ToInt32.
  replace (n + 2 ^ 32 * i + 2 ^ 31)%Z with (n + 2 ^ 31 + i * 2 ^ 32)%Z by lia.
  by rewrite Z_mod_plus_full.
Qed.


(** The bytes from the position [begin] stands for up to the position
    [end] stands for. *)
Lemma slice_eq (this : bytes) (b e : option Z) :
  let len := Z.of_nat (length this) in
  let first := relative len (match b with Some b => ToInt32 b | None => 0%Z end) in
  let final := relative len (match e with Some e => ToInt32 e | None => len end) in
  slice this b e = take (Z.to_nat (final - first)) (drop (Z.to_nat first) this).
Proof.
  intros len first final. unfold slice. cbv zeta. fold len.
  set (b' := match b with Some b => ToInt32 b | None => 0%Z end) in *.
  set (e' := match e with Some e => ToInt32 e | None => len end) in *.
  unfold relative in first, final.
  assert (Hlen : (0 <= len)%Z) by lia.
  assert (Hl : length this = Z.to_nat len) by lia.
  clearbody len b' e'.
  destruct (b' <? 0)%Z eqn:Hb; destruct (e' <? 0)%Z eqn:He; subst first final;
  match goal with |- context [if ?c then _ else _] =>
    match c with (_ || _)%bool => destruct c eqn:Hc end end;
  try (f_equal; [|f_equal]; lia).
  all: symmetry.
  all: destruct (decide (len = 0)%Z) as [->|Hn];
    [destruct this; [by rewrite drop_nil, take_nil | discriminate]|].
  all: match goal with |- take ?n (drop ?k _) = [] =>
     destruct (decide (Z.to_nat len <= k)) as [Hk|Hk];
       [rewrite drop_ge by lia; apply take_nil
       |replace n with 0 by lia; apply take_0] end.
Qed.

Lemma relative_0 len : (0 <= len)%Z -> relative len 0 = 0%Z.
Proof. intros H. unfold relative. cbn. lia. Qed.

Lemma relative_len len : (0 <= len)%Z -> relative len len = len.
Proof. intros H. unfold relative. destruct (Z.ltb_spec len 0); lia. Qed.

Lemma relative_bounds len i : (0 <= len)%Z -> (0 <= relative len i <= len)%Z.
Proof. intros H. unfold relative. destruct (Z.ltb_spec i 0); lia. Qed.

Lemma slice_from (this : bytes) (b : option Z) :
  slice this b None =
    drop (Z.to_nat (relative (Z.of_nat (length this))
                      (match b with Some b => ToInt32 b | None => 0%Z end))) this.
Proof.
  rewrite slice_eq. rewrite relative_len by lia.
  apply take_ge. rewrite length_drop.
  pose proof (relative_bounds (Z.of_nat (length this))
                (match b with Some b => ToInt32 b | None => 0%Z end)). lia.
Qed.

Lemma slice_to (this : bytes) (e : option Z) :
  slice this None e =
    take (Z.to_nat (relative (Z.of_nat (length this))
                      (match e with Some e => ToInt32 e | None => Z.of_nat (length this) end)))
      this.
Proof. rewrite slice_eq. rewrite relative_0 by lia. by rewrite Z.sub_0_r. Qed.

(** X2: for arguments that fit in 32 bits, [slice(begin, end)] is the part
    of the buffer from [begin] up to, not including, [end], where a negative
    index counts from the end of the buffer and every index is kept within
    the buffer; it is empty when [end] does not lie after [begin].  Without
    [end] the part runs to the end of the buffer. *)
Theorem slice_in_range (this : bytes) (b e : Z) :
  (- 2 ^ 31 <= b < 2 ^ 31)%Z ->
  (- 2 ^ 31 <= e < 2 ^ 31)%Z ->
  let len := Z.of_nat (length this) in
  let first := if (b <? 0)%Z then Z.max (len + b) 0 else Z.min b len in
  let final := if (e <? 0)%Z then Z.max (len + e) 0 else Z.min e len in
  slice this (Some b) (Some e) =
    take (Z.to_nat (final - first)) (drop (Z.to_nat first) this) /\
  slice this (Some b) None = drop (Z.to_nat first) this.
Proof.
  intros Hb He len first final. rewrite slice_from, slice_eq.
  rewrite !ToInt32_small by assumption. split; reflexivity.
Qed.

(** X3: cutting a buffer in two at any index loses nothing: the bytes
    before the index followed by the bytes from the index on are the
    buffer, whatever the index. *)
Theorem slice_partition (this : bytes) (k : Z) :
  slice this None (Some k) ++ slice this (Some k) None = this.
Proof. rewrite slice_from, slice_to. apply take_drop. Qed.

(** X4: the arguments are taken modulo 2^32: indices that differ by a
    multiple of 2^32 give the same result, so an index beyond 32 bits is
    not kept within the buffer but wraps around. *)
Theorem slice_wraps_arguments (this : bytes) (b e i j : Z) :
  slice this (Some (b + 2 ^ 32 * i)%Z) (Some (e + 2 ^ 32 * j)%Z) =
    slice this (Some b) (Some e).
Proof. unfold slice. by rewrite !ToInt32_wraps. Qed.


(** ** The theorems at work on the concrete player *)

(** Splits a conjunction of closed facts and computes each. *)
Ltac compute_each :=
  repeat match goal with |- _ /\ _ => split end; vm_compute; reflexivity.

Lemma license_exchange_outcome_witness :
  xhrs requesting !! 0 = Some (sent_request closure0) /\
  handlers (sent_request closure0) = Some closure0 /\
  needFailureReport closure0 = true /\
  outstanding (sent_request closure0) = true /\
  aborted (sent_request closure0) = false /\
  protectionModel requesting = true /\
  trace_of (xhr_responds 0 200 4 (RBuffer (octets [9])) requesting) =
    [Model (model_updateKeySession token0 (octets [9]))] /\
  trace_of (xhr_responds 0 500 4 (RText "denied") requesting) =
    [Notify (LICENSER_ERROR (JString "https://default.example/license") 500 "denied")] /\
  trace_of (xhr_network_error 0 RNull requesting) =
    [Notify (LICENSER_ERROR (JString "https://default.example/license") 0 "")].
Proof.
  assert (H1 : xhrs requesting !! 0 = Some (sent_request closure0))
    by (vm_compute; reflexivity).
  assert (H6 : protectionModel requesting = true) by (vm_compute; reflexivity).
  destruct (license_exchange_outcome requesting 0 (sent_request closure0) closure0
              H1 eq_refl eq_refl eq_refl eq_refl H6) as [Hr He].
  split; [exact H1|]. do 4 (split; [reflexivity|]). split; [exact H6|].
  split; [|split].
  - exact (Hr 200%Z 4%Z (RBuffer (octets [9]))).
  - exact (Hr 500%Z 4%Z (RText "denied")).
  - exact (He RNull).
Defined.

(** C1 as stated fails: status 204 lies in [200,299], the exchange is
    complete and its body would parse, yet the outcome is the
    LicenseServerError fault and no session update. *)
Lemma status_204_is_reported_as_failure :
  spec_success 204 4 = true /\
  key_material closure0 200 4 (RBuffer (octets [9])) = Some (octets [9]) /\
  trace_of (xhr_responds 0 204 4 (RBuffer (octets [9])) requesting) =
    [Notify (LICENSER_ERROR (JString "https://default.example/license") 204 "unreadable")].
Proof. compute_each. Qed.

Lemma onKeyMessage_sends_without_challenge_witness :
  keySystem (selected_on gateway0) = KsObj playready /\
  message (challenge [0]) = Some (octets [0]) /\
  octets [0] <> [] /\
  getLicenseRequestFromMessage player playready (octets [0]) = None /\
  trace_of (onKeyMessage (challenge [0]) (selected_on gateway0)) =
    [Dispatch (KEY_MESSAGE (challenge [0])); XhrNew 0;
     XhrOpen 0 "POST" (JString "https://default.example/license");
     XhrResponseType 0 "arraybuffer";
     XhrSetRequestHeader 0 "Content-Type" "text/xml";
     Notify (NO_CHALLENGE "No license challenge from CDM key message");
     XhrSend 0 None].
Proof.
  assert (H1 : keySystem (selected_on gateway0) = KsObj playready)
    by (vm_compute; reflexivity).
  assert (H3 : octets [0] <> []) by discriminate.
  destruct (onKeyMessage_sends_without_challenge (selected_on gateway0)
              (challenge [0]) playready echo_server (octets [0])
              H1 eq_refl H3 eq_refl eq_refl eq_refl eq_refl) as [before Hb].
  split; [exact H1|]. split; [reflexivity|]. split; [exact H3|]. split; [reflexivity|].
  rewrite Hb. f_equal.
  apply (app_inv_tail
           [Notify (NO_CHALLENGE "No license challenge from CDM key message");
            XhrSend 0 None]).
  rewrite <- Hb. vm_compute. reflexivity.
Defined.

Lemma pending_batches_replayed_once_on_success_witness :
  protectionModel selecting = true /\
  keySystem selecting = KsNull /\
  protectionModel (state_of (teardown selecting)) = false /\
  pendingNeedKeyData
    (state_of (selectKeySystem (getSupportedKeySystems player (octets [9])) false selecting)) =
    pendingNeedKeyData selecting ++ [getSupportedKeySystems player (octets [9])] /\
  sessions_requested (trace_of (ksSelected_SELECTED 0 false [] JNull selecting)) =
    [octets [2; 7]; octets [2; 8]] /\
  pendingNeedKeyData (state_of (ksSelected_SELECTED 0 false [] JNull selecting)) =
    pendingNeedKeyData selecting /\
  sessions_requested
    (trace_of (ksSelected_SELECTED 0 false [] (JString "no CDM") selecting)) = [] /\
  trace_of (ksSelected_SELECTED 0 false [] JNull (state_of (teardown selecting))) = [].
Proof.
  assert (H1 : protectionModel selecting = true) by (vm_compute; reflexivity).
  assert (H2 : keySystem selecting = KsNull) by (vm_compute; reflexivity).
  assert (H3 : protectionModel (state_of (teardown selecting)) = false)
    by (vm_compute; reflexivity).
  destruct (pending_batches_replayed_once_on_success selecting 0 false [] JNull
              (getSupportedKeySystems player (octets [9])))
    as (Henq & _ & Hok & _ & _).
  destruct (pending_batches_replayed_once_on_success selecting 0 false []
              (JString "no CDM") []) as (_ & _ & _ & Hfail & _).
  destruct (pending_batches_replayed_once_on_success (state_of (teardown selecting))
              0 false [] JNull []) as (_ & _ & _ & _ & Hgone).
  split; [exact H1|]. split; [exact H2|]. split; [exact H3|].
  split; [|split; [|split; [|split]]].
  - rewrite (Henq H2). reflexivity.
  - destruct (Hok H1 eq_refl) as [-> _]. vm_compute. reflexivity.
  - apply (Hok H1 eq_refl).
  - apply (Hfail eq_refl).
  - apply (Hgone H3 eq_refl).
Defined.

(** Scenario A of the specification: two queued batches, each with a
    Widevine and a PlayReady candidate; PlayReady is selected; two sessions
    are created, both from the PlayReady entries. *)
Example scenario_A :
  sessions_requested
    (@run player
       [call_setup; call_setMediaElement (Element (X:=player) tt);
        model_event (need_key (encrypted [7]));
        model_event (need_key (encrypted [8]));
        model_event (key_system_access_complete (X:=player) (Some playready) JNull);
        model_event (key_system_selected JNull)]
       (constructed player gateway0)).2 =
    [octets [2; 7]; octets [2; 8]].
Proof. vm_compute. reflexivity. Qed.

(** A batch is replayed at every successful selection that follows it: the
    batch of the first need-key event is replayed when the first selection
    succeeds, and again - after [teardown], [setup] and a new selection - next
    to the batch that started that selection. *)
Example reselection_replays_the_queue_again :
  sessions_requested
    (@run player
       [call_setup; call_setMediaElement (Element (X:=player) tt);
        model_event (need_key (encrypted [7]));
        model_event (key_system_access_complete (X:=player) (Some playready) JNull);
        model_event (key_system_selected JNull);
        call_teardown; call_setup; call_setMediaElement (Element (X:=player) tt);
        model_changes (X:=player) gateway0;
        model_event (need_key (encrypted [8]));
        model_event (key_system_access_complete (X:=player) (Some playready) JNull);
        model_event (key_system_selected JNull)]
       (constructed player gateway0)).2 =
    [octets [2; 7]; octets [2; 7]; octets [2; 8]].
Proof. vm_compute. reflexivity. Qed.

(** C3 as stated fails on the failure path: two batches are queued, access
    is denied, and the resolution replays neither of them: no session is
    asked for, the batches stay in the queue, the selection is back to
    unset, and no listener of the selection is left to replay them. *)
Lemma selection_failure_replays_nothing :
  length (pendingNeedKeyData selecting) = 2 /\
  trace_of (model_notify (key_system_access_complete None (JString "denied")) selecting) =
    [Model (model_unsubscribe ENAME_KEY_SYSTEM_SELECTED (ObsKsSelected 0));
     Dispatch (KEY_SYSTEM_SELECTED_error "[DRM] KeySystem Access Denied! -- denied");
     Notify (ACCESS_DENIED [info_of {| ks := widevine; initData := []; cdmData := None |};
                            info_of {| ks := playready; initData := []; cdmData := None |}])] /\
  sessions_requested
    (trace_of (model_notify (key_system_access_complete None (JString "denied")) selecting))
    = [] /\
  pendingNeedKeyData
    (state_of (model_notify (key_system_access_complete None (JString "denied")) selecting))
    = pendingNeedKeyData selecting /\
  keySystem
    (state_of (model_notify (key_system_access_complete None (JString "denied")) selecting))
    = KsUndefined /\
  List.filter (fun sb => negb (bool_decide (sub_observer sb = ObsController)))
    (subscriptions
       (state_of (model_notify (key_system_access_complete None (JString "denied"))
                    selecting))) = [].
Proof. compute_each. Qed.

Lemma player_lists_created_sessions (g : Gateway player) d st c g' :
  model_createKeySession player g d st c = (g', None) ->
  In d (model_getAllInitData player g').
Proof.
  cbn. destruct (gw_raises g); [discriminate|].
  intros [= <-]. cbn. apply in_or_app. right. by left.
Qed.

Lemma createKeySession_twice_witness :
  initDataEquals player (octets [2; 9]) (octets [2; 9]) = true /\
  protectionModel (selected_on gateway0) = true /\
  keySystem (selected_on gateway0) = KsObj playready /\
  getPSSHForKeySystem player (keySystem (selected_on gateway0)) (octets [9])
    = Some (octets [2; 9]) /\
  sessions_requested
    (trace_of (createKeySession (octets [9]) None (selected_on gateway0))
       ++ trace_of (createKeySession (octets [9]) None
                      (state_of (createKeySession (octets [9]) None
                                   (selected_on gateway0))))) = [octets [2; 9]].
Proof.
  assert (H2 : protectionModel (selected_on gateway0) = true) by (vm_compute; reflexivity).
  assert (H3 : keySystem (selected_on gateway0) = KsObj playready)
    by (vm_compute; reflexivity).
  assert (H4 : getPSSHForKeySystem player (keySystem (selected_on gateway0)) (octets [9])
               = Some (octets [2; 9])) by (vm_compute; reflexivity).
  assert (H5 : (model_createKeySession player (model (selected_on gateway0))
                  (octets [2; 9]) (ksSessionType (selected_on gateway0) playready) None).2
               = None) by (vm_compute; reflexivity).
  destruct (createKeySession_twice (selected_on gateway0) playready
              (octets [9]) (octets [9]) (octets [2; 9]) None None
              player_lists_created_sessions eq_refl H2 H3 H4 H4 H5) as [Hnoop _].
  split; [reflexivity|]. split; [exact H2|]. split; [exact H3|]. split; [exact H4|].
  rewrite Hnoop. vm_compute. reflexivity.
Defined.

(** C4 as stated fails when the protection model refuses to create a
    session: the exception is caught, nothing is recorded, and the second
    call with the same data issues the session-create call again. *)
Lemma refused_session_is_requested_twice :
  getPSSHForKeySystem player (keySystem (selected_on refusing_gateway)) (octets [9])
    = Some (octets [2; 9]) /\
  sessions_requested
    (trace_of (createKeySession (octets [9]) None (selected_on refusing_gateway))
       ++ trace_of (createKeySession (octets [9]) None
                      (state_of (createKeySession (octets [9]) None
                                   (selected_on refusing_gateway)))))
    = [octets [2; 9]; octets [2; 9]].
Proof. compute_each. Qed.

Lemma license_url_resolution_witness :
  keySystem (configured scenario_B) = KsObj playready /\
  message (challenge [1; 2; 3]) = Some (octets [1; 2; 3]) /\
  octets [1; 2; 3] <> [] /\
  url_of (licenseServerURL player playready (Some scenario_B) "license-request"
            (challenge [1; 2; 3])) = Some "https://ls/a" /\
  exists rest,
    trace_of (onKeyMessage (challenge [1; 2; 3]) (configured scenario_B)) =
      Dispatch (KEY_MESSAGE (challenge [1; 2; 3])) :: XhrNew 0
        :: XhrOpen 0 "POST" (JString "https://ls/a") :: rest.
Proof.
  assert (H1 : keySystem (configured scenario_B) = KsObj playready)
    by (vm_compute; reflexivity).
  assert (H3 : octets [1; 2; 3] <> []) by discriminate.
  destruct (license_url_resolution (configured scenario_B) (challenge [1; 2; 3])
              playready echo_server (octets [1; 2; 3]) H1 eq_refl H3 eq_refl eq_refl)
    as (Hspec & _ & _ & Hopen).
  split; [exact H1|]. split; [reflexivity|]. split; [exact H3|]. split.
  - etrans; [apply Hspec; vm_compute; reflexivity|]. vm_compute. reflexivity.
  - apply Hopen. vm_compute. reflexivity.
Defined.

(** C5 as stated fails: the per-system URL is a mapping with no entry for
    "license-request", the deprecated field holds a URL, and the request
    goes to the host's default URL instead of the deprecated field's. *)
Lemma deprecated_url_is_skipped :
  spec_licenseServerURL player playready (Some renewal_only) "license-request"
    (challenge [1; 2; 3]) = Some "https://la.example/rightsmanager" /\
  url_of (licenseServerURL player playready (Some renewal_only) "license-request"
            (challenge [1; 2; 3])) = Some "https://default.example/license" /\
  trace_of (onKeyMessage (challenge [1; 2; 3]) (configured renewal_only)) =
    [Dispatch (KEY_MESSAGE (challenge [1; 2; 3])); XhrNew 0;
     XhrOpen 0 "POST" (JString "https://default.example/license");
     XhrResponseType 0 "arraybuffer";
     XhrSetRequestHeader 0 "Content-Type" "text/xml";
     XhrSend 0 (Some (octets [1; 2; 3]))].
Proof. compute_each. Qed.

Lemma onKeyMessage_empty_message_witness :
  keySystem (selected_on gateway0) = KsObj playready /\
  message_empty (Some []) = true /\
  onKeyMessage
    {| message := Some []; messageType := JUndefined; sessionToken := token0;
       defaultURL := JNull |} (selected_on gateway0) =
    (selected_on gateway0,
     [Dispatch (KEY_MESSAGE {| message := Some []; messageType := JUndefined;
                               sessionToken := token0; defaultURL := JNull |});
      Notify (NO_CHALLENGE "Empty key message from CDM")],
     Returned tt).
Proof.
  assert (H1 : keySystem (selected_on gateway0) = KsObj playready)
    by (vm_compute; reflexivity).
  split; [exact H1|]. split; [reflexivity|].
  exact (onKeyMessage_empty_message (selected_on gateway0)
           {| message := Some []; messageType := JUndefined; sessionToken := token0;
              defaultURL := JNull |} playready H1 eq_refl).
Defined.

Lemma teardown_aborts_without_fault_witness :
  xhrLicense requesting = Some 0 /\
  xhrs requesting !! 0 = Some (sent_request closure0) /\
  outstanding (sent_request closure0) = true /\
  In (XhrAbort 0) (trace_of (teardown requesting)) /\
  Forall (fun a => is_licenser_error a = false) (trace_of (teardown requesting)) /\
  trace_of (xhr_network_error 0 RNull (state_of (teardown requesting))) = [].
Proof.
  assert (H1 : xhrLicense requesting = Some 0) by (vm_compute; reflexivity).
  assert (H2 : xhrs requesting !! 0 = Some (sent_request closure0))
    by (vm_compute; reflexivity).
  destruct (teardown_aborts_without_fault requesting 0 (sent_request closure0)
              H1 H2 eq_refl) as (Ha & Hq & Hlater).
  split; [exact H1|]. split; [exact H2|]. split; [reflexivity|].
  split; [exact Ha|]. split; [exact Hq|]. apply (Hlater 0%Z 0%Z RNull).
Defined.

Lemma setSessionType_changes_nothing_witness :
  reachable (selected_on gateway0) /\
  setSessionType "persistent-license" (selected_on gateway0) =
    (selected_on gateway0, [], Returned tt) /\
  ksSessionType (selected_on gateway0) playready = "temporary".
Proof.
  assert (H : reachable (selected_on gateway0)) by (eexists _, _; reflexivity).
  destruct (setSessionType_changes_nothing (selected_on gateway0) "persistent-license" H)
    as [Hs Ht].
  split; [exact H|]. split; [exact Hs|]. exact (Ht playready).
Defined.

Lemma init_only_once_witness :
  outcome_of (init (X:=player) [] (JString "mp4a.40.2") (JString "avc1.4d401e")
                (selected_on gateway0)) = Returned tt /\
  init (X:=player) (getSupportedKeySystems player (octets [9])) JUndefined JUndefined
    (run [call_teardown; call_setup]
       (state_of (init (X:=player) [] (JString "mp4a.40.2") (JString "avc1.4d401e")
                    (selected_on gateway0)))).1 =
    ((run [call_teardown; call_setup]
        (state_of (init (X:=player) [] (JString "mp4a.40.2") (JString "avc1.4d401e")
                     (selected_on gateway0)))).1, [], Returned tt).
Proof.
  assert (H : outcome_of (init (X:=player) [] (JString "mp4a.40.2") (JString "avc1.4d401e")
                            (selected_on gateway0)) = Returned tt)
    by (vm_compute; reflexivity).
  split; [exact H|].
  exact (init_only_once (selected_on gateway0) [] _ _ [call_teardown; call_setup]
           (getSupportedKeySystems player (octets [9])) JUndefined JUndefined H).
Defined.

(** C9 as stated fails when the first call throws: on a controller that
    was torn down, [init] with candidates stores the codecs and queues the
    batch, then fails before the flag is set; the next [init] overwrites the
    codecs, queues a second batch and sets the flag. *)
Lemma init_that_throws_is_repeated :
  outcome_of init_torn_down = Thrown (TypeError "this.protectionModel is undefined") /\
  initialized (state_of init_torn_down) = false /\
  audioCodec (state_of init_torn_down) = JString "mp4a.40.2" /\
  length (pendingNeedKeyData (state_of init_torn_down)) = 1 /\
  audioCodec
    (state_of (init (X:=player) widevine_only (JString "ac-3") (JString "hvc1.1.6.L93")
                 (state_of init_torn_down))) = JString "ac-3" /\
  length
    (pendingNeedKeyData
       (state_of (init (X:=player) widevine_only (JString "ac-3") (JString "hvc1.1.6.L93")
                    (state_of init_torn_down)))) = 2 /\
  initialized
    (state_of (init (X:=player) widevine_only (JString "ac-3") (JString "hvc1.1.6.L93")
                 (state_of init_torn_down))) = true.
Proof. compute_each. Qed.

Lemma onNeedKey_ignored_witness :
  initDataType {| initDataType := "webm"; nk_initData := ArrayBuffer (octets [1]) |}
    <> "cenc" /\
  onNeedKey {| initDataType := "webm"; nk_initData := ArrayBuffer (octets [1]) |}
    (selected_on gateway0) = (selected_on gateway0, [], Returned tt).
Proof.
  assert (H : initDataType {| initDataType := "webm";
                              nk_initData := ArrayBuffer (octets [1]) |} <> "cenc")
    by discriminate.
  split; [exact H|].
  exact (onNeedKey_ignored (selected_on gateway0) _ (or_introl H)).
Defined.

(** ** The further theorems at work *)

Lemma slice_in_range_witness :
  (- 2 ^ 31 <= -3 < 2 ^ 31)%Z /\
  (- 2 ^ 31 <= 4 < 2 ^ 31)%Z /\
  slice (octets [1; 2; 3; 4; 5]) (Some (-3)%Z) (Some 4%Z) = octets [3; 4] /\
  slice (octets [1; 2; 3; 4; 5]) (Some (-3)%Z) None = octets [3; 4; 5].
Proof.
  assert (H1 : (- 2 ^ 31 <= -3 < 2 ^ 31)%Z) by lia.
  assert (H2 : (- 2 ^ 31 <= 4 < 2 ^ 31)%Z) by lia.
  pose proof (slice_in_range (octets [1; 2; 3; 4; 5]) (-3) 4 H1 H2) as H.
  cbv zeta in H. destruct H as [Ha Hb].
  split; [exact H1|]. split; [exact H2|]. split.
  - rewrite Ha. vm_compute. exact eq_refl.
  - rewrite Hb. vm_compute. exact eq_refl.
Defined.

Lemma codecs_fixed_once_initialized_witness :
  initialized initialized_player = true /\
  audioCodec (@run player
                [call_teardown; call_setup;
                 call_init (X:=player) both (JString "ac-3") (JString "hvc1.1.6.L93")]
                initialized_player).1 = JString "mp4a.40.2" /\
  videoCodec (@run player
                [call_teardown; call_setup;
                 call_init (X:=player) both (JString "ac-3") (JString "hvc1.1.6.L93")]
                initialized_player).1 = JString "avc1.4d401e".
Proof.
  assert (H : initialized initialized_player = true) by (vm_compute; exact eq_refl).
  destruct (codecs_fixed_once_initialized initialized_player
              [call_teardown; call_setup;
               call_init (X:=player) both (JString "ac-3") (JString "hvc1.1.6.L93")] H)
    as (_ & Ha & Hv).
  split; [exact H|]. split.
  - rewrite Ha. vm_compute. exact eq_refl.
  - rewrite Hv. vm_compute. exact eq_refl.
Defined.

Lemma selectKeySystem_without_candidate_witness :
  keySystem (selected_on gateway0) = KsObj playready /\
  Forall (fun c => same_ks playready (ks c) = false) widevine_only /\
  selectKeySystem widevine_only false (selected_on gateway0) =
    (selected_on gateway0, [], Returned tt).
Proof.
  assert (H1 : keySystem (selected_on gateway0) = KsObj playready)
    by (vm_compute; exact eq_refl).
  assert (H2 : Forall (fun c => same_ks playready (ks c) = false) widevine_only)
    by (repeat constructor).
  split; [exact H1|]. split; [exact H2|].
  exact (selectKeySystem_without_candidate (selected_on gateway0) playready
           widevine_only false H1 H2).
Defined.

Lemma selectKeySystem_revalidates_witness :
  keySystem (selected_on gateway0) = KsObj playready /\
  protectionModel (selected_on gateway0) = true /\
  first_match (KsObj playready) both = Some playready_candidate /\
  trace_of (selectKeySystem both false (selected_on gateway0)) =
    [Model (model_subscribe ENAME_KEY_SYSTEM_ACCESS_COMPLETE (ObsKsAccess 1) true);
     Model (model_requestKeySystemAccess (X:=player)
              [(playready, "com.microsoft.playready/temporary")])] /\
  trace_of (handle (ObsKsAccess 1)
              (key_system_access_complete (X:=player) (Some playready) JNull)
              (state_of (selectKeySystem both false (selected_on gateway0)))) =
    [Dispatch (KEY_SYSTEM_SELECTED (X:=player) (Some playready));
     Model (model_createKeySession_call (octets [2; 9]) "temporary" None)] /\
  handle (ObsKsAccess 1)
    (key_system_access_complete (X:=player) None (JString "denied"))
    (state_of (selectKeySystem both false (selected_on gateway0))) =
    (state_of (selectKeySystem both false (selected_on gateway0)),
     [Dispatch (KEY_SYSTEM_SELECTED_error "[DRM] KeySystem Access Denied! -- denied")],
     Returned tt).
Proof.
  assert (H1 : keySystem (selected_on gateway0) = KsObj playready)
    by (vm_compute; exact eq_refl).
  assert (H2 : protectionModel (selected_on gateway0) = true) by (vm_compute; exact eq_refl).
  assert (H3 : first_match (KsObj playready) both = Some playready_candidate)
    by (vm_compute; exact eq_refl).
  pose proof (selectKeySystem_revalidates (selected_on gateway0) playready both false
                playready_candidate H1 H2 H3) as H.
  cbv zeta in H. destruct H as (Ht & _ & _ & Hh).
  split; [exact H1|]. split; [exact H2|]. split; [exact H3|]. split; [|split].
  - rewrite Ht. vm_compute. exact eq_refl.
  - change 1 with (length (selections (selected_on gateway0))).
    rewrite (Hh (Some playready) JNull). vm_compute. exact eq_refl.
  - change 1 with (length (selections (selected_on gateway0))).
    rewrite (Hh None (JString "denied")). reflexivity.
Defined.

Lemma selectKeySystem_first_batch_witness :
  keySystem attached = KsUndefined /\
  protectionModel attached = true /\
  trace_of (selectKeySystem both false attached) =
    [Model (model_subscribe ENAME_KEY_SYSTEM_SELECTED (ObsKsSelected 0) true);
     Model (model_subscribe ENAME_KEY_SYSTEM_ACCESS_COMPLETE (ObsKsSelected 0) true);
     Model (model_requestKeySystemAccess (X:=player)
              [(widevine, "com.widevine.alpha/temporary");
               (playready, "com.microsoft.playready/temporary")])] /\
  keySystem (state_of (selectKeySystem both false attached)) = KsNull /\
  trace_of (handle (ObsKsSelected 0)
              (key_system_access_complete (X:=player) None (JString "denied"))
              (state_of (selectKeySystem both false attached))) =
    [Model (model_unsubscribe ENAME_KEY_SYSTEM_SELECTED (ObsKsSelected 0));
     Dispatch (KEY_SYSTEM_SELECTED_error "[DRM] KeySystem Access Denied! -- denied");
     Notify (ACCESS_DENIED (map info_of both))] /\
  pendingNeedKeyData
    (state_of (handle (ObsKsSelected 0)
                 (key_system_access_complete (X:=player) None (JString "denied"))
                 (state_of (selectKeySystem both false attached)))) = [both].
Proof.
  assert (H1 : keySystem attached = KsUndefined) by (vm_compute; exact eq_refl).
  assert (H2 : protectionModel attached = true) by (vm_compute; exact eq_refl).
  pose proof (selectKeySystem_first_batch attached both false H1 H2) as H.
  cbv zeta in H. destruct H as (Heq & Hk & _ & Hh).
  destruct (Hh None (JString "denied") eq_refl) as (Ht & _ & Hq).
  split; [exact H1|]. split; [exact H2|]. split; [|split; [exact Hk|split]].
  - rewrite Heq. vm_compute. exact eq_refl.
  - exact Ht.
  - exact Hq.
Defined.

Lemma init_starts_selection_witness :
  initialized attached = false /\
  keySystem attached = KsUndefined /\
  protectionModel attached = true /\
  getSupportedKeySystemsFromContentProtection player both = Some both /\
  both <> [] /\
  trace_of (init (X:=player) both (JString "mp4a.40.2") (JString "avc1.4d401e") attached) =
    [Model (model_subscribe ENAME_KEY_SYSTEM_SELECTED (ObsKsSelected 0) true);
     Model (model_subscribe ENAME_KEY_SYSTEM_ACCESS_COMPLETE (ObsKsSelected 0) true);
     Model (model_requestKeySystemAccess (X:=player)
              [(widevine, "com.widevine.alpha/temporary");
               (playready, "com.microsoft.playready/temporary")])] /\
  initialized
    (state_of (init (X:=player) both (JString "mp4a.40.2") (JString "avc1.4d401e") attached))
    = true /\
  pendingNeedKeyData
    (state_of (init (X:=player) both (JString "mp4a.40.2") (JString "avc1.4d401e") attached))
    = [both].
Proof.
  assert (H1 : initialized attached = false) by (vm_compute; exact eq_refl).
  assert (H2 : keySystem attached = KsUndefined) by (vm_compute; exact eq_refl).
  assert (H3 : protectionModel attached = true) by (vm_compute; exact eq_refl).
  assert (H5 : both <> []) by discriminate.
  pose proof (init_starts_selection attached both (JString "mp4a.40.2")
                (JString "avc1.4d401e") both H1 H2 H3 eq_refl H5) as H.
  cbv zeta in H. destruct H as (Ht & _ & Hi & _ & _ & _ & Hq & _).
  split; [exact H1|]. split; [exact H2|]. split; [exact H3|]. split; [reflexivity|].
  split; [exact H5|]. split; [|split; [exact Hi|exact Hq]].
  rewrite Ht. vm_compute. exact eq_refl.
Defined.

Lemma onKeyMessage_headers_and_credentials_witness :
  keySystem (configured with_token) = KsObj playready /\
  message (challenge [1; 2; 3]) = Some (octets [1; 2; 3]) /\
  octets [1; 2; 3] <> [] /\
  headers_set (trace_of (onKeyMessage (challenge [1; 2; 3]) (configured with_token))) =
    [("Authorization", "Bearer t0"); ("X-Request", "1"); ("Content-Type", "text/xml")] /\
  In (XhrWithCredentials 0)
    (trace_of (onKeyMessage (challenge [1; 2; 3]) (configured with_token))).
Proof.
  assert (H1 : keySystem (configured with_token) = KsObj playready)
    by (vm_compute; exact eq_refl).
  assert (H3 : octets [1; 2; 3] <> []) by discriminate.
  pose proof (onKeyMessage_headers_and_credentials (configured with_token)
                (challenge [1; 2; 3]) playready echo_server (octets [1; 2; 3])
                H1 eq_refl H3 eq_refl eq_refl eq_refl) as H.
  cbv zeta in H. destruct H as [Hh Hc].
  split; [exact H1|]. split; [reflexivity|]. split; [exact H3|]. split.
  - rewrite Hh. vm_compute. exact eq_refl.
  - change 0 with (length (xhrs (configured with_token))). apply Hc. right.
    apply Exists_exists. exists ("Authorization", "Bearer t0").
    split; [vm_compute; by left | reflexivity].
Defined.

Lemma createKeySession_only_for_new_data_witness :
  protectionModel (selected_on gateway0) = true /\
  keySystem (selected_on gateway0) = KsObj playready /\
  getPSSHForKeySystem player (keySystem (selected_on gateway0)) (octets [9])
    = Some (octets [2; 9]) /\
  sessions_requested (trace_of (createKeySession (octets [9]) None (selected_on gateway0)))
    = [octets [2; 9]].
Proof.
  assert (H1 : protectionModel (selected_on gateway0) = true) by (vm_compute; exact eq_refl).
  assert (H2 : keySystem (selected_on gateway0) = KsObj playready)
    by (vm_compute; exact eq_refl).
  assert (H3 : getPSSHForKeySystem player (keySystem (selected_on gateway0)) (octets [9])
               = Some (octets [2; 9])) by (vm_compute; exact eq_refl).
  destruct (createKeySession_only_for_new_data (selected_on gateway0) (octets [9]) None
              (octets [2; 9]) playready H1 H2 H3) as [Hs _].
  split; [exact H1|]. split; [exact H2|]. split; [exact H3|].
  rewrite Hs. vm_compute. exact eq_refl.
Defined.

Lemma createKeySession_reports_failures_witness :
  protectionModel (selected_on refusing_gateway) = true /\
  keySystem (selected_on refusing_gateway) = KsObj playready /\
  createKeySession (octets [9]) None (selected_on refusing_gateway) =
    (set_model refusing_gateway (selected_on refusing_gateway),
     [Model (model_createKeySession_call (octets [2; 9])
               (ksSessionType (selected_on refusing_gateway) playready) None);
      Notify (KEY_SESSION_CREATED_failed "Create key session raised en exception"
                (Some {| code := CodeOf None; msg := "Error";
                         data := OpaqueData (JString (ex_message refusal)) |}))],
     Returned tt).
Proof.
  assert (H1 : protectionModel (selected_on refusing_gateway) = true)
    by (vm_compute; exact eq_refl).
  assert (H2 : keySystem (selected_on refusing_gateway) = KsObj playready)
    by (vm_compute; exact eq_refl).
  destruct (createKeySession_reports_failures (selected_on refusing_gateway) (octets [9])
              None playready H1 H2) as (_ & _ & Hex).
  split; [exact H1|]. split; [exact H2|].
  apply (Hex (octets [2; 9]) refusing_gateway refusal); vm_compute; exact eq_refl.
Defined.

Lemma teardown_releases_the_model_witness :
  protectionModel requesting = true /\
  outcome_of (teardown requesting) = Returned tt /\
  trace_of (teardown requesting) = XhrAbort 0 :: release_calls /\
  keySystem (state_of (teardown requesting)) = KsUndefined /\
  pendingNeedKeyData (state_of (teardown requesting)) = pendingNeedKeyData requesting.
Proof.
  assert (H1 : protectionModel requesting = true) by (vm_compute; exact eq_refl).
  destruct (teardown_releases_the_model requesting H1) as (Ho & Ht & Hk & _ & Hq & _).
  split; [exact H1|]. split; [exact Ho|]. split; [|split; [exact Hk|exact Hq]].
  rewrite Ht. vm_compute. exact eq_refl.
Defined.

Lemma calls_after_teardown_fail_witness :
  protectionModel requesting = true /\
  fails_with_TypeError (loadKeySession "s0" (state_of (teardown requesting)))
    (state_of (teardown requesting)) /\
  fails_with_TypeError
    (setMediaElement (Element (X:=player) tt) (state_of (teardown requesting)))
    (state_of (teardown requesting)).
Proof.
  assert (H1 : protectionModel requesting = true) by (vm_compute; exact eq_refl).
  pose proof (calls_after_teardown_fail requesting H1) as H.
  cbv zeta in H. destruct H as (Hl & _ & _ & _ & He & _).
  split; [exact H1|]. split; [exact (Hl "s0") | exact (He tt)].
Defined.

Lemma init_without_model_wedges_witness :
  initialized (constructed player gateway0) = false /\
  keySystem (constructed player gateway0) = KsUndefined /\
  protectionModel (constructed player gateway0) = false /\
  getSupportedKeySystemsFromContentProtection player both = Some both /\
  both <> [] /\
  keySystem (state_of (init (X:=player) both JUndefined JUndefined
                         (constructed player gateway0))) = KsNull /\
  trace_of (onNeedKey (encrypted [7])
              (state_of (setMediaElement (Element (X:=player) tt)
                 (state_of (setup (state_of (init (X:=player) both JUndefined JUndefined
                                               (constructed player gateway0)))))))) = [].
Proof.
  assert (H5 : both <> []) by discriminate.
  pose proof (init_without_model_wedges (constructed player gateway0) both JUndefined
                JUndefined both eq_refl eq_refl eq_refl eq_refl H5) as H.
  cbv zeta in H. destruct H as (_ & _ & _ & Hk & _ & _).
  do 4 (split; [reflexivity|]). split; [exact H5|]. split; [exact Hk|].
  vm_compute. exact eq_refl.
Defined.

Lemma teardown_spares_untracked_request_witness :
  xhrLicense requesting_twice <> Some 0 /\
  xhrs requesting_twice !! 0 = Some (sent_request closure0) /\
  handlers (sent_request closure0) = Some closure0 /\
  needFailureReport closure0 = true /\
  outstanding (sent_request closure0) = true /\
  aborted (sent_request closure0) = false /\
  Forall (fun a => a <> XhrAbort 0) (trace_of (teardown requesting_twice)) /\
  trace_of (xhr_network_error 0 RNull (state_of (teardown requesting_twice))) =
    [Notify (LICENSER_ERROR (JString "https://default.example/license") 0 "")].
Proof.
  assert (H1 : xhrLicense requesting_twice <> Some 0)
    by (vm_compute; discriminate).
  assert (H2 : xhrs requesting_twice !! 0 = Some (sent_request closure0))
    by (vm_compute; exact eq_refl).
  destruct (teardown_spares_untracked_request requesting_twice 0 (sent_request closure0)
              closure0 H1 H2 eq_refl eq_refl eq_refl eq_refl) as (Ha & _ & He).
  split; [exact H1|]. split; [exact H2|]. do 4 (split; [reflexivity|]).
  split; [exact Ha|]. exact (He RNull).
Defined.


Lemma teardown_does_not_cancel_selection_witness :
  protectionModel selecting = true /\
  selections selecting !! 0 = Some first_selection /\
  handle (ObsKsSelected 0) (key_system_selected (X:=player) (JString "no CDM"))
    (state_of (teardown selecting)) =
    (state_of (teardown selecting),
     [Dispatch (KEY_SYSTEM_SELECTED_error "[DRM] Error selecting key system! -- no CDM");
      Notify (ACCESS_DENIED (sel_keySystemsInfo first_selection))],
     Returned tt) /\
  fails_with_TypeError
    (handle (ObsKsSelected 0) (key_system_selected (X:=player) JNull)
       (state_of (teardown selecting)))
    (state_of (teardown selecting)) /\
  fails_with_TypeError
    (handle (ObsKsSelected 0)
       (key_system_access_complete (X:=player) None (JString "denied"))
       (state_of (teardown selecting)))
    (state_of (teardown selecting)) /\
  trace_of (handle (ObsKsSelected 0)
              (key_system_access_complete (X:=player) (Some playready) JNull)
              (state_of (teardown selecting))) = [].
Proof.
  assert (H1 : protectionModel selecting = true) by (vm_compute; exact eq_refl).
  assert (H2 : selections selecting !! 0 = Some first_selection)
    by (vm_compute; exact eq_refl).
  pose proof (teardown_does_not_cancel_selection selecting 0 first_selection H1 H2) as H.
  cbv zeta in H. destruct H as (_ & Hf & Hs & Hd & Hg).
  split; [exact H1|]. split; [exact H2|]. split_and!.
  - exact (Hf (JString "no CDM") eq_refl).
  - exact (Hs JNull eq_refl).
  - exact (Hd None (JString "denied") eq_refl).
  - exact (proj1 (Hg (Some playready) JNull eq_refl)).
Defined.

Lemma onKeyMessage_without_request_witness :
  keySystem clearkey_selected = KsObj clearkey /\
  message (challenge [1; 2; 3]) = Some (octets [1; 2; 3]) /\
  octets [1; 2; 3] <> [] /\
  onKeyMessage release_message clearkey_selected =
    (clearkey_selected, [Dispatch (KEY_MESSAGE release_message)], Returned tt) /\
  onKeyMessage (challenge [1; 2; 3]) clearkey_selected =
    (clearkey_selected,
     [Dispatch (KEY_MESSAGE (challenge [1; 2; 3]));
      Model (model_updateKeySession token0 (octets [0; 1; 2; 3]))],
     Returned tt).
Proof.
  assert (H1 : keySystem clearkey_selected = KsObj clearkey) by (vm_compute; exact eq_refl).
  assert (H3 : octets [1; 2; 3] <> []) by discriminate.
  destruct (onKeyMessage_without_request clearkey_selected release_message clearkey
              (octets [1; 2; 3]) H1 eq_refl H3) as [Hnone _].
  destruct (onKeyMessage_without_request clearkey_selected (challenge [1; 2; 3]) clearkey
              (octets [1; 2; 3]) H1 eq_refl H3) as [_ Hclear].
  split; [exact H1|]. split; [reflexivity|]. split; [exact H3|]. split.
  - apply Hnone. vm_compute. exact eq_refl.
  - apply (Hclear echo_server (octets [0; 1; 2; 3])); vm_compute; exact eq_refl.
Defined.

Lemma granted_access_is_announced_witness :
  protectionModel selecting = true /\
  selections selecting !! 0 = Some first_selection /\
  trace_of (handle (ObsKsSelected 0)
              (key_system_access_complete (X:=player) (Some playready) JNull) selecting) =
    [Model (model_selectKeySystem (X:=player) (Some playready))] /\
  (exists rest,
     trace_of (handle (ObsKsSelected 0) (key_system_selected (X:=player) JNull)
                 (set_model gateway0
                    (state_of (handle (ObsKsSelected 0)
                                 (key_system_access_complete (X:=player) (Some playready) JNull)
                                 selecting)))) =
       Dispatch (KEY_SYSTEM_SELECTED (X:=player) (Some playready)) :: rest) /\
  trace_of (handle (ObsKsSelected 0)
              (key_system_access_complete (X:=player) None JNull) selecting) = [] /\
  keySystem (state_of (handle (ObsKsSelected 0)
                         (key_system_access_complete (X:=player) None JNull) selecting))
    = KsNull.
Proof.
  assert (H1 : protectionModel selecting = true) by (vm_compute; exact eq_refl).
  assert (H2 : selections selecting !! 0 = Some first_selection)
    by (vm_compute; exact eq_refl).
  pose proof (granted_access_is_announced selecting 0 first_selection
                (playready : KeySystemAccess player)
                JNull JNull gateway0 H1 H2 eq_refl eq_refl) as H.
  cbv zeta in H. destruct H as (Ht & _ & _ & _ & Ha & Ht0 & _ & Hk0 & _).
  split; [exact H1|]. split; [exact H2|]. split; [exact Ht|]. split; [exact Ha|].
  split; [exact Ht0|]. rewrite Hk0. vm_compute. exact eq_refl.
Defined.
